(** * bzrtp: ZRTP packet codec, key schedule and channel state machine

    A shallow embedding of [packetParser.c] and [stateMachine.c] together
    with the declarations of [typedef.h] and [stateMachine.h] they rely on.

    Conventions of the embedding:
    - a [uint8_t], [uint16_t] or [uint32_t] is a [Z]; casts and wrap-around
      are written out with [uint8_t], [uint16_t], [uint32_t];
    - a byte buffer is a [list Z]; a pointer that may be [NULL] is an
      [option];
    - a function that fills an output buffer returns that buffer;
    - functions declared in headers that are not part of the sources
      ([cryptoUtils.h], [bctoolbox/crypto.h], the host callbacks) are the
      fields of the classes [Externals] and [Host]. *)

From stdpp Require Import base numbers list option strings.

Local Open Scope Z_scope.

(** ** Machine integers and byte buffers *)

Definition uint8_t (x : Z) : Z := x `mod` 2 ^ 8.
Definition uint16_t (x : Z) : Z := x `mod` 2 ^ 16.
Definition uint32_t (x : Z) : Z := x `mod` 2 ^ 32.

(** [is_byte b]: [b] is a value of a [uint8_t] object. *)
Definition is_byte (b : Z) : Prop := 0 <= b < 256.
Definition is_bytes (l : list Z) : Prop := Forall is_byte l.

(** [buf[i]]: reading outside of the list (undefined in C) yields [0]. *)
Definition byte_at (buf : list Z) (i : Z) : Z :=
  if decide (0 <= i) then default 0 (buf !! Z.to_nat i) else 0.

(** The [n] bytes found at [buf + off]. *)
Definition bytes_at (buf : list Z) (off n : Z) : list Z :=
  take (Z.to_nat n) (drop (Z.to_nat off) buf).

(** [memcpy(buf + off, src, n)]: the bytes of [buf] from [off] on are
    replaced by the first [n] bytes of [src]. A copy that runs past the
    end of [buf] (a heap overflow in C) is cut at the end of [buf]. *)
Definition memcpy_at (buf : list Z) (off : Z) (src : list Z) (n : Z) : list Z :=
  let o := Z.to_nat off in
  let s := take (Z.to_nat n) src in
  take (length buf) (take o buf ++ s ++ drop (o + length s) buf).

(** [memcmp(s1, s2, n)]: bytes are compared as unsigned values, the sign
    of the first difference is returned. *)
Fixpoint memcmp (s1 s2 : list Z) (n : nat) : Z :=
  match n with
  | O => 0
  | S n' =>
      match s1, s2 with
      | a :: s1', b :: s2' =>
          if decide (a < b) then -1
          else if decide (b < a) then 1
          else memcmp s1' s2' n'
      | _, _ => 0
      end
  end.

(** The value of a byte string read as a big-endian unsigned integer. *)
Definition be_value (l : list Z) : Z := fold_left (fun acc b => acc * 256 + b) l 0.

(** The four bytes written by
    [(uint8_t)((x>>24)&0xFF), (uint8_t)((x>>16)&0xFF), (uint8_t)((x>>8)&0xFF), (uint8_t)(x&0xFF)]. *)
Definition be32_bytes (x : Z) : list Z :=
  [ uint8_t (Z.land (x ≫ 24) 0xFF); uint8_t (Z.land (x ≫ 16) 0xFF);
    uint8_t (Z.land (x ≫ 8) 0xFF); uint8_t (Z.land x 0xFF) ].

(** [((uint32_t)b0<<24)&0xFF000000 | ((uint32_t)b1<<16)&0x00FF0000 | ((uint32_t)b2<<8)&0x0000FF00 | (uint32_t)b3&0xFF] *)
Definition be32_read (b0 b1 b2 b3 : Z) : Z :=
  Z.lor (Z.lor (Z.lor (Z.land (uint32_t (b0 ≪ 24)) 0xFF000000)
                      (Z.land (uint32_t (b1 ≪ 16)) 0x00FF0000))
               (Z.land (uint32_t (b2 ≪ 8)) 0x0000FF00))
        (Z.land b3 0x000000FF).

(** [((uint16_t)b0)<<8 | b1], stored in a [uint16_t]. *)
Definition be16_read (b0 b1 : Z) : Z := uint16_t (Z.lor (b0 ≪ 8) b1).

(** The bytes of a C string literal. *)
Definition bytes_of_string (s : string) : list Z :=
  map (fun c => Z.of_N (Ascii.N_of_ascii c)) (String.list_ascii_of_string s).

(** ** Constants of [packetParser.h] and [typedef.h] *)

Definition ZRTP_PACKET_HEADER_LENGTH : Z := 12.
Definition ZRTP_PACKET_CRC_LENGTH : Z := 4.
Definition ZRTP_PACKET_OVERHEAD : Z := 16.
Definition ZRTP_FRAGMENTEDPACKET_HEADER_LENGTH : Z := 20.
Definition ZRTP_FRAGMENTEDPACKET_OVERHEAD : Z := 24.
Definition ZRTP_MAGIC_COOKIE : Z := 0x5a525450.

Definition ZRTP_MIN_PACKET_LENGTH : Z := 28.
Definition ZRTP_MAX_PACKET_LENGTH : Z := 3072.
Definition ZRTP_MESSAGE_HEADER_LENGTH : Z := 12.

Definition ZRTP_HELLOMESSAGE_FIXED_LENGTH : Z := 88.
Definition ZRTP_HELLOACKMESSAGE_FIXED_LENGTH : Z := 12.
Definition ZRTP_COMMITMESSAGE_FIXED_LENGTH : Z := 84.
Definition ZRTP_DHPARTMESSAGE_FIXED_LENGTH : Z := 84.
Definition ZRTP_CONFIRMMESSAGE_FIXED_LENGTH : Z := 76.
Definition ZRTP_CONF2ACKMESSAGE_FIXED_LENGTH : Z := 12.
Definition ZRTP_GOCLEARMESSAGE_FIXED_LENGTH : Z := 20.
Definition ZRTP_CLEARACKMESSAGE_FIXED_LENGTH : Z := 12.
Definition ZRTP_PINGACKMESSAGE_FIXED_LENGTH : Z := 36.

Definition HELLO_MESSAGE_STORE_ID : nat := 0.
Definition COMMIT_MESSAGE_STORE_ID : nat := 1.
Definition DHPART_MESSAGE_STORE_ID : nat := 2.
Definition CONFIRM_MESSAGE_STORE_ID : nat := 3.
Definition GOCLEAR_MESSAGE_STORE_ID : nat := 4.
Definition PACKET_STORAGE_CAPACITY : nat := 5.

Definition HELLO_BASE_RETRANSMISSION_STEP : Z := 50.
Definition HELLO_CAP_RETRANSMISSION_STEP : Z := 200.
Definition HELLO_MAX_RETRANSMISSION_NUMBER : Z := 20.
Definition NON_HELLO_BASE_RETRANSMISSION_STEP : Z := 150.
Definition NON_HELLO_CAP_RETRANSMISSION_STEP : Z := 1200.
Definition NON_HELLO_MAX_RETRANSMISSION_NUMBER : Z := 10.

Inductive timerStatus_t := BZRTP_TIMER_ON | BZRTP_TIMER_OFF.

Inductive eventType_t :=
  | BZRTP_EVENT_INIT | BZRTP_EVENT_MESSAGE | BZRTP_EVENT_TIMER
  | BZRTP_EVENT_GOCLEAR | BZRTP_EVENT_ACCEPT_GOCLEAR | BZRTP_EVENT_BACKTOSECURE.

Inductive role_t := BZRTP_ROLE_INITIATOR | BZRTP_ROLE_RESPONDER.

(** The message types; the numeric codes are those of [packetParser.h]. *)
Inductive messageType_t :=
  | MSGTYPE_INVALID | MSGTYPE_HELLO | MSGTYPE_HELLOACK | MSGTYPE_COMMIT
  | MSGTYPE_DHPART1 | MSGTYPE_DHPART2 | MSGTYPE_CONFIRM1 | MSGTYPE_CONFIRM2
  | MSGTYPE_CONF2ACK | MSGTYPE_ERROR | MSGTYPE_ERRORACK | MSGTYPE_GOCLEAR
  | MSGTYPE_CLEARACK | MSGTYPE_SASRELAY | MSGTYPE_RELAYACK | MSGTYPE_PING
  | MSGTYPE_PINGACK | MSGTYPE_FRAGMENT.

(** The key agreement algorithms named in the sources; any other value of
    the [uint8_t] mapping of [cryptoUtils.h] is [ZRTP_ALGO code]. *)
Inductive cryptoAlgo_t :=
  | ZRTP_KEYAGREEMENT_DH2k | ZRTP_KEYAGREEMENT_DH3k
  | ZRTP_KEYAGREEMENT_X255 | ZRTP_KEYAGREEMENT_X448
  | ZRTP_KEYAGREEMENT_Prsh | ZRTP_KEYAGREEMENT_Mult
  | ZRTP_ALGO (code : Z).

Inductive cryptoAlgoType_t :=
  | ZRTP_HASH_TYPE | ZRTP_CIPHERBLOCK_TYPE | ZRTP_AUTHTAG_TYPE
  | ZRTP_KEYAGREEMENT_TYPE | ZRTP_SAS_TYPE.

(** The values returned by the functions: [ret0] is the [0] of a
    successful call, [RET_int z] a non-zero code coming from outside of the
    modelled sources (host callback, crypto adapter). *)
Inductive retval_t :=
  | ret0
  | BZRTP_ERROR_INVALIDCONTEXT
  | BZRTP_ERROR_UNSUPPORTEDZRTPVERSION
  | BZRTP_ERROR_UNMATCHINGPACKETREPETITION
  | BZRTP_ERROR_CACHEMISMATCH
  | BZRTP_ERROR_HELLOHASH_MISMATCH
  | BZRTP_PARSER_ERROR_INVALIDCRC
  | BZRTP_PARSER_ERROR_INVALIDPACKET
  | BZRTP_PARSER_ERROR_OUTOFORDER
  | BZRTP_PARSER_ERROR_INVALIDMESSAGE
  | BZRTP_PARSER_ERROR_INVALIDCONTEXT
  | BZRTP_PARSER_ERROR_UNMATCHINGCONFIRMMAC
  | BZRTP_PARSER_ERROR_UNMATCHINGHASHCHAIN
  | BZRTP_PARSER_ERROR_UNMATCHINGMAC
  | BZRTP_PARSER_ERROR_UNEXPECTEDMESSAGE
  | BZRTP_PARSER_ERROR_UNMATCHINGHVI
  | BZRTP_PARSER_INFO_PACKETFRAGMENT
  | BZRTP_BUILDER_ERROR_INVALIDPACKET
  | BZRTP_BUILDER_ERROR_INVALIDMESSAGE
  | BZRTP_BUILDER_ERROR_INVALIDMESSAGETYPE
  | BZRTP_BUILDER_ERROR_UNKNOWN
  | BZRTP_BUILDER_ERROR_INVALIDCONTEXT
  | BZRTP_BUILDER_ERROR_UNABLETOFRAGMENT
  | RET_int (z : Z).

Global Instance timerStatus_eq_dec : EqDecision timerStatus_t.
Proof. solve_decision. Defined.
Global Instance eventType_eq_dec : EqDecision eventType_t.
Proof. solve_decision. Defined.
Global Instance role_eq_dec : EqDecision role_t.
Proof. solve_decision. Defined.
Global Instance messageType_eq_dec : EqDecision messageType_t.
Proof. solve_decision. Defined.
Global Instance cryptoAlgo_eq_dec : EqDecision cryptoAlgo_t.
Proof. solve_decision. Defined.
Global Instance retval_eq_dec : EqDecision retval_t.
Proof. solve_decision. Defined.

(** [retval != 0] *)
Definition failed (r : retval_t) : bool := bool_decide (r ≠ ret0).

(** An [int] handed back by an external function. *)
Definition ret_of_int (z : Z) : retval_t := if decide (z = 0) then ret0 else RET_int z.

(** Record update: [setter eta proj] builds [fun v r => r with proj := v]
    from the eta-expansion [eta] of the record. *)
Ltac setter eta proj :=
  let v := fresh "v" in
  let r := fresh "r" in
  intros v r;
  let t := eval unfold eta in (eta r) in
  match eval pattern (proj r) in t with
  | ?f _ => let t' := eval cbv beta in (f v) in exact t'
  end.

(** ** Messages ([packetParser.h]) *)

Record bzrtpHelloMessage_t := {
  hello_version : list Z;
  hello_clientIdentifier : list Z;
  hello_H3 : list Z;
  hello_ZID : list Z;
  hello_S : Z;
  hello_M : Z;
  hello_P : Z;
  hello_hc : Z;
  hello_cc : Z;
  hello_ac : Z;
  hello_kc : Z;
  hello_sc : Z;
  hello_supportedHash : list cryptoAlgo_t;
  hello_supportedCipher : list cryptoAlgo_t;
  hello_supportedAuthTag : list cryptoAlgo_t;
  hello_supportedKeyAgreement : list cryptoAlgo_t;
  hello_supportedSas : list cryptoAlgo_t;
  hello_MAC : list Z }.

Record bzrtpCommitMessage_t := {
  commit_H2 : list Z;
  commit_ZID : list Z;
  commit_hashAlgo : cryptoAlgo_t;
  commit_cipherAlgo : cryptoAlgo_t;
  commit_authTagAlgo : cryptoAlgo_t;
  commit_keyAgreementAlgo : cryptoAlgo_t;
  commit_sasAlgo : cryptoAlgo_t;
  commit_hvi : list Z;
  commit_nonce : list Z;
  commit_keyID : list Z;
  commit_pv : option (list Z);
  commit_MAC : list Z }.

Record bzrtpDHPartMessage_t := {
  dhpart_H1 : list Z;
  dhpart_rs1ID : list Z;
  dhpart_rs2ID : list Z;
  dhpart_auxsecretID : list Z;
  dhpart_pbxsecretID : list Z;
  dhpart_pv : option (list Z);
  dhpart_MAC : list Z }.

Record bzrtpConfirmMessage_t := {
  confirm_H0 : list Z;
  confirm_sig_len : Z;
  confirm_E : Z;
  confirm_V : Z;
  confirm_A : Z;
  confirm_D : Z;
  confirm_cacheExpirationInterval : Z;
  confirm_signatureBlockType : list Z;
  confirm_signatureBlock : option (list Z);
  confirm_confirm_mac : list Z;
  confirm_CFBIV : list Z }.

Record bzrtpPingMessage_t := {
  ping_version : list Z;
  ping_endpointHash : list Z }.

Record bzrtpPingAckMessage_t := {
  pingack_version : list Z;
  pingack_endpointHash : list Z;
  pingack_endpointHashReceived : list Z;
  pingack_SSRC : Z }.

(** What the [void *messageData] of a packet points to. *)
Inductive messageData_t :=
  | HelloMessage (m : bzrtpHelloMessage_t)
  | CommitMessage (m : bzrtpCommitMessage_t)
  | DHPartMessage (m : bzrtpDHPartMessage_t)
  | ConfirmMessage (m : bzrtpConfirmMessage_t)
  | PingMessage (m : bzrtpPingMessage_t)
  | PingAckMessage (m : bzrtpPingAckMessage_t)
  | GoClearMessage (clear_mac : list Z).

#[warnings="-register-all"]
Inductive bzrtpPacket_t := Build_bzrtpPacket_t {
  sequenceNumber : Z;
  sourceIdentifier : Z;
  messageType : messageType_t;
  messageLength : Z;
  messageData : option messageData_t;
  packetString : option (list Z);
  fragments : list bzrtpPacket_t }.

Definition eta_bzrtpPacket_t (p : bzrtpPacket_t) : bzrtpPacket_t :=
  {| sequenceNumber := sequenceNumber p; sourceIdentifier := sourceIdentifier p;
     messageType := messageType p; messageLength := messageLength p;
     messageData := messageData p; packetString := packetString p;
     fragments := fragments p |}.

Definition set_sequenceNumber : Z -> bzrtpPacket_t -> bzrtpPacket_t :=
  ltac:(setter eta_bzrtpPacket_t sequenceNumber).
Definition set_messageType : messageType_t -> bzrtpPacket_t -> bzrtpPacket_t :=
  ltac:(setter eta_bzrtpPacket_t messageType).
Definition set_messageLength : Z -> bzrtpPacket_t -> bzrtpPacket_t :=
  ltac:(setter eta_bzrtpPacket_t messageLength).
Definition set_messageData : option messageData_t -> bzrtpPacket_t -> bzrtpPacket_t :=
  ltac:(setter eta_bzrtpPacket_t messageData).
Definition set_packetString : option (list Z) -> bzrtpPacket_t -> bzrtpPacket_t :=
  ltac:(setter eta_bzrtpPacket_t packetString).
Definition set_fragments : list bzrtpPacket_t -> bzrtpPacket_t -> bzrtpPacket_t :=
  ltac:(setter eta_bzrtpPacket_t fragments).

(** ** Contexts ([typedef.h]) *)

Record bzrtpTimer_t := {
  status : timerStatus_t;
  firingTime : Z;
  firingCount : Z;
  timerStep : Z }.

Record cachedSecrets_t := {
  rs1 : option (list Z);
  rs1Length : Z;
  rs2 : option (list Z);
  rs2Length : Z;
  auxsecret : option (list Z);
  auxsecretLength : Z;
  pbxsecret : option (list Z);
  pbxsecretLength : Z;
  previouslyVerifiedSas : Z }.

Record cachedSecretsHash_t := {
  rs1ID : list Z;
  rs2ID : list Z;
  pbxsecretID : list Z }.

Record fragmentInfo_t := {
  frag_offset : Z;
  frag_length : Z }.

Record fragmentReassembly_t := {
  frag_messageId : Z;
  frag_messageLength : Z;
  frag_packetString : option (list Z);
  frag_fragments : list fragmentInfo_t }.

(** The state functions a channel can point to. *)
Inductive bzrtpStateMachine_t :=
  | fn_state_discovery_init
  | fn_state_discovery_waitingForHello
  | fn_state_discovery_waitingForHelloAck
  | fn_state_keyAgreement_sendingCommit
  | fn_state_keyAgreement_responderSendingDHPart1
  | fn_state_keyAgreement_initiatorSendingDHPart2
  | fn_state_confirmation_responderSendingConfirm1
  | fn_state_confirmation_initiatorSendingConfirm2
  | fn_state_secure.

Global Instance bzrtpStateMachine_eq_dec : EqDecision bzrtpStateMachine_t.
Proof. solve_decision. Defined.

(** [hmacFunction(key, keyLength, input, inputLength, hmacLength, output)]:
    the arguments are the [keyLength] bytes of the key, the [inputLength]
    bytes of the input and [hmacLength]; the result is [output]. *)
Definition hmacFunction_t : Type := list Z -> list Z -> Z -> list Z.
(** [hashFunction(input, inputLength, hashLength, output)] *)
Definition hashFunction_t : Type := list Z -> Z -> list Z.
(** [cipherFunction(key, IV, input, inputLength, output)] *)
Definition cipherFunction_t : Type := list Z -> list Z -> list Z -> list Z.

Record bzrtpChannelContext_t := {
  role : role_t;
  stateMachine : bzrtpStateMachine_t;
  timer : bzrtpTimer_t;
  selfSSRC : Z;
  selfH : list (list Z);
  peerH : list (list Z);
  selfPackets : list (option bzrtpPacket_t);
  peerPackets : list (option bzrtpPacket_t);
  peerHelloHash : option (list Z);
  selfSequenceNumber : Z;
  selfMessageSequenceNumber : Z;
  peerSequenceNumber : Z;
  hashAlgo : cryptoAlgo_t;
  hashLength : Z;
  cipherAlgo : cryptoAlgo_t;
  cipherKeyLength : Z;
  authTagAlgo : cryptoAlgo_t;
  keyAgreementAlgo : cryptoAlgo_t;
  keyAgreementLength : Z;
  sasAlgo : cryptoAlgo_t;
  hmacFunction : hmacFunction_t;
  hashFunction : hashFunction_t;
  cipherEncryptionFunction : cipherFunction_t;
  cipherDecryptionFunction : cipherFunction_t;
  s0 : option (list Z);
  KDFContext : option (list Z);
  KDFContextLength : Z;
  mackeyi : option (list Z);
  mackeyr : option (list Z);
  zrtpkeyi : option (list Z);
  zrtpkeyr : option (list Z);
  initiatorAuxsecretID : list Z;
  responderAuxsecretID : list Z;
  incomingFragmentedPacket : fragmentReassembly_t;
  pingPacket : option bzrtpPacket_t }.

(** The Diffie-Hellman context reached through [zrtpContext->DHMContext]. *)
Record DHMContext_t := {
  DHM_peer : option (list Z);
  DHM_key : list Z }.

Record bzrtpContext_t := {
  RNGContext : Z;
  DHMContext : DHMContext_t;
  isSecure : Z;
  peerSupportMultiChannel : Z;
  timeReference : Z;
  selfZID : list Z;
  peerZID : list Z;
  cachedSecret : cachedSecrets_t;
  initiatorCachedSecretHash : cachedSecretsHash_t;
  responderCachedSecretHash : cachedSecretsHash_t;
  ZRTPSess : option (list Z);
  ZRTPSessLength : Z;
  mtu : Z }.

(** The event given to a state function; the two contexts it points to
    are the components of the [machine_t] the state function runs on. *)
Record bzrtpEvent_t := {
  eventType : eventType_t;
  bzrtpPacketString : option (list Z);
  bzrtpPacketStringLength : Z }.

(** Field updates ([x->f = v]). *)

Definition eta_bzrtpTimer_t (r : bzrtpTimer_t) : bzrtpTimer_t :=
  {| status := status r; firingTime := firingTime r; firingCount :=
     firingCount r; timerStep := timerStep r |}.

Definition set_status : timerStatus_t -> bzrtpTimer_t -> bzrtpTimer_t :=
  ltac:(setter eta_bzrtpTimer_t status).
Definition set_firingTime : Z -> bzrtpTimer_t -> bzrtpTimer_t :=
  ltac:(setter eta_bzrtpTimer_t firingTime).
Definition set_firingCount : Z -> bzrtpTimer_t -> bzrtpTimer_t :=
  ltac:(setter eta_bzrtpTimer_t firingCount).
Definition set_timerStep : Z -> bzrtpTimer_t -> bzrtpTimer_t :=
  ltac:(setter eta_bzrtpTimer_t timerStep).

Definition eta_fragmentReassembly_t (r : fragmentReassembly_t) : fragmentReassembly_t :=
  {| frag_messageId := frag_messageId r; frag_messageLength :=
     frag_messageLength r; frag_packetString := frag_packetString r;
     frag_fragments := frag_fragments r |}.

Definition set_frag_messageId : Z -> fragmentReassembly_t -> fragmentReassembly_t :=
  ltac:(setter eta_fragmentReassembly_t frag_messageId).
Definition set_frag_messageLength : Z -> fragmentReassembly_t -> fragmentReassembly_t :=
  ltac:(setter eta_fragmentReassembly_t frag_messageLength).
Definition set_frag_packetString : option (list Z) -> fragmentReassembly_t -> fragmentReassembly_t :=
  ltac:(setter eta_fragmentReassembly_t frag_packetString).
Definition set_frag_fragments : list fragmentInfo_t -> fragmentReassembly_t -> fragmentReassembly_t :=
  ltac:(setter eta_fragmentReassembly_t frag_fragments).

Definition eta_bzrtpDHPartMessage_t (r : bzrtpDHPartMessage_t) : bzrtpDHPartMessage_t :=
  {| dhpart_H1 := dhpart_H1 r; dhpart_rs1ID := dhpart_rs1ID r; dhpart_rs2ID :=
     dhpart_rs2ID r; dhpart_auxsecretID := dhpart_auxsecretID r;
     dhpart_pbxsecretID := dhpart_pbxsecretID r; dhpart_pv := dhpart_pv r;
     dhpart_MAC := dhpart_MAC r |}.

Definition set_dhpart_rs1ID : list Z -> bzrtpDHPartMessage_t -> bzrtpDHPartMessage_t :=
  ltac:(setter eta_bzrtpDHPartMessage_t dhpart_rs1ID).
Definition set_dhpart_rs2ID : list Z -> bzrtpDHPartMessage_t -> bzrtpDHPartMessage_t :=
  ltac:(setter eta_bzrtpDHPartMessage_t dhpart_rs2ID).
Definition set_dhpart_auxsecretID : list Z -> bzrtpDHPartMessage_t -> bzrtpDHPartMessage_t :=
  ltac:(setter eta_bzrtpDHPartMessage_t dhpart_auxsecretID).
Definition set_dhpart_pbxsecretID : list Z -> bzrtpDHPartMessage_t -> bzrtpDHPartMessage_t :=
  ltac:(setter eta_bzrtpDHPartMessage_t dhpart_pbxsecretID).

Definition eta_DHMContext_t (r : DHMContext_t) : DHMContext_t :=
  {| DHM_peer := DHM_peer r; DHM_key := DHM_key r |}.

Definition set_DHM_peer : option (list Z) -> DHMContext_t -> DHMContext_t :=
  ltac:(setter eta_DHMContext_t DHM_peer).

Definition eta_bzrtpChannelContext_t (r : bzrtpChannelContext_t) : bzrtpChannelContext_t :=
  {| role := role r; stateMachine := stateMachine r; timer := timer r;
     selfSSRC := selfSSRC r; selfH := selfH r; peerH := peerH r; selfPackets
     := selfPackets r; peerPackets := peerPackets r; peerHelloHash :=
     peerHelloHash r; selfSequenceNumber := selfSequenceNumber r;
     selfMessageSequenceNumber := selfMessageSequenceNumber r;
     peerSequenceNumber := peerSequenceNumber r; hashAlgo := hashAlgo r;
     hashLength := hashLength r; cipherAlgo := cipherAlgo r; cipherKeyLength
     := cipherKeyLength r; authTagAlgo := authTagAlgo r; keyAgreementAlgo :=
     keyAgreementAlgo r; keyAgreementLength := keyAgreementLength r; sasAlgo
     := sasAlgo r; hmacFunction := hmacFunction r; hashFunction :=
     hashFunction r; cipherEncryptionFunction := cipherEncryptionFunction r;
     cipherDecryptionFunction := cipherDecryptionFunction r; s0 := s0 r;
     KDFContext := KDFContext r; KDFContextLength := KDFContextLength r;
     mackeyi := mackeyi r; mackeyr := mackeyr r; zrtpkeyi := zrtpkeyi r;
     zrtpkeyr := zrtpkeyr r; initiatorAuxsecretID := initiatorAuxsecretID r;
     responderAuxsecretID := responderAuxsecretID r; incomingFragmentedPacket
     := incomingFragmentedPacket r; pingPacket := pingPacket r |}.

Definition set_role : role_t -> bzrtpChannelContext_t -> bzrtpChannelContext_t :=
  ltac:(setter eta_bzrtpChannelContext_t role).
Definition set_stateMachine : bzrtpStateMachine_t -> bzrtpChannelContext_t -> bzrtpChannelContext_t :=
  ltac:(setter eta_bzrtpChannelContext_t stateMachine).
Definition set_timer : bzrtpTimer_t -> bzrtpChannelContext_t -> bzrtpChannelContext_t :=
  ltac:(setter eta_bzrtpChannelContext_t timer).
Definition set_peerH : list (list Z) -> bzrtpChannelContext_t -> bzrtpChannelContext_t :=
  ltac:(setter eta_bzrtpChannelContext_t peerH).
Definition set_selfPackets : list (option bzrtpPacket_t) -> bzrtpChannelContext_t -> bzrtpChannelContext_t :=
  ltac:(setter eta_bzrtpChannelContext_t selfPackets).
Definition set_peerPackets : list (option bzrtpPacket_t) -> bzrtpChannelContext_t -> bzrtpChannelContext_t :=
  ltac:(setter eta_bzrtpChannelContext_t peerPackets).
Definition set_selfSequenceNumber : Z -> bzrtpChannelContext_t -> bzrtpChannelContext_t :=
  ltac:(setter eta_bzrtpChannelContext_t selfSequenceNumber).
Definition set_selfMessageSequenceNumber : Z -> bzrtpChannelContext_t -> bzrtpChannelContext_t :=
  ltac:(setter eta_bzrtpChannelContext_t selfMessageSequenceNumber).
Definition set_peerSequenceNumber : Z -> bzrtpChannelContext_t -> bzrtpChannelContext_t :=
  ltac:(setter eta_bzrtpChannelContext_t peerSequenceNumber).
Definition set_hashAlgo : cryptoAlgo_t -> bzrtpChannelContext_t -> bzrtpChannelContext_t :=
  ltac:(setter eta_bzrtpChannelContext_t hashAlgo).
Definition set_cipherAlgo : cryptoAlgo_t -> bzrtpChannelContext_t -> bzrtpChannelContext_t :=
  ltac:(setter eta_bzrtpChannelContext_t cipherAlgo).
Definition set_authTagAlgo : cryptoAlgo_t -> bzrtpChannelContext_t -> bzrtpChannelContext_t :=
  ltac:(setter eta_bzrtpChannelContext_t authTagAlgo).
Definition set_keyAgreementAlgo : cryptoAlgo_t -> bzrtpChannelContext_t -> bzrtpChannelContext_t :=
  ltac:(setter eta_bzrtpChannelContext_t keyAgreementAlgo).
Definition set_keyAgreementLength : Z -> bzrtpChannelContext_t -> bzrtpChannelContext_t :=
  ltac:(setter eta_bzrtpChannelContext_t keyAgreementLength).
Definition set_sasAlgo : cryptoAlgo_t -> bzrtpChannelContext_t -> bzrtpChannelContext_t :=
  ltac:(setter eta_bzrtpChannelContext_t sasAlgo).
Definition set_s0 : option (list Z) -> bzrtpChannelContext_t -> bzrtpChannelContext_t :=
  ltac:(setter eta_bzrtpChannelContext_t s0).
Definition set_KDFContext : option (list Z) -> bzrtpChannelContext_t -> bzrtpChannelContext_t :=
  ltac:(setter eta_bzrtpChannelContext_t KDFContext).
Definition set_KDFContextLength : Z -> bzrtpChannelContext_t -> bzrtpChannelContext_t :=
  ltac:(setter eta_bzrtpChannelContext_t KDFContextLength).
Definition set_mackeyi : option (list Z) -> bzrtpChannelContext_t -> bzrtpChannelContext_t :=
  ltac:(setter eta_bzrtpChannelContext_t mackeyi).
Definition set_mackeyr : option (list Z) -> bzrtpChannelContext_t -> bzrtpChannelContext_t :=
  ltac:(setter eta_bzrtpChannelContext_t mackeyr).
Definition set_zrtpkeyi : option (list Z) -> bzrtpChannelContext_t -> bzrtpChannelContext_t :=
  ltac:(setter eta_bzrtpChannelContext_t zrtpkeyi).
Definition set_zrtpkeyr : option (list Z) -> bzrtpChannelContext_t -> bzrtpChannelContext_t :=
  ltac:(setter eta_bzrtpChannelContext_t zrtpkeyr).
Definition set_initiatorAuxsecretID : list Z -> bzrtpChannelContext_t -> bzrtpChannelContext_t :=
  ltac:(setter eta_bzrtpChannelContext_t initiatorAuxsecretID).
Definition set_responderAuxsecretID : list Z -> bzrtpChannelContext_t -> bzrtpChannelContext_t :=
  ltac:(setter eta_bzrtpChannelContext_t responderAuxsecretID).
Definition set_incomingFragmentedPacket : fragmentReassembly_t -> bzrtpChannelContext_t -> bzrtpChannelContext_t :=
  ltac:(setter eta_bzrtpChannelContext_t incomingFragmentedPacket).

Definition eta_bzrtpContext_t (r : bzrtpContext_t) : bzrtpContext_t :=
  {| RNGContext := RNGContext r; DHMContext := DHMContext r; isSecure :=
     isSecure r; peerSupportMultiChannel := peerSupportMultiChannel r;
     timeReference := timeReference r; selfZID := selfZID r; peerZID :=
     peerZID r; cachedSecret := cachedSecret r; initiatorCachedSecretHash :=
     initiatorCachedSecretHash r; responderCachedSecretHash :=
     responderCachedSecretHash r; ZRTPSess := ZRTPSess r; ZRTPSessLength :=
     ZRTPSessLength r; mtu := mtu r |}.

Definition set_RNGContext : Z -> bzrtpContext_t -> bzrtpContext_t :=
  ltac:(setter eta_bzrtpContext_t RNGContext).
Definition set_DHMContext : DHMContext_t -> bzrtpContext_t -> bzrtpContext_t :=
  ltac:(setter eta_bzrtpContext_t DHMContext).
Definition set_isSecure : Z -> bzrtpContext_t -> bzrtpContext_t :=
  ltac:(setter eta_bzrtpContext_t isSecure).
Definition set_peerSupportMultiChannel : Z -> bzrtpContext_t -> bzrtpContext_t :=
  ltac:(setter eta_bzrtpContext_t peerSupportMultiChannel).
Definition set_peerZID : list Z -> bzrtpContext_t -> bzrtpContext_t :=
  ltac:(setter eta_bzrtpContext_t peerZID).
Definition set_cachedSecret : cachedSecrets_t -> bzrtpContext_t -> bzrtpContext_t :=
  ltac:(setter eta_bzrtpContext_t cachedSecret).
Definition set_initiatorCachedSecretHash : cachedSecretsHash_t -> bzrtpContext_t -> bzrtpContext_t :=
  ltac:(setter eta_bzrtpContext_t initiatorCachedSecretHash).
Definition set_responderCachedSecretHash : cachedSecretsHash_t -> bzrtpContext_t -> bzrtpContext_t :=
  ltac:(setter eta_bzrtpContext_t responderCachedSecretHash).
Definition set_ZRTPSess : option (list Z) -> bzrtpContext_t -> bzrtpContext_t :=
  ltac:(setter eta_bzrtpContext_t ZRTPSess).
Definition set_ZRTPSessLength : Z -> bzrtpContext_t -> bzrtpContext_t :=
  ltac:(setter eta_bzrtpContext_t ZRTPSessLength).

Definition eta_cachedSecretsHash_t (r : cachedSecretsHash_t) : cachedSecretsHash_t :=
  {| rs1ID := rs1ID r; rs2ID := rs2ID r; pbxsecretID := pbxsecretID r |}.

Definition set_rs1ID : list Z -> cachedSecretsHash_t -> cachedSecretsHash_t :=
  ltac:(setter eta_cachedSecretsHash_t rs1ID).
Definition set_rs2ID : list Z -> cachedSecretsHash_t -> cachedSecretsHash_t :=
  ltac:(setter eta_cachedSecretsHash_t rs2ID).
Definition set_pbxsecretID : list Z -> cachedSecretsHash_t -> cachedSecretsHash_t :=
  ltac:(setter eta_cachedSecretsHash_t pbxsecretID).

(** ** Functions declared outside of the sources

    [bctoolbox/crypto.h] and [cryptoUtils.h] are not part of the sources:
    what the codec and the state machine call from them is a parameter of
    the development. A function that fills an output buffer returns it;
    [malloc n] is the content of a freshly allocated buffer of [n]
    bytes ([malloc] and [bctbx_malloc] in the sources); [GOCLEAR_ENABLED] is the compile-time switch of that name. *)
Class Externals := {
  GOCLEAR_ENABLED : bool;
  malloc : Z -> list Z;
  malloc_length : forall n, length (malloc n) = Z.to_nat n;
  bctbx_sha256 : list Z -> Z -> list Z;
  bctbx_hmacSha256 : list Z -> list Z -> Z -> list Z;
  bctbx_rng_get : Z -> Z -> list Z * Z;
  bzrtp_CRC32 : list Z -> Z;
  bzrtp_CRC32_uint32 : forall input, 0 <= bzrtp_CRC32 input < 2 ^ 32;
  bzrtp_computeKeyAgreementPublicValueLength : cryptoAlgo_t -> messageType_t -> Z;
  bzrtp_computeCommitMessageVariableLength : cryptoAlgo_t -> Z;
  bzrtp_isKem : cryptoAlgo_t -> bool;
  bzrtp_cryptoAlgoTypeStringToInt : list Z -> cryptoAlgoType_t -> cryptoAlgo_t;
  bzrtp_cryptoAlgoTypeIntToString : cryptoAlgo_t -> list Z;
  bzrtp_addMandatoryCryptoTypesIfNeeded :
    cryptoAlgoType_t -> list cryptoAlgo_t -> Z -> list cryptoAlgo_t * Z;
  bzrtp_keyDerivationFunction :
    list Z -> list Z -> list Z -> Z -> hmacFunction_t -> Z * list Z;
  bzrtpCrypto_getRandom : Z -> Z -> list Z * Z;
  bzrtpCrypto_DHMComputeSecret : DHMContext_t -> Z -> DHMContext_t * Z;
  crypoAlgoAgreement :
    bzrtpContext_t -> bzrtpChannelContext_t -> bzrtpHelloMessage_t
    -> Z * bzrtpChannelContext_t;
  getPeerAssociatedSecretsHash : bzrtpContext_t -> list Z -> bzrtpContext_t }.

(** ** [packetParser.c]: local functions *)

(** [memcmp(s, literal, 8) == 0] *)
Definition is_type_string (s : list Z) (literal : string) : bool :=
  bool_decide (memcmp s (bytes_of_string literal) 8 = 0).

Definition messageTypeStringtoInt `{Externals} (messageTypeString : list Z) : messageType_t :=
  if is_type_string messageTypeString "Hello   " then MSGTYPE_HELLO
  else if is_type_string messageTypeString "HelloACK" then MSGTYPE_HELLOACK
  else if is_type_string messageTypeString "Commit  " then MSGTYPE_COMMIT
  else if is_type_string messageTypeString "DHPart1 " then MSGTYPE_DHPART1
  else if is_type_string messageTypeString "DHPart2 " then MSGTYPE_DHPART2
  else if is_type_string messageTypeString "Confirm1" then MSGTYPE_CONFIRM1
  else if is_type_string messageTypeString "Confirm2" then MSGTYPE_CONFIRM2
  else if is_type_string messageTypeString "Conf2ACK" then MSGTYPE_CONF2ACK
  else if is_type_string messageTypeString "Error   " then MSGTYPE_ERROR
  else if is_type_string messageTypeString "ErrorACK" then MSGTYPE_ERRORACK
  else if GOCLEAR_ENABLED && is_type_string messageTypeString "GoClear " then MSGTYPE_GOCLEAR
  else if GOCLEAR_ENABLED && is_type_string messageTypeString "ClearACK" then MSGTYPE_CLEARACK
  else if is_type_string messageTypeString "SASrelay" then MSGTYPE_SASRELAY
  else if is_type_string messageTypeString "RelayACK" then MSGTYPE_RELAYACK
  else if is_type_string messageTypeString "Ping    " then MSGTYPE_PING
  else if is_type_string messageTypeString "PingACK " then MSGTYPE_PINGACK
  else MSGTYPE_INVALID.

Definition messageTypeInttoString `{Externals} (messageType : messageType_t) : option (list Z) :=
  match messageType with
  | MSGTYPE_HELLO => Some (bytes_of_string "Hello   ")
  | MSGTYPE_HELLOACK => Some (bytes_of_string "HelloACK")
  | MSGTYPE_COMMIT => Some (bytes_of_string "Commit  ")
  | MSGTYPE_DHPART1 => Some (bytes_of_string "DHPart1 ")
  | MSGTYPE_DHPART2 => Some (bytes_of_string "DHPart2 ")
  | MSGTYPE_CONFIRM1 => Some (bytes_of_string "Confirm1")
  | MSGTYPE_CONFIRM2 => Some (bytes_of_string "Confirm2")
  | MSGTYPE_CONF2ACK => Some (bytes_of_string "Conf2ACK")
  | MSGTYPE_ERROR => Some (bytes_of_string "Error   ")
  | MSGTYPE_ERRORACK => Some (bytes_of_string "ErrorACK")
  | MSGTYPE_GOCLEAR => if GOCLEAR_ENABLED then Some (bytes_of_string "GoClear ") else None
  | MSGTYPE_CLEARACK => if GOCLEAR_ENABLED then Some (bytes_of_string "ClearACK") else None
  | MSGTYPE_SASRELAY => Some (bytes_of_string "SASrelay")
  | MSGTYPE_RELAYACK => Some (bytes_of_string "RelayACK")
  | MSGTYPE_PING => Some (bytes_of_string "Ping    ")
  | MSGTYPE_PINGACK => Some (bytes_of_string "PingACK ")
  | _ => None
  end.

(** [zrtpMessageSetHeader(outputBuffer, messageLength, messageType)] with
    [outputBuffer = buf + off]. *)
Definition zrtpMessageSetHeader (buf : list Z) (off : Z) (messageLength : Z)
    (messageType : list Z) : list Z :=
  let buf := <[Z.to_nat off := 0x50]> buf in
  let buf := <[Z.to_nat (off + 1) := 0x5a]> buf in
  let buf := <[Z.to_nat (off + 2) := uint8_t (Z.land (messageLength ≫ 10) 0x00FF)]> buf in
  let buf := <[Z.to_nat (off + 3) := uint8_t (Z.land (messageLength ≫ 2) 0x00FF)]> buf in
  memcpy_at buf (off + 4) messageType 8.

(** [zrtpPacketSetHeader(zrtpPacket)], on the packet string. *)
Definition zrtpPacketSetHeader (messageType : messageType_t) (sourceIdentifier : Z)
    (packetString : list Z) : list Z :=
  let s := <[0%nat := if decide (messageType = MSGTYPE_FRAGMENT) then 0x11 else 0x10]> packetString in
  let s := <[1%nat := 0x00]> s in
  let s := <[4%nat := uint8_t (Z.land (ZRTP_MAGIC_COOKIE ≫ 24) 0xFF)]> s in
  let s := <[5%nat := uint8_t (Z.land (ZRTP_MAGIC_COOKIE ≫ 16) 0xFF)]> s in
  let s := <[6%nat := uint8_t (Z.land (ZRTP_MAGIC_COOKIE ≫ 8) 0xFF)]> s in
  let s := <[7%nat := uint8_t (Z.land ZRTP_MAGIC_COOKIE 0xFF)]> s in
  let s := <[8%nat := uint8_t (Z.land (sourceIdentifier ≫ 24) 0xFF)]> s in
  let s := <[9%nat := uint8_t (Z.land (sourceIdentifier ≫ 16) 0xFF)]> s in
  let s := <[10%nat := uint8_t (Z.land (sourceIdentifier ≫ 8) 0xFF)]> s in
  <[11%nat := uint8_t (Z.land sourceIdentifier 0xFF)]> s.

(** ** [bzrtp_packetSetSequenceNumber] *)

Definition bzrtp_packetSetSequenceNumber `{Externals} (zrtpPacket : option bzrtpPacket_t)
    (sequenceNumber : Z) : retval_t * option bzrtpPacket_t :=
  match zrtpPacket with
  | None => (BZRTP_BUILDER_ERROR_INVALIDPACKET, None)
  | Some p =>
      match packetString p with
      | None => (BZRTP_BUILDER_ERROR_INVALIDPACKET, Some p)
      | Some s =>
          (* update the sequence number in the packetString *)
          let s := <[2%nat := uint8_t (Z.land (sequenceNumber ≫ 8) 0x00FF)]> s in
          let s := <[3%nat := uint8_t (Z.land sequenceNumber 0x00FF)]> s in
          (* compute the CRC *)
          let packetHeaderLength :=
            if decide (messageType p = MSGTYPE_FRAGMENT)
            then ZRTP_FRAGMENTEDPACKET_HEADER_LENGTH else ZRTP_PACKET_HEADER_LENGTH in
          let CRC := bzrtp_CRC32 (bytes_at s 0 (messageLength p + packetHeaderLength)) in
          let CRCbuffer := Z.to_nat (messageLength p + packetHeaderLength) in
          let s := <[CRCbuffer := uint8_t (Z.land (CRC ≫ 24) 0xFF)]> s in
          let s := <[S CRCbuffer := uint8_t (Z.land (CRC ≫ 16) 0xFF)]> s in
          let s := <[S (S CRCbuffer) := uint8_t (Z.land (CRC ≫ 8) 0xFF)]> s in
          let s := <[S (S (S CRCbuffer)) := uint8_t (Z.land CRC 0xFF)]> s in
          (ret0, Some (set_packetString (Some s) (set_sequenceNumber sequenceNumber p)))
      end
  end.

(** ** [bzrtp_packetCheck] *)

(** What a call leaves behind: the returned packet ([None] for [NULL]),
    [*exitCode], [*inputPtr], [*inputLength] and the channel context. *)
Record packetCheck_t := {
  check_packet : option bzrtpPacket_t;
  check_exitCode : retval_t;
  check_input : list Z;
  check_inputLength : Z;
  check_channel : option bzrtpChannelContext_t }.

(** The [while] loop over the list of received fragments followed by the
    [if (fragmentInserted == FALSE)] block: the new fragment is inserted
    before the first stored fragment of a greater offset, dropped when a
    stored fragment has its offset, appended otherwise. The boolean tells
    whether the fragment was copied into the packet string. *)
Fixpoint fragments_insert (fragments : list fragmentInfo_t) (offset fragmentLength : Z)
    : list fragmentInfo_t * bool :=
  match fragments with
  | [] => ([ {| frag_offset := offset; frag_length := fragmentLength |} ], true)
  | fragInfo :: next =>
      if decide (offset < frag_offset fragInfo) then
        ({| frag_offset := offset; frag_length := fragmentLength |} :: fragInfo :: next, true)
      else if decide (offset = frag_offset fragInfo) then
        (fragInfo :: next, false)
      else
        let '(next', copied) := fragments_insert next offset fragmentLength in
        (fragInfo :: next', copied)
  end.

(** The loop computing [receivedLength], a [uint16_t]. *)
Definition fragments_receivedLength (fragments : list fragmentInfo_t) : Z :=
  fold_left (fun receivedLength fragInfo => uint16_t (receivedLength + frag_length fragInfo))
            fragments 0.

(** The block [if (isFragmented == TRUE) { ... }]: either the function
    returns [NULL] with an exit code, or it goes on with a new input. *)
Definition packetCheck_fragment `{Externals} (input : list Z) (inputLength : Z)
    (chan : bzrtpChannelContext_t)
    : retval_t * bzrtpChannelContext_t + list Z * Z * bzrtpChannelContext_t :=
  (* parse the rest of the packet header *)
  let messageId := be16_read (byte_at input 12) (byte_at input 13) in
  let messageTotalLength := be16_read (byte_at input 14) (byte_at input 15) in
  let offset := be16_read (byte_at input 16) (byte_at input 17) in
  let fragmentLength := be16_read (byte_at input 18) (byte_at input 19) in
  let storedMessageId := frag_messageId (incomingFragmentedPacket chan) in
  if decide (storedMessageId > messageId) then
    inl (BZRTP_PARSER_ERROR_OUTOFORDER, chan)
  else
    let incoming :=
      if decide (storedMessageId < messageId) then
        {| frag_messageId := messageId;
           frag_messageLength := messageTotalLength;
           frag_packetString :=
             Some (malloc (ZRTP_PACKET_OVERHEAD + messageTotalLength * 4));
           frag_fragments := [] |}
      else incomingFragmentedPacket chan in
    (* storedMessageId == messageId holds here *)
    let '(fragments, copied) := fragments_insert (frag_fragments incoming) offset fragmentLength in
    let packetString :=
      if copied then
        (fun s => memcpy_at s (ZRTP_PACKET_HEADER_LENGTH + 4 * offset)
                    (drop (Z.to_nat ZRTP_FRAGMENTEDPACKET_HEADER_LENGTH) input)
                    (inputLength - ZRTP_FRAGMENTEDPACKET_OVERHEAD))
          <$> frag_packetString incoming
      else frag_packetString incoming in
    let incoming := set_frag_fragments fragments (set_frag_packetString packetString incoming) in
    (* Do we have a complete packet now? *)
    let receivedLength := fragments_receivedLength fragments in
    if decide (receivedLength = messageTotalLength) then
      inr (default [] packetString,
           uint16_t (ZRTP_PACKET_OVERHEAD + messageTotalLength * 4),
           set_incomingFragmentedPacket
             (set_frag_messageId 0 (set_frag_fragments [] incoming)) chan)
    else
      inl (BZRTP_PARSER_INFO_PACKETFRAGMENT, set_incomingFragmentedPacket incoming chan).

(** The end of the function, from the check of the message header on. *)
Definition packetCheck_message `{Externals} (input : list Z) (inputLength : Z)
    (sequenceNumber : Z) (chan : bzrtpChannelContext_t) : packetCheck_t :=
  let fail exitCode :=
    {| check_packet := None; check_exitCode := exitCode; check_input := input;
       check_inputLength := inputLength; check_channel := Some chan |} in
  if decide (byte_at input ZRTP_PACKET_HEADER_LENGTH ≠ 0x50
             ∨ byte_at input (ZRTP_PACKET_HEADER_LENGTH + 1) ≠ 0x5a) then
    fail BZRTP_PARSER_ERROR_INVALIDMESSAGE
  else
    (* the length is expressed in 32bits words, convert it to bytes *)
    let messageLength :=
      uint16_t (4 * Z.lor (Z.land (byte_at input (ZRTP_PACKET_HEADER_LENGTH + 2) ≪ 8) 0xFF00)
                          (Z.land (byte_at input (ZRTP_PACKET_HEADER_LENGTH + 3)) 0x00FF)) in
    let messageType :=
      messageTypeStringtoInt (drop (Z.to_nat (ZRTP_PACKET_HEADER_LENGTH + 4)) input) in
    if decide (messageType = MSGTYPE_INVALID) then
      fail BZRTP_PARSER_ERROR_INVALIDMESSAGE
    else
      {| check_packet :=
           Some {| sequenceNumber := sequenceNumber;
                   sourceIdentifier :=
                     be32_read (byte_at input 8) (byte_at input 9)
                               (byte_at input 10) (byte_at input 11);
                   messageType := messageType;
                   messageLength := messageLength;
                   messageData := None;
                   packetString := None;
                   fragments := [] |};
         check_exitCode := ret0;
         check_input := input;
         check_inputLength := inputLength;
         check_channel := Some chan |}.

Definition bzrtp_packetCheck `{Externals} (input : list Z) (inputLength : Z)
    (zrtpChannelContext : option bzrtpChannelContext_t) : packetCheck_t :=
  let fail exitCode chan :=
    {| check_packet := None; check_exitCode := exitCode; check_input := input;
       check_inputLength := inputLength; check_channel := chan |} in
  match zrtpChannelContext with
  | None => fail BZRTP_ERROR_INVALIDCONTEXT None
  | Some chan =>
      (* is the length compatible with a ZRTP packet *)
      if decide (inputLength < ZRTP_MIN_PACKET_LENGTH ∨ inputLength > ZRTP_MAX_PACKET_LENGTH) then
        fail BZRTP_PARSER_ERROR_INVALIDPACKET (Some chan)
      else if decide ((byte_at input 0 ≠ 0x10 ∧ byte_at input 0 ≠ 0x11)
                      ∨ byte_at input 1 ≠ 0
                      ∨ byte_at input 4 ≠ uint8_t (Z.land (ZRTP_MAGIC_COOKIE ≫ 24) 0xFF)
                      ∨ byte_at input 5 ≠ uint8_t (Z.land (ZRTP_MAGIC_COOKIE ≫ 16) 0xFF)
                      ∨ byte_at input 6 ≠ uint8_t (Z.land (ZRTP_MAGIC_COOKIE ≫ 8) 0xFF)
                      ∨ byte_at input 7 ≠ uint8_t (Z.land ZRTP_MAGIC_COOKIE 0xFF)) then
        fail BZRTP_PARSER_ERROR_INVALIDPACKET (Some chan)
      else
        (* Fragmented packet detection *)
        let isFragmented := bool_decide (byte_at input 0 = 0x11) in
        let sequenceNumber := be16_read (byte_at input 2) (byte_at input 3) in
        if decide (isFragmented = false ∧ sequenceNumber <= peerSequenceNumber chan) then
          fail BZRTP_PARSER_ERROR_OUTOFORDER (Some chan)
        else
          let packetCRC :=
            be32_read (byte_at input (inputLength - 4)) (byte_at input (inputLength - 3))
                      (byte_at input (inputLength - 2)) (byte_at input (inputLength - 1)) in
          if decide (bzrtp_CRC32 (bytes_at input 0 (inputLength - 4)) ≠ packetCRC) then
            fail BZRTP_PARSER_ERROR_INVALIDCRC (Some chan)
          else if isFragmented then
            match packetCheck_fragment input inputLength chan with
            | inl (exitCode, chan') => fail exitCode (Some chan')
            | inr (input', inputLength', chan') =>
                packetCheck_message input' inputLength' sequenceNumber chan'
            end
          else packetCheck_message input inputLength sequenceNumber chan
  end.

(** ** [bzrtp_packetParser]

    The parser reads the channel context and fills the packet: it returns
    the value of the C function together with the packet as the call
    leaves it. The result is [None] where the C function dereferences a
    [NULL] pointer or reads the [messageData] of a stored packet at a type
    it does not have. *)

(** [packets[id]], [None] for [NULL]. *)
Definition slot (packets : list (option bzrtpPacket_t)) (id : nat) : option bzrtpPacket_t :=
  default None (packets !! id).

(** The casts of [packet->messageData] to a pointer to a message structure. *)
Definition as_hello (p : bzrtpPacket_t) : option bzrtpHelloMessage_t :=
  match messageData p with Some (HelloMessage m) => Some m | _ => None end.
Definition as_commit (p : bzrtpPacket_t) : option bzrtpCommitMessage_t :=
  match messageData p with Some (CommitMessage m) => Some m | _ => None end.
Definition as_dhpart (p : bzrtpPacket_t) : option bzrtpDHPartMessage_t :=
  match messageData p with Some (DHPartMessage m) => Some m | _ => None end.
Definition as_confirm (p : bzrtpPacket_t) : option bzrtpConfirmMessage_t :=
  match messageData p with Some (ConfirmMessage m) => Some m | _ => None end.

(** [packet->packetString + ZRTP_PACKET_HEADER_LENGTH], read over [n] bytes. *)
Definition message_bytes (p : bzrtpPacket_t) (n : Z) : option (list Z) :=
  s ← packetString p; Some (bytes_at s ZRTP_PACKET_HEADER_LENGTH n).

(** The end of the cases that store the packet: the message structure is
    attached and the whole input is copied into [packetString]. *)
Definition attach (zrtpPacket : bzrtpPacket_t) (messageData : messageData_t)
    (input : list Z) (inputLength : Z) : bzrtpPacket_t :=
  set_packetString (Some (bytes_at input 0 inputLength))
    (set_messageData (Some messageData) zrtpPacket).

(** [for (i=0; i<count; i++) { array[i] = bzrtp_cryptoAlgoTypeStringToInt(messageContent, type); messageContent += 4; }]
    on an array of seven entries set to zero. *)
Definition parse_algos `{Externals} (input : list Z) (messageContent : Z) (count : Z)
    (algoType : cryptoAlgoType_t) : list cryptoAlgo_t :=
  map (fun i : nat =>
         bzrtp_cryptoAlgoTypeStringToInt
           (drop (Z.to_nat (messageContent + 4 * Z.of_nat i)) input) algoType)
      (seq 0 (Z.to_nat count))
  ++ replicate (7 - Z.to_nat count) (ZRTP_ALGO 0).

Definition packetParser_HELLO `{Externals} (zrtpChannelContext : bzrtpChannelContext_t)
    (input : list Z) (inputLength : Z) (zrtpPacket : bzrtpPacket_t)
    : option (retval_t * bzrtpPacket_t) :=
  let helloHashMismatch :=
    match peerHelloHash zrtpChannelContext with
    | Some h =>
        let computedPeerHelloHash :=
          bctbx_sha256 (bytes_at input ZRTP_PACKET_HEADER_LENGTH
                          (inputLength - ZRTP_PACKET_OVERHEAD)) 32 in
        bool_decide (memcmp computedPeerHelloHash h 32 ≠ 0)
    | None => false
    end in
  if helloHashMismatch then Some (BZRTP_ERROR_HELLOHASH_MISMATCH, zrtpPacket)
  else
    let messageContent := ZRTP_PACKET_HEADER_LENGTH + ZRTP_MESSAGE_HEADER_LENGTH in
    let version := bytes_at input messageContent 4 in
    let clientIdentifier := bytes_at input (messageContent + 4) 16 ++ [0] in
    let H3 := bytes_at input (messageContent + 20) 32 in
    let ZID := bytes_at input (messageContent + 52) 12 in
    let flags := byte_at input (messageContent + 64) in
    let hc := Z.min (Z.land (byte_at input (messageContent + 65)) 0x0F) 7 in
    let cc := Z.min (Z.land (byte_at input (messageContent + 66) ≫ 4) 0x0F) 7 in
    let ac := Z.min (Z.land (byte_at input (messageContent + 66)) 0x0F) 7 in
    let kc := Z.min (Z.land (byte_at input (messageContent + 67) ≫ 4) 0x0F) 7 in
    let sc := Z.min (Z.land (byte_at input (messageContent + 67)) 0x0F) 7 in
    let messageContent := messageContent + 68 in
    if decide (messageLength zrtpPacket
               ≠ ZRTP_HELLOMESSAGE_FIXED_LENGTH + 4 * (hc + cc + ac + kc + sc)) then
      Some (BZRTP_PARSER_ERROR_INVALIDMESSAGE, zrtpPacket)
    else
      let supportedHash := parse_algos input messageContent hc ZRTP_HASH_TYPE in
      let messageContent := messageContent + 4 * hc in
      let supportedCipher := parse_algos input messageContent cc ZRTP_CIPHERBLOCK_TYPE in
      let messageContent := messageContent + 4 * cc in
      let supportedAuthTag := parse_algos input messageContent ac ZRTP_AUTHTAG_TYPE in
      let messageContent := messageContent + 4 * ac in
      let supportedKeyAgreement := parse_algos input messageContent kc ZRTP_KEYAGREEMENT_TYPE in
      let messageContent := messageContent + 4 * kc in
      let supportedSas := parse_algos input messageContent sc ZRTP_SAS_TYPE in
      let messageContent := messageContent + 4 * sc in
      let '(supportedHash, hc) :=
        bzrtp_addMandatoryCryptoTypesIfNeeded ZRTP_HASH_TYPE supportedHash hc in
      let '(supportedCipher, cc) :=
        bzrtp_addMandatoryCryptoTypesIfNeeded ZRTP_CIPHERBLOCK_TYPE supportedCipher cc in
      let '(supportedAuthTag, ac) :=
        bzrtp_addMandatoryCryptoTypesIfNeeded ZRTP_AUTHTAG_TYPE supportedAuthTag ac in
      let '(supportedKeyAgreement, kc) :=
        bzrtp_addMandatoryCryptoTypesIfNeeded ZRTP_KEYAGREEMENT_TYPE supportedKeyAgreement kc in
      let '(supportedSas, sc) :=
        bzrtp_addMandatoryCryptoTypesIfNeeded ZRTP_SAS_TYPE supportedSas sc in
      let messageData :=
        {| hello_version := version; hello_clientIdentifier := clientIdentifier;
           hello_H3 := H3; hello_ZID := ZID;
           hello_S := Z.land (flags ≫ 6) 0x01;
           hello_M := Z.land (flags ≫ 5) 0x01;
           hello_P := Z.land (flags ≫ 4) 0x01;
           hello_hc := hc; hello_cc := cc; hello_ac := ac; hello_kc := kc; hello_sc := sc;
           hello_supportedHash := supportedHash;
           hello_supportedCipher := supportedCipher;
           hello_supportedAuthTag := supportedAuthTag;
           hello_supportedKeyAgreement := supportedKeyAgreement;
           hello_supportedSas := supportedSas;
           hello_MAC := bytes_at input messageContent 8 |} in
      Some (ret0, attach zrtpPacket (HelloMessage messageData) input inputLength).

Definition packetParser_COMMIT `{Externals} (zrtpChannelContext : bzrtpChannelContext_t)
    (input : list Z) (inputLength : Z) (zrtpPacket : bzrtpPacket_t)
    : option (retval_t * bzrtpPacket_t) :=
  let messageContent := ZRTP_PACKET_HEADER_LENGTH + ZRTP_MESSAGE_HEADER_LENGTH in
  let H2 := bytes_at input messageContent 32 in
  let messageContent := messageContent + 32 in
  (* We have now H2, check it matches the H3 we had in the hello message
     and that the Hello message MAC is correct *)
  match slot (peerPackets zrtpChannelContext) HELLO_MESSAGE_STORE_ID with
  | None => Some (BZRTP_PARSER_ERROR_UNEXPECTEDMESSAGE, zrtpPacket)
  | Some peerHello =>
      peerHelloMessageData ← as_hello peerHello;
      let checkH3 := bctbx_sha256 (take 32 H2) 32 in
      if decide (memcmp checkH3 (hello_H3 peerHelloMessageData) 32 ≠ 0) then
        Some (BZRTP_PARSER_ERROR_UNMATCHINGHASHCHAIN, zrtpPacket)
      else
        helloString ← message_bytes peerHello (messageLength peerHello - 8);
        let checkMAC := bctbx_hmacSha256 (take 32 H2) helloString 8 in
        if decide (memcmp checkMAC (hello_MAC peerHelloMessageData) 8 ≠ 0) then
          Some (BZRTP_PARSER_ERROR_UNMATCHINGMAC, zrtpPacket)
        else
          let ZID := bytes_at input messageContent 12 in
          let messageContent := messageContent + 12 in
          let hashAlgo :=
            bzrtp_cryptoAlgoTypeStringToInt (drop (Z.to_nat messageContent) input) ZRTP_HASH_TYPE in
          let cipherAlgo :=
            bzrtp_cryptoAlgoTypeStringToInt (drop (Z.to_nat (messageContent + 4)) input)
              ZRTP_CIPHERBLOCK_TYPE in
          let authTagAlgo :=
            bzrtp_cryptoAlgoTypeStringToInt (drop (Z.to_nat (messageContent + 8)) input)
              ZRTP_AUTHTAG_TYPE in
          let keyAgreementAlgo :=
            bzrtp_cryptoAlgoTypeStringToInt (drop (Z.to_nat (messageContent + 12)) input)
              ZRTP_KEYAGREEMENT_TYPE in
          let messageContent := messageContent + 16 in
          let variableLength := bzrtp_computeCommitMessageVariableLength keyAgreementAlgo in
          if decide (variableLength = 0) then
            Some (BZRTP_PARSER_ERROR_INVALIDMESSAGE, zrtpPacket)
          else if decide (messageLength zrtpPacket
                          ≠ ZRTP_COMMITMESSAGE_FIXED_LENGTH + variableLength) then
            Some (BZRTP_PARSER_ERROR_INVALIDMESSAGE, zrtpPacket)
          else
            let sasAlgo :=
              bzrtp_cryptoAlgoTypeStringToInt (drop (Z.to_nat messageContent) input)
                ZRTP_SAS_TYPE in
            let messageContent := messageContent + 4 in
            let nonDH := bool_decide (keyAgreementAlgo = ZRTP_KEYAGREEMENT_Prsh
                                      ∨ keyAgreementAlgo = ZRTP_KEYAGREEMENT_Mult) in
            let isPrsh := bool_decide (keyAgreementAlgo = ZRTP_KEYAGREEMENT_Prsh) in
            let pvLength :=
              bzrtp_computeKeyAgreementPublicValueLength keyAgreementAlgo MSGTYPE_COMMIT in
            let MACoffset :=
              if nonDH then (if isPrsh then messageContent + 24 else messageContent + 16)
              else if bzrtp_isKem keyAgreementAlgo then messageContent + 32 + pvLength
              else messageContent + 32 in
            let messageData :=
              {| commit_H2 := H2; commit_ZID := ZID;
                 commit_hashAlgo := hashAlgo; commit_cipherAlgo := cipherAlgo;
                 commit_authTagAlgo := authTagAlgo;
                 commit_keyAgreementAlgo := keyAgreementAlgo;
                 commit_sasAlgo := sasAlgo;
                 commit_hvi :=
                   if nonDH then replicate 32 0 else bytes_at input messageContent 32;
                 commit_nonce :=
                   if nonDH then bytes_at input messageContent 16 else replicate 16 0;
                 commit_keyID :=
                   if nonDH && isPrsh then bytes_at input (messageContent + 16) 8
                   else replicate 8 0;
                 commit_pv :=
                   if negb nonDH && bzrtp_isKem keyAgreementAlgo
                   then Some (bytes_at input (messageContent + 32) pvLength) else None;
                 commit_MAC := bytes_at input MACoffset 8 |} in
            Some (ret0, attach zrtpPacket (CommitMessage messageData) input inputLength)
  end.

Definition packetParser_DHPART `{Externals} (zrtpChannelContext : bzrtpChannelContext_t)
    (input : list Z) (inputLength : Z) (zrtpPacket : bzrtpPacket_t)
    : option (retval_t * bzrtpPacket_t) :=
  let messageContent := ZRTP_PACKET_HEADER_LENGTH + ZRTP_MESSAGE_HEADER_LENGTH in
  (* check message length, depends on the selected key agreement algo *)
  let pvLength :=
    bzrtp_computeKeyAgreementPublicValueLength
      (keyAgreementAlgo zrtpChannelContext) (messageType zrtpPacket) in
  if decide (pvLength = 0) then Some (BZRTP_PARSER_ERROR_INVALIDCONTEXT, zrtpPacket)
  else if decide (messageLength zrtpPacket ≠ ZRTP_DHPARTMESSAGE_FIXED_LENGTH + pvLength) then
    Some (BZRTP_PARSER_ERROR_INVALIDMESSAGE, zrtpPacket)
  else
    let H1 := bytes_at input messageContent 32 in
    let messageContent := messageContent + 32 in
    let finish :=
      let messageData :=
        {| dhpart_H1 := H1;
           dhpart_rs1ID := bytes_at input messageContent 8;
           dhpart_rs2ID := bytes_at input (messageContent + 8) 8;
           dhpart_auxsecretID := bytes_at input (messageContent + 16) 8;
           dhpart_pbxsecretID := bytes_at input (messageContent + 24) 8;
           dhpart_pv := Some (bytes_at input (messageContent + 32) pvLength);
           dhpart_MAC := bytes_at input (messageContent + 32 + pvLength) 8 |} in
      Some (ret0, attach zrtpPacket (DHPartMessage messageData) input inputLength) in
    if decide (role zrtpChannelContext = BZRTP_ROLE_RESPONDER) then
      (* do it only if we are responder (we received a commit packet) *)
      match slot (peerPackets zrtpChannelContext) COMMIT_MESSAGE_STORE_ID with
      | None => Some (BZRTP_PARSER_ERROR_UNEXPECTEDMESSAGE, zrtpPacket)
      | Some peerCommit =>
          peerCommitMessageData ← as_commit peerCommit;
          (* Check H2 = SHA256(H1) *)
          let checkH2 := bctbx_sha256 (take 32 H1) 32 in
          if decide (memcmp checkH2 (commit_H2 peerCommitMessageData) 32 ≠ 0) then
            Some (BZRTP_PARSER_ERROR_UNMATCHINGHASHCHAIN, zrtpPacket)
          else
            commitString ← message_bytes peerCommit (messageLength peerCommit - 8);
            let checkMAC := bctbx_hmacSha256 (take 32 H1) commitString 8 in
            if decide (memcmp checkMAC (commit_MAC peerCommitMessageData) 8 ≠ 0) then
              Some (BZRTP_PARSER_ERROR_UNMATCHINGMAC, zrtpPacket)
            else
              (* Check the hvi received in the commit message *)
              selfHello ← slot (selfPackets zrtpChannelContext) HELLO_MESSAGE_STORE_ID;
              let HelloMessageLength := messageLength selfHello in
              let DHPartHelloMessageStringLength :=
                uint16_t (messageLength zrtpPacket + HelloMessageLength) in
              helloString ← message_bytes selfHello HelloMessageLength;
              let DHPartHelloMessageString :=
                bytes_at input ZRTP_PACKET_HEADER_LENGTH (messageLength zrtpPacket)
                ++ helloString in
              let computedHvi :=
                hashFunction zrtpChannelContext
                  (bytes_at DHPartHelloMessageString 0 DHPartHelloMessageStringLength) 32 in
              if decide (memcmp computedHvi (commit_hvi peerCommitMessageData) 32 ≠ 0) then
                Some (BZRTP_PARSER_ERROR_UNMATCHINGHVI, zrtpPacket)
              else finish
      end
    else
      (* if we are initiator, we must check that H3=SHA256(SHA256(H1)) and
         the Hello message MAC *)
      match slot (peerPackets zrtpChannelContext) HELLO_MESSAGE_STORE_ID with
      | None => Some (BZRTP_PARSER_ERROR_UNEXPECTEDMESSAGE, zrtpPacket)
      | Some peerHello =>
          peerHelloMessageData ← as_hello peerHello;
          let checkH2 := bctbx_sha256 (take 32 H1) 32 in
          let checkH3 := bctbx_sha256 (take 32 checkH2) 32 in
          if decide (memcmp checkH3 (hello_H3 peerHelloMessageData) 32 ≠ 0) then
            Some (BZRTP_PARSER_ERROR_UNMATCHINGHASHCHAIN, zrtpPacket)
          else
            helloString ← message_bytes peerHello (messageLength peerHello - 8);
            let checkMAC := bctbx_hmacSha256 (take 32 checkH2) helloString 8 in
            if decide (memcmp checkMAC (hello_MAC peerHelloMessageData) 8 ≠ 0) then
              Some (BZRTP_PARSER_ERROR_UNMATCHINGMAC, zrtpPacket)
            else finish
      end.

(** The hash chain and MAC verification of a Confirm message, given the
    [H0] it reveals: the [if]/[else] on the key agreement mode. The result
    is the error to return, [ret0] when the checks pass. *)
Definition packetParser_CONFIRM_chain `{Externals} (zrtpChannelContext : bzrtpChannelContext_t)
    (H0 : list Z) : option retval_t :=
  if decide (keyAgreementAlgo zrtpChannelContext = ZRTP_KEYAGREEMENT_Prsh
             ∨ keyAgreementAlgo zrtpChannelContext = ZRTP_KEYAGREEMENT_Mult) then
    (* compute the H1=SHA256(H0) we never received *)
    let checkH1 := bctbx_sha256 (take 32 H0) 32 in
    if decide (role zrtpChannelContext = BZRTP_ROLE_RESPONDER) then
      match slot (peerPackets zrtpChannelContext) COMMIT_MESSAGE_STORE_ID with
      | None => Some BZRTP_PARSER_ERROR_UNEXPECTEDMESSAGE
      | Some peerCommit =>
          peerCommitMessageData ← as_commit peerCommit;
          let checkH2 := bctbx_sha256 (take 32 checkH1) 32 in
          if decide (memcmp checkH2 (commit_H2 peerCommitMessageData) 32 ≠ 0) then
            Some BZRTP_PARSER_ERROR_UNMATCHINGHASHCHAIN
          else
            commitString ← message_bytes peerCommit (messageLength peerCommit - 8);
            let checkMAC := bctbx_hmacSha256 (take 32 checkH1) commitString 8 in
            if decide (memcmp checkMAC (commit_MAC peerCommitMessageData) 8 ≠ 0) then
              Some BZRTP_PARSER_ERROR_UNMATCHINGMAC
            else Some ret0
      end
    else
      match slot (peerPackets zrtpChannelContext) HELLO_MESSAGE_STORE_ID with
      | None => Some BZRTP_PARSER_ERROR_UNEXPECTEDMESSAGE
      | Some peerHello =>
          peerHelloMessageData ← as_hello peerHello;
          let checkH2 := bctbx_sha256 (take 32 checkH1) 32 in
          let checkH3 := bctbx_sha256 (take 32 checkH2) 32 in
          if decide (memcmp checkH3 (hello_H3 peerHelloMessageData) 32 ≠ 0) then
            Some BZRTP_PARSER_ERROR_UNMATCHINGHASHCHAIN
          else
            helloString ← message_bytes peerHello (messageLength peerHello - 8);
            let checkMAC := bctbx_hmacSha256 (take 32 checkH2) helloString 8 in
            if decide (memcmp checkMAC (hello_MAC peerHelloMessageData) 8 ≠ 0) then
              Some BZRTP_PARSER_ERROR_UNMATCHINGMAC
            else Some ret0
      end
  else
    (* we are in DHM mode *)
    match slot (peerPackets zrtpChannelContext) DHPART_MESSAGE_STORE_ID with
    | None => Some BZRTP_PARSER_ERROR_UNEXPECTEDMESSAGE
    | Some peerDHPart =>
        peerDHPartMessageData ← as_dhpart peerDHPart;
        let checkH1 := bctbx_sha256 (take 32 H0) 32 in
        if decide (memcmp checkH1 (dhpart_H1 peerDHPartMessageData) 32 ≠ 0) then
          Some BZRTP_PARSER_ERROR_UNMATCHINGHASHCHAIN
        else
          dhpartString ← message_bytes peerDHPart (messageLength peerDHPart - 8);
          let checkMAC := bctbx_hmacSha256 (take 32 H0) dhpartString 8 in
          if decide (memcmp checkMAC (dhpart_MAC peerDHPartMessageData) 8 ≠ 0) then
            Some BZRTP_PARSER_ERROR_UNMATCHINGMAC
          else Some ret0
    end.

Definition packetParser_CONFIRM `{Externals} (zrtpChannelContext : bzrtpChannelContext_t)
    (input : list Z) (inputLength : Z) (zrtpPacket : bzrtpPacket_t)
    : option (retval_t * bzrtpPacket_t) :=
  let messageContent := ZRTP_PACKET_HEADER_LENGTH + ZRTP_MESSAGE_HEADER_LENGTH in
  (* we shall first decrypt and validate the message, check we have the keys *)
  let keys :=
    match role zrtpChannelContext with
    | BZRTP_ROLE_RESPONDER => (zrtpkeyi zrtpChannelContext, mackeyi zrtpChannelContext)
    | BZRTP_ROLE_INITIATOR => (zrtpkeyr zrtpChannelContext, mackeyr zrtpChannelContext)
    end in
  match keys with
  | (Some confirmMessageKey, Some confirmMessageMacKey) =>
      let confirm_mac := bytes_at input messageContent 8 in
      let CFBIV := bytes_at input (messageContent + 8) 16 in
      let messageContent := messageContent + 24 in
      let cipherTextLength :=
        uint16_t (messageLength zrtpPacket - ZRTP_MESSAGE_HEADER_LENGTH - 24) in
      let cipherText := bytes_at input messageContent cipherTextLength in
      (* validate the mac over the cipher text *)
      let computedHmac :=
        hmacFunction zrtpChannelContext
          (bytes_at confirmMessageMacKey 0 (hashLength zrtpChannelContext)) cipherText 8 in
      if decide (memcmp computedHmac confirm_mac 8 ≠ 0) then
        Some (BZRTP_PARSER_ERROR_UNMATCHINGCONFIRMMAC, zrtpPacket)
      else
        (* get plain message *)
        let confirmPlainMessage :=
          cipherDecryptionFunction zrtpChannelContext confirmMessageKey CFBIV cipherText in
        let H0 := bytes_at confirmPlainMessage 0 32 in
        chain ← packetParser_CONFIRM_chain zrtpChannelContext H0;
        if failed chain then Some (chain, zrtpPacket)
        else
          let sig_len :=
            Z.lor (Z.land (byte_at confirmPlainMessage 33) 0x01 ≪ 8)
                  (Z.land (byte_at confirmPlainMessage 34) 0x00FF) in
          let flags := byte_at confirmPlainMessage 35 in
          let messageData :=
            {| confirm_H0 := H0;
               confirm_sig_len := sig_len;
               confirm_E := Z.land flags 0x08 ≫ 3;
               confirm_V := Z.land flags 0x04 ≫ 2;
               confirm_A := Z.land flags 0x02 ≫ 1;
               confirm_D := Z.land flags 0x01;
               confirm_cacheExpirationInterval :=
                 uint32_t (Z.lor (Z.lor (Z.lor (byte_at confirmPlainMessage 36 ≪ 24)
                                               (byte_at confirmPlainMessage 37 ≪ 16))
                                        (byte_at confirmPlainMessage 38 ≪ 8))
                                 (byte_at confirmPlainMessage 39));
               confirm_signatureBlockType :=
                 if decide (sig_len > 0) then bytes_at confirmPlainMessage 40 4
                 else replicate 4 0;
               confirm_signatureBlock :=
                 if decide (sig_len > 0)
                 then Some (bytes_at confirmPlainMessage 44 (4 * (sig_len - 1)))
                 else None;
               confirm_confirm_mac := confirm_mac;
               confirm_CFBIV := CFBIV |} in
          Some (ret0, attach zrtpPacket (ConfirmMessage messageData) input inputLength)
  | _ => Some (BZRTP_PARSER_ERROR_INVALIDCONTEXT, zrtpPacket)
  end.

Definition bzrtp_packetParser `{Externals} (zrtpChannelContext : bzrtpChannelContext_t)
    (input : list Z) (inputLength : Z) (zrtpPacket : bzrtpPacket_t)
    : option (retval_t * bzrtpPacket_t) :=
  let messageContent := ZRTP_PACKET_HEADER_LENGTH + ZRTP_MESSAGE_HEADER_LENGTH in
  match messageType zrtpPacket with
  | MSGTYPE_HELLO => packetParser_HELLO zrtpChannelContext input inputLength zrtpPacket
  | MSGTYPE_HELLOACK =>
      if decide (messageLength zrtpPacket ≠ ZRTP_HELLOACKMESSAGE_FIXED_LENGTH) then
        Some (BZRTP_PARSER_ERROR_INVALIDMESSAGE, zrtpPacket)
      else Some (ret0, zrtpPacket)
  | MSGTYPE_COMMIT => packetParser_COMMIT zrtpChannelContext input inputLength zrtpPacket
  | MSGTYPE_DHPART1 | MSGTYPE_DHPART2 =>
      packetParser_DHPART zrtpChannelContext input inputLength zrtpPacket
  | MSGTYPE_CONFIRM1 | MSGTYPE_CONFIRM2 =>
      packetParser_CONFIRM zrtpChannelContext input inputLength zrtpPacket
  | MSGTYPE_CONF2ACK => Some (ret0, zrtpPacket)
  | MSGTYPE_GOCLEAR =>
      if GOCLEAR_ENABLED then
        Some (ret0, set_messageData (Some (GoClearMessage (bytes_at input messageContent 8)))
                      zrtpPacket)
      else Some (ret0, zrtpPacket)
  | MSGTYPE_PING =>
      let messageData :=
        {| ping_version := bytes_at input messageContent 4;
           ping_endpointHash := bytes_at input (messageContent + 4) 8 |} in
      Some (ret0, set_messageData (Some (PingMessage messageData)) zrtpPacket)
  | _ => Some (ret0, zrtpPacket)
  end.

(** ** [bzrtp_packetBuild]

    The message is written in a freshly allocated [packetString] through
    the moving pointer [messageString]: a writer is the buffer and the
    offset of [messageString] in it. *)
Definition writer_t : Type := list Z * Z.

(** [memcpy(messageString, src, n); messageString += n;] *)
Definition put (w : writer_t) (src : list Z) (n : Z) : writer_t :=
  (memcpy_at w.1 w.2 src n, w.2 + n).

(** [*messageString = b; messageString += 1;] *)
Definition put_byte (w : writer_t) (b : Z) : writer_t :=
  (<[Z.to_nat w.2 := b]> w.1, w.2 + 1).

(** [for (i=0; i<count; i++) { bzrtp_cryptoAlgoTypeIntToString(array[i], messageString); messageString += 4; }] *)
Definition put_algos `{Externals} (w : writer_t) (array : list cryptoAlgo_t) (count : Z)
    : writer_t :=
  foldl (fun w (i : nat) =>
           put w (bzrtp_cryptoAlgoTypeIntToString (default (ZRTP_ALGO 0) (array !! i))) 4)
        w (seq 0 (Z.to_nat count)).

(** [malloc((ZRTP_PACKET_HEADER_LENGTH+messageLength+ZRTP_PACKET_CRC_LENGTH)*sizeof(uint8_t))]
    with [messageString] set after the packet and message headers. *)
Definition new_packetString `{Externals} (messageLength : Z) : writer_t :=
  (malloc (ZRTP_PACKET_HEADER_LENGTH + messageLength + ZRTP_PACKET_CRC_LENGTH),
   ZRTP_PACKET_HEADER_LENGTH + ZRTP_MESSAGE_HEADER_LENGTH).

(** What a case of the [switch] leaves: the message length, the packet
    string, and the MAC buffer with its key when a MAC is to be computed. *)
Record built_message_t := {
  built_messageLength : Z;
  built_packetString : list Z;
  built_MAC : option (Z * list Z) }.

Definition packetBuild_HELLO `{Externals} (zrtpChannelContext : bzrtpChannelContext_t)
    (messageData : bzrtpHelloMessage_t) : built_message_t :=
  let messageLength :=
    uint16_t (ZRTP_HELLOMESSAGE_FIXED_LENGTH
              + 4 * (hello_hc messageData + hello_cc messageData + hello_ac messageData
                     + hello_kc messageData + hello_sc messageData)) in
  let w := new_packetString messageLength in
  let w := put w (hello_version messageData) 4 in
  let w := put w (hello_clientIdentifier messageData) 16 in
  let w := put w (hello_H3 messageData) 32 in
  let w := put w (hello_ZID messageData) 12 in
  let w := put_byte w
    (Z.land (Z.lor (Z.lor (Z.land (hello_S messageData) 0x01 ≪ 6)
                          (Z.land (hello_M messageData) 0x01 ≪ 5))
                   (Z.land (hello_P messageData) 0x01 ≪ 4)) 0x70) in
  let w := put_byte w (Z.land (hello_hc messageData) 0x0F) in
  let w := put_byte w (Z.lor (Z.land (hello_cc messageData ≪ 4) 0xF0)
                             (Z.land (hello_ac messageData) 0x0F)) in
  let w := put_byte w (Z.lor (Z.land (hello_kc messageData ≪ 4) 0xF0)
                             (Z.land (hello_sc messageData) 0x0F)) in
  let w := put_algos w (hello_supportedHash messageData) (hello_hc messageData) in
  let w := put_algos w (hello_supportedCipher messageData) (hello_cc messageData) in
  let w := put_algos w (hello_supportedAuthTag messageData) (hello_ac messageData) in
  let w := put_algos w (hello_supportedKeyAgreement messageData) (hello_kc messageData) in
  let w := put_algos w (hello_supportedSas messageData) (hello_sc messageData) in
  (* HMAC of Hello packet is keyed by H2 *)
  {| built_messageLength := messageLength; built_packetString := w.1;
     built_MAC := Some (w.2, default [] (selfH zrtpChannelContext !! 2%nat)) |}.

Definition packetBuild_COMMIT `{Externals} (zrtpChannelContext : bzrtpChannelContext_t)
    (messageData : bzrtpCommitMessage_t) : retval_t + built_message_t :=
  let variableLength :=
    bzrtp_computeCommitMessageVariableLength (commit_keyAgreementAlgo messageData) in
  if decide (variableLength = 0) then inl BZRTP_BUILDER_ERROR_INVALIDMESSAGE
  else
    let messageLength := uint16_t (ZRTP_COMMITMESSAGE_FIXED_LENGTH + variableLength) in
    let w := new_packetString messageLength in
    let w := put w (commit_H2 messageData) 32 in
    let w := put w (commit_ZID messageData) 12 in
    let w := put w (bzrtp_cryptoAlgoTypeIntToString (commit_hashAlgo messageData)) 4 in
    let w := put w (bzrtp_cryptoAlgoTypeIntToString (commit_cipherAlgo messageData)) 4 in
    let w := put w (bzrtp_cryptoAlgoTypeIntToString (commit_authTagAlgo messageData)) 4 in
    let w := put w (bzrtp_cryptoAlgoTypeIntToString (commit_keyAgreementAlgo messageData)) 4 in
    let w := put w (bzrtp_cryptoAlgoTypeIntToString (commit_sasAlgo messageData)) 4 in
    let w :=
      if decide (commit_keyAgreementAlgo messageData = ZRTP_KEYAGREEMENT_Prsh
                 ∨ commit_keyAgreementAlgo messageData = ZRTP_KEYAGREEMENT_Mult) then
        (* insert the 16 bytes nonce, and the keyID for preshared commit only *)
        let w := put w (commit_nonce messageData) 16 in
        if decide (commit_keyAgreementAlgo messageData = ZRTP_KEYAGREEMENT_Prsh)
        then put w (commit_keyID messageData) 8 else w
      else
        (* it's a DH commit message, set the hvi; for KEM type, insert the
           public key after the hvi *)
        let w := put w (commit_hvi messageData) 32 in
        if bzrtp_isKem (commit_keyAgreementAlgo messageData)
        then put w (default [] (commit_pv messageData))
               (bzrtp_computeKeyAgreementPublicValueLength
                  (commit_keyAgreementAlgo messageData) MSGTYPE_COMMIT)
        else w in
    (* HMAC of Commit packet is keyed by H1 *)
    inr {| built_messageLength := messageLength; built_packetString := w.1;
           built_MAC := Some (w.2, default [] (selfH zrtpChannelContext !! 1%nat)) |}.

Definition packetBuild_DHPART `{Externals} (zrtpChannelContext : bzrtpChannelContext_t)
    (messageType : messageType_t) (messageData : bzrtpDHPartMessage_t)
    : retval_t + built_message_t :=
  let pvLength :=
    bzrtp_computeKeyAgreementPublicValueLength
      (keyAgreementAlgo zrtpChannelContext) messageType in
  if decide (pvLength = 0) then inl BZRTP_BUILDER_ERROR_INVALIDCONTEXT
  else
    let messageLength := uint16_t (ZRTP_DHPARTMESSAGE_FIXED_LENGTH + pvLength) in
    let w := new_packetString messageLength in
    let w := put w (dhpart_H1 messageData) 32 in
    let w := put w (dhpart_rs1ID messageData) 8 in
    let w := put w (dhpart_rs2ID messageData) 8 in
    let w := put w (dhpart_auxsecretID messageData) 8 in
    let w := put w (dhpart_pbxsecretID messageData) 8 in
    let w := put w (default [] (dhpart_pv messageData)) pvLength in
    (* HMAC of DHPart packet is keyed by H0 *)
    inr {| built_messageLength := messageLength; built_packetString := w.1;
           built_MAC := Some (w.2, default [] (selfH zrtpChannelContext !! 0%nat)) |}.

Definition packetBuild_CONFIRM `{Externals} (zrtpChannelContext : bzrtpChannelContext_t)
    (messageData : option messageData_t) : option (retval_t + built_message_t) :=
  (* we will have to encrypt and validate the message, check we have the keys *)
  let keys :=
    match role zrtpChannelContext with
    | BZRTP_ROLE_INITIATOR => (zrtpkeyi zrtpChannelContext, mackeyi zrtpChannelContext)
    | BZRTP_ROLE_RESPONDER => (zrtpkeyr zrtpChannelContext, mackeyr zrtpChannelContext)
    end in
  match keys, messageData with
  | (Some confirmMessageKey, Some confirmMessageMacKey), Some (ConfirmMessage messageData) =>
      let messageLength :=
        uint16_t (ZRTP_CONFIRMMESSAGE_FIXED_LENGTH + confirm_sig_len messageData * 4) in
      let w := new_packetString messageLength in
      let messageString := w.2 in
      (* message header, confirm_mac(8 bytes) and CFB IV(16 bytes) are not encrypted *)
      let encryptedPartLength := uint16_t (messageLength - ZRTP_MESSAGE_HEADER_LENGTH - 24) in
      (* fill the plain message buffer with data from the message structure *)
      let plain : writer_t := (malloc encryptedPartLength, 0) in
      let plain := put plain (confirm_H0 messageData) 32 in
      let plain := put_byte plain 0x00 in
      let plain := put_byte plain (uint8_t (Z.land (confirm_sig_len messageData ≫ 8) 0x0001)) in
      let plain := put_byte plain (uint8_t (Z.land (confirm_sig_len messageData) 0x00FF)) in
      let plain := put_byte plain
        (Z.lor (Z.lor (Z.lor (uint8_t (Z.land (confirm_E messageData) 0x01 ≪ 3))
                             (uint8_t (Z.land (confirm_V messageData) 0x01 ≪ 2)))
                      (uint8_t (Z.land (confirm_A messageData) 0x01 ≪ 1)))
               (uint8_t (Z.land (confirm_D messageData) 0x01))) in
      let plain := put plain (be32_bytes (confirm_cacheExpirationInterval messageData)) 4 in
      let plain :=
        if decide (confirm_sig_len messageData > 0) then
          let plain := put plain (confirm_signatureBlockType messageData) 4 in
          put plain (default [] (confirm_signatureBlock messageData))
              ((confirm_sig_len messageData - 1) * 4)
        else plain in
      (* encrypt the buffer, set the output directly in the messageString
         buffer at the correct position(+24 after message header) *)
      let cipherText :=
        cipherEncryptionFunction zrtpChannelContext confirmMessageKey
          (confirm_CFBIV messageData) (bytes_at plain.1 0 encryptedPartLength) in
      let s := memcpy_at w.1 (messageString + 24) cipherText encryptedPartLength in
      (* compute the mac over the encrypted part of the message *)
      let mac :=
        hmacFunction zrtpChannelContext
          (bytes_at confirmMessageMacKey 0 (hashLength zrtpChannelContext))
          (bytes_at s (messageString + 24) encryptedPartLength) 8 in
      let s := memcpy_at s messageString mac 8 in
      (* add the CFB IV *)
      let s := memcpy_at s (messageString + 8) (confirm_CFBIV messageData) 16 in
      Some (inr {| built_messageLength := messageLength; built_packetString := s;
                   built_MAC := None |})
  | (Some _, Some _), None => Some (inl BZRTP_BUILDER_ERROR_INVALIDMESSAGE)
  | (Some _, Some _), Some _ => None
  | _, _ => Some (inl BZRTP_BUILDER_ERROR_INVALIDCONTEXT)
  end.

(** [bzrtp_createZrtpPacket(zrtpContext, zrtpChannelContext, MSGTYPE_FRAGMENT, &retval)]:
    the case [MSGTYPE_FRAGMENT] of the function, which uses the common
    fields only and does not fail. *)
Definition createZrtpPacket_FRAGMENT (zrtpChannelContext : bzrtpChannelContext_t)
    : bzrtpPacket_t :=
  {| sequenceNumber := 0; sourceIdentifier := selfSSRC zrtpChannelContext;
     messageType := MSGTYPE_FRAGMENT; messageLength := 0; messageData := None;
     packetString := None; fragments := [] |}.

(** Arithmetic on [size_t]. *)
Definition size_t (x : Z) : Z := x `mod` 2 ^ 64.

(** One fragment: the body of the [while (offset<zrtpPacket->messageLength)]
    loop, for the packet string [packetString] of a message of
    [messageLength] bytes. The result is the fragment and its size. *)
Definition build_fragment `{Externals} (zrtpContext : bzrtpContext_t)
    (zrtpChannelContext : bzrtpChannelContext_t) (packetString : list Z)
    (messageLength offset : Z) : bzrtpPacket_t * Z :=
  let fragmentPacket := createZrtpPacket_FRAGMENT zrtpChannelContext in
  (* size of the fragment is min of (remaining part , mtu - fragmentedPacketFragmentOverhead) *)
  let fragmentSize :=
    if decide (uint16_t (messageLength - offset)
               < size_t (mtu zrtpContext - ZRTP_FRAGMENTEDPACKET_OVERHEAD))
    then uint16_t (messageLength - offset)
    else uint16_t (size_t (mtu zrtpContext - ZRTP_FRAGMENTEDPACKET_OVERHEAD)) in
  let s := malloc (ZRTP_FRAGMENTEDPACKET_OVERHEAD + fragmentSize) in
  (* Copy the fragment *)
  let s := memcpy_at s ZRTP_FRAGMENTEDPACKET_HEADER_LENGTH
             (drop (Z.to_nat (ZRTP_PACKET_HEADER_LENGTH + offset)) packetString)
             fragmentSize in
  (* Set the packetHeader *)
  let s := zrtpPacketSetHeader MSGTYPE_FRAGMENT (sourceIdentifier fragmentPacket) s in
  (* Add the fragmented packet header parts *)
  let w : writer_t := (s, ZRTP_PACKET_HEADER_LENGTH) in
  let w := put_byte w (uint8_t (Z.land (selfMessageSequenceNumber zrtpChannelContext ≫ 8) 0xFF)) in
  let w := put_byte w (uint8_t (Z.land (selfMessageSequenceNumber zrtpChannelContext) 0xFF)) in
  let w := put_byte w (uint8_t (Z.land (messageLength ≫ 10) 0xFF)) in
  let w := put_byte w (uint8_t (Z.land (messageLength ≫ 2) 0xFF)) in
  let w := put_byte w (uint8_t (Z.land (offset ≫ 10) 0xFF)) in
  let w := put_byte w (uint8_t (Z.land (offset ≫ 2) 0xFF)) in
  let w := put_byte w (uint8_t (Z.land (fragmentSize ≫ 10) 0xFF)) in
  let w := put_byte w (uint8_t (Z.land (fragmentSize ≫ 2) 0xFF)) in
  (set_packetString (Some w.1) (set_messageLength fragmentSize fragmentPacket), fragmentSize).

(** The loop [while (offset<zrtpPacket->messageLength)]; it does not end
    when fragments are empty, [fuel] bounds the number of rounds and the
    result is [None] when the bound is hit. *)
Fixpoint build_fragments `{Externals} (fuel : nat) (zrtpContext : bzrtpContext_t)
    (zrtpChannelContext : bzrtpChannelContext_t) (packetString : list Z)
    (messageLength offset : Z) : option (list bzrtpPacket_t) :=
  if decide (offset < messageLength) then
    match fuel with
    | O => None
    | S fuel =>
        let '(fragmentPacket, fragmentSize) :=
          build_fragment zrtpContext zrtpChannelContext packetString messageLength offset in
        rest ← build_fragments fuel zrtpContext zrtpChannelContext packetString
                 messageLength (uint16_t (offset + fragmentSize));
        Some (fragmentPacket :: rest)
    end
  else Some [].

(** The [switch] of [bzrtp_packetBuild]: the outcome is [None] when the
    message structure is read at a type it does not have, an error code,
    or the message as built (no packet string for a type without case). *)
Definition packetBuild_switch `{Externals} (zrtpChannelContext : bzrtpChannelContext_t)
    (zrtpPacket : bzrtpPacket_t) : option (retval_t + option built_message_t) :=
  let fixed messageLength :=
    Some (inr (Some {| built_messageLength := messageLength;
                       built_packetString := (new_packetString messageLength).1;
                       built_MAC := None |})) in
  match messageType zrtpPacket with
  | MSGTYPE_HELLO =>
      match messageData zrtpPacket with
      | None => Some (inl BZRTP_BUILDER_ERROR_INVALIDMESSAGE)
      | Some (HelloMessage m) => Some (inr (Some (packetBuild_HELLO zrtpChannelContext m)))
      | Some _ => None
      end
  | MSGTYPE_HELLOACK => fixed ZRTP_HELLOACKMESSAGE_FIXED_LENGTH
  | MSGTYPE_COMMIT =>
      match messageData zrtpPacket with
      | None => Some (inl BZRTP_BUILDER_ERROR_INVALIDMESSAGE)
      | Some (CommitMessage m) =>
          Some (match packetBuild_COMMIT zrtpChannelContext m with
                | inl e => inl e | inr b => inr (Some b) end)
      | Some _ => None
      end
  | MSGTYPE_DHPART1 | MSGTYPE_DHPART2 =>
      match messageData zrtpPacket with
      | None => Some (inl BZRTP_BUILDER_ERROR_INVALIDMESSAGE)
      | Some (DHPartMessage m) =>
          Some (match packetBuild_DHPART zrtpChannelContext (messageType zrtpPacket) m with
                | inl e => inl e | inr b => inr (Some b) end)
      | Some _ => None
      end
  | MSGTYPE_CONFIRM1 | MSGTYPE_CONFIRM2 =>
      r ← packetBuild_CONFIRM zrtpChannelContext (messageData zrtpPacket);
      Some (match r with inl e => inl e | inr b => inr (Some b) end)
  | MSGTYPE_CONF2ACK => fixed ZRTP_CONF2ACKMESSAGE_FIXED_LENGTH
  | MSGTYPE_PINGACK =>
      match messageData zrtpPacket with
      | Some (PingAckMessage m) =>
          let w := new_packetString ZRTP_PINGACKMESSAGE_FIXED_LENGTH in
          let w := put w (pingack_version m) 4 in
          let w := put w (pingack_endpointHash m) 8 in
          let w := put w (pingack_endpointHashReceived m) 8 in
          let w := put w (be32_bytes (pingack_SSRC m)) 4 in
          Some (inr (Some {| built_messageLength := ZRTP_PINGACKMESSAGE_FIXED_LENGTH;
                             built_packetString := w.1; built_MAC := None |}))
      | _ => None
      end
  | MSGTYPE_GOCLEAR =>
      match messageData zrtpPacket with
      | Some (GoClearMessage clear_mac) =>
          let w := put (new_packetString ZRTP_GOCLEARMESSAGE_FIXED_LENGTH) clear_mac 8 in
          Some (inr (Some {| built_messageLength := ZRTP_GOCLEARMESSAGE_FIXED_LENGTH;
                             built_packetString := w.1; built_MAC := None |}))
      | _ => None
      end
  | MSGTYPE_CLEARACK => fixed ZRTP_CLEARACKMESSAGE_FIXED_LENGTH
  | _ => Some (inr None)
  end.

(** The function returns its value, the packet and the channel context
    (whose [selfMessageSequenceNumber] it increments when it fragments);
    [None] stands for a run that reads a message structure at a type it
    does not have or that never leaves the fragmentation loop. *)
Definition bzrtp_packetBuild `{Externals} (zrtpContext : bzrtpContext_t)
    (zrtpChannelContext : bzrtpChannelContext_t) (zrtpPacket : option bzrtpPacket_t)
    : option (retval_t * option bzrtpPacket_t * bzrtpChannelContext_t) :=
  match zrtpPacket with
  | None => Some (BZRTP_BUILDER_ERROR_INVALIDPACKET, None, zrtpChannelContext)
  | Some zrtpPacket =>
      (* get the message type (and check it is valid) *)
      match messageTypeInttoString (messageType zrtpPacket) with
      | None => Some (BZRTP_BUILDER_ERROR_INVALIDMESSAGETYPE, Some zrtpPacket, zrtpChannelContext)
      | Some messageTypeString =>
          (* create first the message. Header and CRC will be added afterward *)
          built ← packetBuild_switch zrtpChannelContext zrtpPacket;
          match built with
          | inl e => Some (e, Some zrtpPacket, zrtpChannelContext)
          | inr built =>
              let messageLength :=
                from_option built_messageLength (messageLength zrtpPacket) built in
              match (match built with
                     | Some b => Some (built_packetString b)
                     | None => packetString zrtpPacket
                     end) with
              | None =>
                  (* no packetString allocated *)
                  Some (BZRTP_BUILDER_ERROR_UNKNOWN, Some zrtpPacket, zrtpChannelContext)
              | Some s =>
                  (* write headers only if we have a packet string *)
                  let s := zrtpMessageSetHeader s ZRTP_PACKET_HEADER_LENGTH messageLength
                             messageTypeString in
                  (* Do we have a MAC to compute on the message ? *)
                  let s :=
                    match built ≫= built_MAC with
                    | Some (MACbuffer, MACkey) =>
                        memcpy_at s MACbuffer
                          (bctbx_hmacSha256 (bytes_at MACkey 0 32)
                             (bytes_at s ZRTP_PACKET_HEADER_LENGTH (messageLength - 8)) 8) 8
                    | None => s
                    end in
                  let zrtpPacket := set_messageLength messageLength zrtpPacket in
                  if decide (mtu zrtpContext
                             < uint16_t (messageLength + uint16_t ZRTP_PACKET_OVERHEAD)) then
                    (* we need to fragment this message *)
                    new ← build_fragments (S (Z.to_nat messageLength)) zrtpContext
                            zrtpChannelContext s messageLength 0;
                    Some (ret0,
                          Some (set_fragments (fragments zrtpPacket ++ new)
                                  (set_packetString (Some s) zrtpPacket)),
                          set_selfMessageSequenceNumber
                            (uint16_t (selfMessageSequenceNumber zrtpChannelContext + 1))
                            zrtpChannelContext)
                  else
                    (* No fragmentation needed, just add the packet header *)
                    Some (ret0,
                          Some (set_packetString
                                  (Some (zrtpPacketSetHeader (messageType zrtpPacket)
                                           (sourceIdentifier zrtpPacket) s)) zrtpPacket),
                          zrtpChannelContext)
              end
          end
      end
  end.

(** ** [stateMachine.c]

    The state functions run on the two contexts an event points to and on
    the host: [sent] lists, latest first, the byte strings given to the
    [bzrtp_sendData] callback. *)
Record machine_t := {
  zrtpContext : bzrtpContext_t;
  zrtpChannelContext : bzrtpChannelContext_t;
  sent : list (list Z) }.

(** The host process: the value returned by its [bzrtp_sendData] callback
    for the bytes it is given, and [bytes_beyond_peerPacket id], the bytes
    of its memory that start [ZRTP_PACKET_HEADER_LENGTH] packet structures
    after the structure [peerPackets[id]] points to (see
    [repetition_memcmp]). *)
Class Host := {
  bzrtp_sendData : list Z -> Z;
  bytes_beyond_peerPacket : nat -> list Z }.

(** [stateMachine.c] calls [bzrtp_packetCheck] with the last valid
    sequence number, [bzrtp_packetBuild] with a sequence number and
    [bzrtp_packetUpdateSequenceNumber]: these are not the functions of
    [packetParser.c] above, and like [bzrtp_createZrtpPacket], which builds
    the key agreement contexts of the crypto library, they are parameters
    of the state machine. [bzrtp_packetParser] is the function above. *)
Class PacketParserAPI := {
  api_packetCheck : list Z -> Z -> Z -> retval_t * option bzrtpPacket_t;
  api_createZrtpPacket :
    bzrtpContext_t -> bzrtpChannelContext_t -> messageType_t
    -> retval_t * option bzrtpPacket_t * bzrtpContext_t;
  api_packetBuild :
    bzrtpContext_t -> bzrtpChannelContext_t -> bzrtpPacket_t -> Z
    -> retval_t * bzrtpPacket_t;
  api_packetUpdateSequenceNumber :
    option bzrtpPacket_t -> Z -> retval_t * option bzrtpPacket_t }.

(** A computation on the machine; [None] is a run that dereferences a
    [NULL] pointer or reads a message structure at a type it does not
    have. *)
Definition M (A : Type) : Type := machine_t -> option (A * machine_t).

Global Instance M_ret : MRet M := fun A a m => Some (a, m).
Global Instance M_bind : MBind M := fun A B f x m =>
  match x m with
  | Some (a, m') => f a m'
  | None => None
  end.

Definition undefined {A} : M A := fun _ => None.
Definition deref {A} (o : option A) : M A :=
  match o with Some a => mret a | None => undefined end.

Definition get_context : M bzrtpContext_t := fun m => Some (zrtpContext m, m).
Definition get_channel : M bzrtpChannelContext_t := fun m => Some (zrtpChannelContext m, m).
Definition put_context (c : bzrtpContext_t) : M unit := fun m =>
  Some (tt, {| zrtpContext := c; zrtpChannelContext := zrtpChannelContext m; sent := sent m |}).
Definition put_channel (c : bzrtpChannelContext_t) : M unit := fun m =>
  Some (tt, {| zrtpContext := zrtpContext m; zrtpChannelContext := c; sent := sent m |}).
Definition update_context (f : bzrtpContext_t -> bzrtpContext_t) : M unit :=
  c ← get_context; put_context (f c).
Definition update_channel (f : bzrtpChannelContext_t -> bzrtpChannelContext_t) : M unit :=
  c ← get_channel; put_channel (f c).

(** [zrtpChannelContext->timer.f = v] *)
Definition update_timer (f : bzrtpTimer_t -> bzrtpTimer_t) : M unit :=
  update_channel (fun c => set_timer (f (timer c)) c).

(** [zrtpChannelContext->selfSequenceNumber++] on a [uint16_t]. *)
Definition selfSequenceNumber_incr : M unit :=
  update_channel (fun c => set_selfSequenceNumber (uint16_t (selfSequenceNumber c + 1)) c).

Definition set_selfPacket (id : nat) (p : option bzrtpPacket_t) : M unit :=
  update_channel (fun c => set_selfPackets (<[id := p]> (selfPackets c)) c).
Definition set_peerPacket (id : nat) (p : option bzrtpPacket_t) : M unit :=
  update_channel (fun c => set_peerPackets (<[id := p]> (peerPackets c)) c).

(** [zrtpContext->zrtpCallbacks.bzrtp_sendData(clientData, packet->packetString, packet->messageLength+ZRTP_PACKET_OVERHEAD)] *)
Definition sendData `{Host} (packet : bzrtpPacket_t) : M Z := fun m =>
  match packetString packet with
  | None => None
  | Some s =>
      let bytes := bytes_at s 0 (messageLength packet + ZRTP_PACKET_OVERHEAD) in
      Some (bzrtp_sendData bytes,
            {| zrtpContext := zrtpContext m; zrtpChannelContext := zrtpChannelContext m;
               sent := bytes :: sent m |})
  end.

(** The same call on [zrtpChannelContext->selfPackets[id]]. *)
Definition sendData_selfPacket `{Host} (id : nat) : M Z :=
  c ← get_channel; p ← deref (slot (selfPackets c) id); sendData p.

(** The block found in the timer branch and in the repetition branches:
    [[
      retval = bzrtp_packetUpdateSequenceNumber(selfPackets[id], selfSequenceNumber);
    ]]
    the packet of the slot is the one the call leaves. *)
Definition packetUpdateSequenceNumber_selfPacket `{PacketParserAPI} (id : nat) : M retval_t :=
  c ← get_channel;
  let '(retval, p) :=
    api_packetUpdateSequenceNumber (slot (selfPackets c) id) (selfSequenceNumber c) in
  set_selfPacket id p;;
  mret retval.

(** The timer branch of the states that retransmit: [cap] and [max] are
    the retransmission cap and the bound on [firingCount]. *)
Definition timer_adjust (cap max : Z) : M unit :=
  c ← get_channel;
  ctx ← get_context;
  if decide (firingCount (timer c) < max) then
    (if decide (2 * timerStep (timer c) < cap)
     then update_timer (fun t => set_timerStep (timerStep t * 2) t)
     else mret tt);;
    update_timer (fun t => set_firingTime (timeReference ctx + timerStep t) t)
  else
    (* we have done enough retransmissions, stop it *)
    update_timer (set_status BZRTP_TIMER_OFF).

(** [[
      retval = bzrtp_packetUpdateSequenceNumber(...);
      if (retval == 0) { bzrtp_sendData(...); selfSequenceNumber++; } else { return retval; }
    ]]
    followed by the [return 0] that ends the state function. *)
Definition timer_resend `{Host, PacketParserAPI} (id : nat) : M retval_t :=
  retval ← packetUpdateSequenceNumber_selfPacket id;
  if decide (retval = ret0) then
    sendData_selfPacket id;;
    selfSequenceNumber_incr;;
    mret ret0
  else mret retval.

(** The [memcmp] of the repetition checks:
    [[
      memcmp(zrtpPacket->packetString+ZRTP_PACKET_HEADER_LENGTH,
             zrtpChannelContext->peerPackets[id]+ZRTP_PACKET_HEADER_LENGTH,
             zrtpChannelContext->peerPackets[id]->messageLength)
    ]]
    The second operand is the address of the packet structure stored in
    the slot, moved by [ZRTP_PACKET_HEADER_LENGTH] structures: it is not
    the [packetString] of the stored packet. What lies there belongs to no
    object of the engine: these bytes are [bytes_beyond_peerPacket id]. *)
Definition repetition_memcmp `{Host} (zrtpPacket : bzrtpPacket_t) (id : nat) : M Z :=
  c ← get_channel;
  stored ← deref (slot (peerPackets c) id);
  s ← deref (packetString zrtpPacket);
  mret (memcmp (drop (Z.to_nat ZRTP_PACKET_HEADER_LENGTH) s) (bytes_beyond_peerPacket id)
               (Z.to_nat (messageLength stored))).

(** *** Key schedule *)

(** [[
      memcpy(dataToHash+hashDataIndex, packet->packetString+ZRTP_PACKET_HEADER_LENGTH, packet->messageLength);
      hashDataIndex += packet->messageLength;
    ]]
    for the packets of the list, in order; [hashDataIndex] is a [uint16_t]. *)
Fixpoint copy_messages (dataToHash : list Z) (hashDataIndex : Z)
    (packets : list bzrtpPacket_t) : option (list Z) :=
  match packets with
  | [] => Some dataToHash
  | packet :: packets =>
      s ← packetString packet;
      copy_messages
        (memcpy_at dataToHash hashDataIndex
           (drop (Z.to_nat ZRTP_PACKET_HEADER_LENGTH) s) (messageLength packet))
        (uint16_t (hashDataIndex + messageLength packet)) packets
  end.

(** [total_hash = hash(messages)], with [hashDataLength] a [uint16_t]. *)
Definition compute_totalHash `{Externals} (chan : bzrtpChannelContext_t)
    (packets : list bzrtpPacket_t) : option (list Z) :=
  let hashDataLength := uint16_t (foldr (fun p n => messageLength p + n) 0 packets) in
  dataToHash ← copy_messages (malloc hashDataLength) 0 packets;
  Some (hashFunction chan (bytes_at dataToHash 0 hashDataLength) (hashLength chan)).

(** [KDFContext = (ZIDi || ZIDr || total_hash)] as the three [memcpy]
    write it; the length is stored in a [uint16_t]. *)
Definition compute_KDFContext `{Externals} (chan : bzrtpChannelContext_t)
    (ZIDi ZIDr totalHash : list Z) : Z * list Z :=
  let KDFContextLength := uint16_t (24 + hashLength chan) in
  let KDFContext := malloc KDFContextLength in
  let KDFContext := memcpy_at KDFContext 0 ZIDi 12 in
  let KDFContext := memcpy_at KDFContext 12 ZIDr 12 in
  let KDFContext := memcpy_at KDFContext 24 totalHash (hashLength chan) in
  (KDFContextLength, KDFContext).

(** The four statements [dataToHash[hashDataIndex++] = (uint8_t)((x>>24)&0xFF); ...]. *)
Definition store_be32 (dataToHash : list Z) (hashDataIndex : Z) (x : Z) : list Z :=
  let d := <[Z.to_nat hashDataIndex := uint8_t (Z.land (x ≫ 24) 0xFF)]> dataToHash in
  let d := <[Z.to_nat (uint16_t (hashDataIndex + 1)) := uint8_t (Z.land (x ≫ 16) 0xFF)]> d in
  let d := <[Z.to_nat (uint16_t (hashDataIndex + 2)) := uint8_t (Z.land (x ≫ 8) 0xFF)]> d in
  <[Z.to_nat (uint16_t (hashDataIndex + 3)) := uint8_t (Z.land x 0xFF)]> d.

(** [len(s) || s] appended at [hashDataIndex]: the length on four bytes,
    then the secret when its pointer is not [NULL]. *)
Definition store_secret (dataToHash : list Z) (hashDataIndex : Z)
    (s : option (list Z)) (sLength : Z) : list Z * Z :=
  let dataToHash := store_be32 dataToHash hashDataIndex sLength in
  let hashDataIndex := uint16_t (hashDataIndex + 4) in
  match s with
  | Some s =>
      (memcpy_at dataToHash hashDataIndex s sLength, uint16_t (hashDataIndex + sLength))
  | None => (dataToHash, hashDataIndex)
  end.

Definition bzrtp_deriveKeysFromS0 `{Externals} : M retval_t :=
  chan ← get_channel;
  s0 ← deref (s0 chan);
  KDFContext ← deref (KDFContext chan);
  let KDF label length :=
    bzrtp_keyDerivationFunction (bytes_at s0 0 (hashLength chan)) (bytes_of_string label)
      (bytes_at KDFContext 0 (KDFContextLength chan)) length (hmacFunction chan) in
  let '(retval1, mackeyi) := KDF "Initiator HMAC key" (hashLength chan) in
  let '(retval2, mackeyr) := KDF "Responder HMAC key" (hashLength chan) in
  let '(retval3, zrtpkeyi) := KDF "Initiator ZRTP key" (cipherKeyLength chan) in
  let '(retval4, zrtpkeyr) := KDF "Responder ZRTP key" (cipherKeyLength chan) in
  update_channel (fun c =>
    set_mackeyi (Some mackeyi) (set_mackeyr (Some mackeyr)
      (set_zrtpkeyi (Some zrtpkeyi) (set_zrtpkeyr (Some zrtpkeyr) c))));;
  mret (ret_of_int (retval1 + retval2 + retval3 + retval4)).

(** The buffer hashed into [s0]: the counter, the DH result, the string
    "ZRTP-HMAC-KDF", the KDF context and the three secrets with their
    lengths, written at [hashDataIndex] one after the other. *)
Definition s0_dataToHash `{Externals} (ctx : bzrtpContext_t) (chan : bzrtpChannelContext_t)
    (KDFContext : list Z) (KDFContextLength : Z) : Z * list Z :=
  (* s1 is rs1 if we have it, rs2 otherwise, or null if we do not have rs2 too *)
  let '(s1, s1Length) :=
    match rs1 (cachedSecret ctx) with
    | Some rs1 => (Some rs1, uint32_t (rs1Length (cachedSecret ctx)))
    | None =>
        match rs2 (cachedSecret ctx) with
        | Some rs2 => (Some rs2, uint32_t (rs2Length (cachedSecret ctx)))
        | None => (None, 0)
        end
    end in
  (* s2 is the auxsecret, s3 is the pbxsecret *)
  let s2 := auxsecret (cachedSecret ctx) in
  let s2Length := uint32_t (auxsecretLength (cachedSecret ctx)) in
  let s3 := pbxsecret (cachedSecret ctx) in
  let s3Length := uint32_t (pbxsecretLength (cachedSecret ctx)) in
  let hashDataLength :=
    uint16_t (4 + keyAgreementLength chan + 13 + 12 + 12 + hashLength chan
              + 4 + s1Length + 4 + s2Length + 4 + s3Length) in
  let dataToHash := malloc hashDataLength in
  (* counter *)
  let dataToHash := <[0%nat := 0x00]> dataToHash in
  let dataToHash := <[1%nat := 0x00]> dataToHash in
  let dataToHash := <[2%nat := 0x00]> dataToHash in
  let dataToHash := <[3%nat := 0x01]> dataToHash in
  let hashDataIndex := 4 in
  let dataToHash :=
    memcpy_at dataToHash hashDataIndex (DHM_key (DHMContext ctx)) (keyAgreementLength chan) in
  let hashDataIndex := uint16_t (hashDataIndex + keyAgreementLength chan) in
  let dataToHash := memcpy_at dataToHash hashDataIndex (bytes_of_string "ZRTP-HMAC-KDF") 13 in
  let hashDataIndex := uint16_t (hashDataIndex + 13) in
  let dataToHash := memcpy_at dataToHash hashDataIndex KDFContext KDFContextLength in
  let hashDataIndex := uint16_t (hashDataIndex + KDFContextLength) in
  let '(dataToHash, hashDataIndex) := store_secret dataToHash hashDataIndex s1 s1Length in
  let '(dataToHash, hashDataIndex) := store_secret dataToHash hashDataIndex s2 s2Length in
  let '(dataToHash, hashDataIndex) := store_secret dataToHash hashDataIndex s3 s3Length in
  (hashDataLength, dataToHash).

Definition bzrtp_computeS0DHMMode `{Externals} : M retval_t :=
  ctx ← get_context;
  chan ← get_channel;
  (* first compute the total_hash as in rfc section 4.4.1.4
     total_hash = hash(Hello of responder || Commit || DHPart1 || DHPart2) *)
  '(packets, ZIDi, ZIDr) ←
    (if decide (role chan = BZRTP_ROLE_RESPONDER) then
       selfHello ← deref (slot (selfPackets chan) HELLO_MESSAGE_STORE_ID);
       peerCommit ← deref (slot (peerPackets chan) COMMIT_MESSAGE_STORE_ID);
       selfDHPart ← deref (slot (selfPackets chan) DHPART_MESSAGE_STORE_ID);
       peerDHPart ← deref (slot (peerPackets chan) DHPART_MESSAGE_STORE_ID);
       mret ([selfHello; peerCommit; selfDHPart; peerDHPart], peerZID ctx, selfZID ctx)
     else
       (* we are initiator *)
       peerHello ← deref (slot (peerPackets chan) HELLO_MESSAGE_STORE_ID);
       selfCommit ← deref (slot (selfPackets chan) COMMIT_MESSAGE_STORE_ID);
       peerDHPart ← deref (slot (peerPackets chan) DHPART_MESSAGE_STORE_ID);
       selfDHPart ← deref (slot (selfPackets chan) DHPART_MESSAGE_STORE_ID);
       mret ([peerHello; selfCommit; peerDHPart; selfDHPart], selfZID ctx, peerZID ctx));
  totalHash ← deref (compute_totalHash chan packets);
  (* compute KDFContext = (ZIDi || ZIDr || total_hash) and set it in the channel context *)
  let '(KDFContextLength, KDFContext) := compute_KDFContext chan ZIDi ZIDr totalHash in
  update_channel (fun c =>
    set_KDFContext (Some KDFContext) (set_KDFContextLength KDFContextLength c));;
  (* compute s0 = hash(counter || DHResult || "ZRTP-HMAC-KDF" || ZIDi || ZIDr ||
     total_hash || len(s1) || s1 || len(s2) || s2 || len(s3) || s3) *)
  let '(hashDataLength, dataToHash) := s0_dataToHash ctx chan KDFContext KDFContextLength in
  let s0 := hashFunction chan (bytes_at dataToHash 0 hashDataLength) (hashLength chan) in
  update_channel (set_s0 (Some s0));;
  (* now compute the ZRTPSession key *)
  let '(_, ZRTPSess) :=
    bzrtp_keyDerivationFunction (bytes_at s0 0 (hashLength chan))
      (bytes_of_string "ZRTP Session Key") (bytes_at KDFContext 0 KDFContextLength)
      (hashLength chan) (hmacFunction chan) in
  update_context (fun c => set_ZRTPSess (Some ZRTPSess) (set_ZRTPSessLength (hashLength chan) c));;
  (* now derive the other keys *)
  bzrtp_deriveKeysFromS0.

Definition bzrtp_computeS0MultiStreamMode `{Externals} : M retval_t :=
  ctx ← get_context;
  chan ← get_channel;
  (* total_hash = hash(Hello of responder || Commit) *)
  '(packets, ZIDi, ZIDr) ←
    (if decide (role chan = BZRTP_ROLE_RESPONDER) then
       selfHello ← deref (slot (selfPackets chan) HELLO_MESSAGE_STORE_ID);
       peerCommit ← deref (slot (peerPackets chan) COMMIT_MESSAGE_STORE_ID);
       mret ([selfHello; peerCommit], peerZID ctx, selfZID ctx)
     else
       peerHello ← deref (slot (peerPackets chan) HELLO_MESSAGE_STORE_ID);
       selfCommit ← deref (slot (selfPackets chan) COMMIT_MESSAGE_STORE_ID);
       mret ([peerHello; selfCommit], selfZID ctx, peerZID ctx));
  totalHash ← deref (compute_totalHash chan packets);
  let '(KDFContextLength, KDFContext) := compute_KDFContext chan ZIDi ZIDr totalHash in
  update_channel (fun c =>
    set_KDFContext (Some KDFContext) (set_KDFContextLength KDFContextLength c));;
  (* s0 = KDF(ZRTPSess, "ZRTP MSK", KDF_Context, negotiated hash length) *)
  ZRTPSess ← deref (ZRTPSess ctx);
  let '(retval, s0) :=
    bzrtp_keyDerivationFunction (bytes_at ZRTPSess 0 (ZRTPSessLength ctx))
      (bytes_of_string "ZRTP MSK") (bytes_at KDFContext 0 KDFContextLength)
      (hashLength chan) (hmacFunction chan) in
  update_channel (set_s0 (Some s0));;
  if decide (retval ≠ 0) then mret (ret_of_int retval)
  else bzrtp_deriveKeysFromS0.

(** *** State functions *)

Definition initEvent : bzrtpEvent_t :=
  {| eventType := BZRTP_EVENT_INIT; bzrtpPacketString := None; bzrtpPacketStringLength := 0 |}.

(** [bzrtp_packetCheck(event.bzrtpPacketString, event.bzrtpPacketStringLength, zrtpChannelContext->peerSequenceNumber, &retval)] *)
Definition packetCheck_event `{PacketParserAPI} (event : bzrtpEvent_t)
    : M (retval_t * option bzrtpPacket_t) :=
  c ← get_channel;
  input ← deref (bzrtpPacketString event);
  mret (api_packetCheck input (bzrtpPacketStringLength event) (peerSequenceNumber c)).

(** [bzrtp_packetParser(zrtpContext, zrtpChannelContext, event.bzrtpPacketString, event.bzrtpPacketStringLength, zrtpPacket)] *)
Definition packetParser_event `{Externals} (event : bzrtpEvent_t) (zrtpPacket : bzrtpPacket_t)
    : M (retval_t * bzrtpPacket_t) :=
  c ← get_channel;
  input ← deref (bzrtpPacketString event);
  deref (bzrtp_packetParser c input (bzrtpPacketStringLength event) zrtpPacket).

(** [bzrtp_createZrtpPacket(zrtpContext, zrtpChannelContext, messageType, &retval)] *)
Definition createZrtpPacket `{PacketParserAPI} (messageType : messageType_t)
    : M (retval_t * option bzrtpPacket_t) :=
  ctx ← get_context;
  c ← get_channel;
  let '(retval, packet, ctx') := api_createZrtpPacket ctx c messageType in
  put_context ctx';;
  mret (retval, packet).

(** [bzrtp_packetBuild(zrtpContext, zrtpChannelContext, packet, sequenceNumber)] *)
Definition packetBuild `{PacketParserAPI} (packet : bzrtpPacket_t) (sequenceNumber : Z)
    : M (retval_t * bzrtpPacket_t) :=
  ctx ← get_context;
  c ← get_channel;
  mret (api_packetBuild ctx c packet sequenceNumber).

(** The timer set when a retransmitted packet is first sent. *)
Definition timer_start (firingTime timerStep : Z) : M unit :=
  update_timer (fun _ =>
    {| status := BZRTP_TIMER_ON; firingTime := firingTime; firingCount := 0;
       timerStep := timerStep |}).

(** [zrtpChannelContext->peerSequenceNumber = zrtpPacket->sequenceNumber] *)
Definition set_peerSequenceNumber_of (zrtpPacket : bzrtpPacket_t) : M unit :=
  update_channel (set_peerSequenceNumber (sequenceNumber zrtpPacket)).

(** [memcpy(zrtpChannelContext->peerH[i], H, 32)] *)
Definition memcpy_peerH (i : nat) (H : list Z) : M unit :=
  update_channel (fun c => set_peerH (<[i := take 32 H]> (peerH c)) c).

Definition state_secure (event : bzrtpEvent_t) : M retval_t :=
  update_context (set_isSecure 1);;
  mret ret0.

Definition state_confirmation_initiatorSendingConfirm2 `{Externals, Host, PacketParserAPI}
    (event : bzrtpEvent_t) : M retval_t :=
  (* Manage the first call to this function *)
  early ←
    (if decide (eventType event = BZRTP_EVENT_INIT) then
       c ← get_channel;
       ctx ← get_context;
       if decide (mackeyi c = None ∨ zrtpkeyi c = None) then
         mret (Some BZRTP_ERROR_INVALIDCONTEXT)
       else
         (* build the confirm2 packet *)
         '(retval, confirm2Packet) ← createZrtpPacket MSGTYPE_CONFIRM2;
         if failed retval then mret (Some retval)
         else
           confirm2Packet ← deref confirm2Packet;
           '(retval, confirm2Packet) ← packetBuild confirm2Packet (selfSequenceNumber c);
           if failed retval then mret (Some retval)
           else
             (* save it so we can send it again if needed *)
             set_selfPacket CONFIRM_MESSAGE_STORE_ID (Some confirm2Packet);;
             retval ← sendData_selfPacket CONFIRM_MESSAGE_STORE_ID;
             if decide (retval ≠ 0) then mret (Some (ret_of_int retval))
             else
               selfSequenceNumber_incr;;
               timer_start (timeReference ctx + NON_HELLO_BASE_RETRANSMISSION_STEP)
                           NON_HELLO_BASE_RETRANSMISSION_STEP;;
               mret None
     else mret None);
  match early with
  | Some retval => mret retval
  | None =>
      if decide (eventType event = BZRTP_EVENT_MESSAGE) then
        (* first check the packet *)
        '(retval, zrtpPacket) ← packetCheck_event event;
        if failed retval then mret retval
        else
          zrtpPacket ← deref zrtpPacket;
          (* we expect packets Conf2ACK, or a Confirm1 *)
          if decide (messageType zrtpPacket ≠ MSGTYPE_CONFIRM1
                     ∧ messageType zrtpPacket ≠ MSGTYPE_CONF2ACK) then
            mret BZRTP_PARSER_ERROR_UNEXPECTEDMESSAGE
          else if decide (messageType zrtpPacket = MSGTYPE_CONFIRM1) then
            (* we have confirm1 packet, just check it is the same we
               received previously and do nothing *)
            cmp ← repetition_memcmp zrtpPacket CONFIRM_MESSAGE_STORE_ID;
            if decide (cmp ≠ 0) then mret BZRTP_ERROR_UNMATCHINGPACKETREPETITION
            else
              set_peerSequenceNumber_of zrtpPacket;;
              mret ret0
          else
            (* we have a conf2ACK packet, parse it to validate it, stop the
               timer and go to secure state *)
            '(retval, zrtpPacket) ← packetParser_event event zrtpPacket;
            if failed retval then mret retval
            else
              update_timer (set_status BZRTP_TIMER_OFF);;
              update_channel (set_stateMachine fn_state_secure);;
              state_secure initEvent
      else if decide (eventType event = BZRTP_EVENT_TIMER) then
        timer_adjust NON_HELLO_CAP_RETRANSMISSION_STEP NON_HELLO_MAX_RETRANSMISSION_NUMBER;;
        (* We must resend a Confirm2 packet *)
        timer_resend CONFIRM_MESSAGE_STORE_ID
      else mret ret0
  end.

Definition state_confirmation_responderSendingConfirm1 `{Externals, Host, PacketParserAPI}
    (event : bzrtpEvent_t) : M retval_t :=
  if decide (eventType event = BZRTP_EVENT_INIT) then
    c ← get_channel;
    ctx ← get_context;
    (* when in multistream mode, we must derive s0 and other keys from ZRTPSess *)
    retval ←
      (if decide (keyAgreementAlgo c = ZRTP_KEYAGREEMENT_Mult) then
         if decide (ZRTPSess ctx = None) then mret BZRTP_ERROR_INVALIDCONTEXT
         else bzrtp_computeS0MultiStreamMode
       else if decide (keyAgreementAlgo c = ZRTP_KEYAGREEMENT_Prsh) then mret ret0
       else if decide (mackeyr c = None ∨ zrtpkeyr c = None) then
         mret BZRTP_ERROR_INVALIDCONTEXT
       else mret ret0);
    if failed retval then mret retval
    else
      (* There is no timer in this state, make sure it is off *)
      update_timer (set_status BZRTP_TIMER_OFF);;
      (* build the confirm1 packet *)
      '(retval, confirm1Packet) ← createZrtpPacket MSGTYPE_CONFIRM1;
      if failed retval then mret retval
      else
        confirm1Packet ← deref confirm1Packet;
        c ← get_channel;
        '(retval, confirm1Packet) ← packetBuild confirm1Packet (selfSequenceNumber c);
        if failed retval then mret retval
        else
          selfSequenceNumber_incr;;
          (* save it so we can send it again if needed *)
          set_selfPacket CONFIRM_MESSAGE_STORE_ID (Some confirm1Packet);;
          sendData_selfPacket CONFIRM_MESSAGE_STORE_ID;;
          mret ret0
  else if decide (eventType event = BZRTP_EVENT_MESSAGE) then
    (* first check the packet *)
    '(retval, zrtpPacket) ← packetCheck_event event;
    if failed retval then mret retval
    else
      zrtpPacket ← deref zrtpPacket;
      c ← get_channel;
      (* we expect packets Confirm2, Commit in NON-DHM mode or DHPart2 in DHM mode *)
      if decide (messageType zrtpPacket ≠ MSGTYPE_CONFIRM2
                 ∧ messageType zrtpPacket ≠ MSGTYPE_COMMIT
                 ∧ messageType zrtpPacket ≠ MSGTYPE_DHPART2) then
        mret BZRTP_PARSER_ERROR_UNEXPECTEDMESSAGE
      else if decide (messageType zrtpPacket = MSGTYPE_COMMIT) then
        (* Check we are not in DHM mode *)
        if decide (keyAgreementAlgo c ≠ ZRTP_KEYAGREEMENT_Prsh
                   ∧ keyAgreementAlgo c ≠ ZRTP_KEYAGREEMENT_Mult) then
          mret BZRTP_PARSER_ERROR_UNEXPECTEDMESSAGE
        else
          (* Check the commit packet is the same we already had *)
          cmp ← repetition_memcmp zrtpPacket COMMIT_MESSAGE_STORE_ID;
          if decide (cmp ≠ 0) then mret BZRTP_ERROR_UNMATCHINGPACKETREPETITION
          else
            set_peerSequenceNumber_of zrtpPacket;;
            (* update sequence number and resend confirm1 packet *)
            retval ← packetUpdateSequenceNumber_selfPacket CONFIRM_MESSAGE_STORE_ID;
            if failed retval then mret retval
            else
              selfSequenceNumber_incr;;
              retval ← sendData_selfPacket CONFIRM_MESSAGE_STORE_ID;
              mret (ret_of_int retval)
      else if decide (messageType zrtpPacket = MSGTYPE_DHPART2) then
        (* Check we are not DHM mode *)
        if decide (keyAgreementAlgo c = ZRTP_KEYAGREEMENT_Prsh
                   ∨ keyAgreementAlgo c ≠ ZRTP_KEYAGREEMENT_Mult) then
          mret BZRTP_PARSER_ERROR_UNEXPECTEDMESSAGE
        else
          (* Check the commit packet is the same we already had *)
          cmp ← repetition_memcmp zrtpPacket DHPART_MESSAGE_STORE_ID;
          if decide (cmp ≠ 0) then mret BZRTP_ERROR_UNMATCHINGPACKETREPETITION
          else
            set_peerSequenceNumber_of zrtpPacket;;
            (* update sequence number and resend confirm1 packet *)
            retval ← packetUpdateSequenceNumber_selfPacket CONFIRM_MESSAGE_STORE_ID;
            if failed retval then mret retval
            else
              selfSequenceNumber_incr;;
              retval ← sendData_selfPacket CONFIRM_MESSAGE_STORE_ID;
              mret (ret_of_int retval)
      else
        (* We have a Confirm2 packet, check it, send a conf2ACK and go to secure state *)
        '(retval, zrtpPacket) ← packetParser_event event zrtpPacket;
        if failed retval then mret retval
        else
          confirm2Packet ← deref (as_confirm zrtpPacket);
          memcpy_peerH 0 (confirm_H0 confirm2Packet);;
          (* store the packet to check possible repetitions *)
          set_peerPacket CONFIRM_MESSAGE_STORE_ID (Some zrtpPacket);;
          set_peerSequenceNumber_of zrtpPacket;;
          (* create and send a conf2ACK packet *)
          '(retval, conf2ACKPacket) ← createZrtpPacket MSGTYPE_CONF2ACK;
          if failed retval then mret retval
          else
            conf2ACKPacket ← deref conf2ACKPacket;
            c ← get_channel;
            '(retval, conf2ACKPacket) ← packetBuild conf2ACKPacket (selfSequenceNumber c);
            if failed retval then mret retval
            else
              selfSequenceNumber_incr;;
              retval ← sendData conf2ACKPacket;
              if decide (retval ≠ 0) then mret (ret_of_int retval)
              else
                update_channel (set_stateMachine fn_state_secure);;
                state_secure initEvent
  else mret ret0.

(** The four checks of the secret IDs of a received DHPart message: an ID
    is compared only when the secret is held. The same code, with the
    initiator IDs, is found in [state_keyAgreement_sendingCommit] and in
    [state_keyAgreement_responderSendingDHPart1]. *)
Definition cache_mismatch (ctx : bzrtpContext_t) (c : bzrtpChannelContext_t)
    (dhPartMessage : bzrtpDHPartMessage_t) : bool :=
  bool_decide
    ((rs1 (cachedSecret ctx) ≠ None
      ∧ memcmp (rs1ID (initiatorCachedSecretHash ctx)) (dhpart_rs1ID dhPartMessage) 8 ≠ 0)
     ∨ (rs2 (cachedSecret ctx) ≠ None
        ∧ memcmp (rs2ID (initiatorCachedSecretHash ctx)) (dhpart_rs2ID dhPartMessage) 8 ≠ 0)
     ∨ (auxsecret (cachedSecret ctx) ≠ None
        ∧ memcmp (initiatorAuxsecretID c) (dhpart_auxsecretID dhPartMessage) 8 ≠ 0)
     ∨ (pbxsecret (cachedSecret ctx) ≠ None
        ∧ memcmp (pbxsecretID (initiatorCachedSecretHash ctx))
                 (dhpart_pbxsecretID dhPartMessage) 8 ≠ 0)).

(** [[
      zrtpContext->DHMContext->peer = dhPartMessage->pv;
      bzrtpCrypto_DHMComputeSecret(zrtpContext->DHMContext, bzrtpCrypto_getRandom, zrtpContext->RNGContext);
    ]] *)
Definition DHMComputeSecret `{Externals} (dhPartMessage : bzrtpDHPartMessage_t) : M unit :=
  ctx ← get_context;
  let '(dhm, rng) :=
    bzrtpCrypto_DHMComputeSecret (set_DHM_peer (dhpart_pv dhPartMessage) (DHMContext ctx))
      (RNGContext ctx) in
  put_context (set_DHMContext dhm (set_RNGContext rng ctx)).

Definition state_keyAgreement_initiatorSendingDHPart2 `{Externals, Host, PacketParserAPI}
    (event : bzrtpEvent_t) : M retval_t :=
  if decide (eventType event = BZRTP_EVENT_INIT) then
    (* adjust the sequence number and send the packet *)
    retval ← packetUpdateSequenceNumber_selfPacket DHPART_MESSAGE_STORE_ID;
    if decide (retval = ret0) then
      sendData_selfPacket DHPART_MESSAGE_STORE_ID;;
      selfSequenceNumber_incr;;
      ctx ← get_context;
      timer_start (timeReference ctx + NON_HELLO_BASE_RETRANSMISSION_STEP)
                  NON_HELLO_BASE_RETRANSMISSION_STEP;;
      mret ret0
    else mret retval
  else if decide (eventType event = BZRTP_EVENT_MESSAGE) then
    '(retval, zrtpPacket) ← packetCheck_event event;
    if failed retval then mret retval
    else
      zrtpPacket ← deref zrtpPacket;
      (* we're expecting a confirm1 packet, DHPart1 packet may arrive *)
      if decide (messageType zrtpPacket ≠ MSGTYPE_DHPART1
                 ∧ messageType zrtpPacket ≠ MSGTYPE_CONFIRM1) then
        mret BZRTP_PARSER_ERROR_UNEXPECTEDMESSAGE
      else if decide (messageType zrtpPacket = MSGTYPE_DHPART1) then
        (* just check it is the same we received previously and do nothing *)
        cmp ← repetition_memcmp zrtpPacket DHPART_MESSAGE_STORE_ID;
        if decide (cmp ≠ 0) then mret BZRTP_ERROR_UNMATCHINGPACKETREPETITION
        else
          set_peerSequenceNumber_of zrtpPacket;;
          mret ret0
      else
        (* we have a confirm1 packet, go to state_confirmation_initiatorSendingConfirm2 *)
        '(retval, zrtpPacket) ← packetParser_event event zrtpPacket;
        if failed retval then mret retval
        else
          update_timer (set_status BZRTP_TIMER_OFF);;
          confirm1Packet ← deref (as_confirm zrtpPacket);
          memcpy_peerH 0 (confirm_H0 confirm1Packet);;
          set_peerPacket CONFIRM_MESSAGE_STORE_ID (Some zrtpPacket);;
          set_peerSequenceNumber_of zrtpPacket;;
          update_channel (set_stateMachine fn_state_confirmation_initiatorSendingConfirm2);;
          state_confirmation_initiatorSendingConfirm2 initEvent
  else if decide (eventType event = BZRTP_EVENT_TIMER) then
    timer_adjust NON_HELLO_CAP_RETRANSMISSION_STEP NON_HELLO_MAX_RETRANSMISSION_NUMBER;;
    timer_resend DHPART_MESSAGE_STORE_ID
  else mret ret0.

Definition state_keyAgreement_responderSendingDHPart1 `{Externals, Host, PacketParserAPI}
    (event : bzrtpEvent_t) : M retval_t :=
  c ← get_channel;
  (* We are supposed to send DHPart1 packet and it is already in context or it's an error *)
  if decide (slot (selfPackets c) DHPART_MESSAGE_STORE_ID = None) then
    mret BZRTP_ERROR_INVALIDCONTEXT
  else if decide (eventType event = BZRTP_EVENT_INIT) then
    (* There is no timer in this state, make sure it is off *)
    update_timer (set_status BZRTP_TIMER_OFF);;
    sendData_selfPacket DHPART_MESSAGE_STORE_ID;;
    mret ret0
  else if decide (eventType event = BZRTP_EVENT_MESSAGE) then
    '(retval, zrtpPacket) ← packetCheck_event event;
    if failed retval then mret retval
    else
      zrtpPacket ← deref zrtpPacket;
      (* we're expecting DHPart2 or a Commit packet *)
      if decide (messageType zrtpPacket ≠ MSGTYPE_COMMIT
                 ∧ messageType zrtpPacket ≠ MSGTYPE_DHPART2) then
        mret BZRTP_PARSER_ERROR_UNEXPECTEDMESSAGE
      else if decide (messageType zrtpPacket = MSGTYPE_COMMIT) then
        (* check it is the same as received previously and resend the DHPart1 packet *)
        cmp ← repetition_memcmp zrtpPacket COMMIT_MESSAGE_STORE_ID;
        if decide (cmp ≠ 0) then mret BZRTP_ERROR_UNMATCHINGPACKETREPETITION
        else
          set_peerSequenceNumber_of zrtpPacket;;
          retval ← packetUpdateSequenceNumber_selfPacket DHPART_MESSAGE_STORE_ID;
          if failed retval then mret retval
          else
            sendData_selfPacket DHPART_MESSAGE_STORE_ID;;
            selfSequenceNumber_incr;;
            mret ret0
      else
        (* we have a DHPart2 go to state_confirmation_responderSendingConfirm1 *)
        '(retval, zrtpPacket) ← packetParser_event event zrtpPacket;
        if failed retval then mret retval
        else
          dhPart2Message ← deref (as_dhpart zrtpPacket);
          ctx ← get_context;
          c ← get_channel;
          if cache_mismatch ctx c dhPart2Message then mret BZRTP_ERROR_CACHEMISMATCH
          else
            set_peerSequenceNumber_of zrtpPacket;;
            memcpy_peerH 1 (dhpart_H1 dhPart2Message);;
            set_peerPacket DHPART_MESSAGE_STORE_ID (Some zrtpPacket);;
            (* Compute the shared DH secret *)
            DHMComputeSecret dhPart2Message;;
            (* Derive the s0 key *)
            bzrtp_computeS0DHMMode;;
            update_channel (set_stateMachine fn_state_confirmation_responderSendingConfirm1);;
            state_confirmation_responderSendingConfirm1 initEvent
  else mret ret0.

Definition bzrtp_turnIntoResponder `{Externals, Host, PacketParserAPI}
    (zrtpPacket : bzrtpPacket_t) (commitMessage : bzrtpCommitMessage_t) : M retval_t :=
  (* kill the ongoing timer *)
  update_timer (set_status BZRTP_TIMER_OFF);;
  (* store the commit packet in the channel context as it is needed later to check MAC *)
  set_peerPacket COMMIT_MESSAGE_STORE_ID (Some zrtpPacket);;
  (* save the peer H2 *)
  memcpy_peerH 2 (commit_H2 commitMessage);;
  (* we are receiver, set it in the context and update our selected algos *)
  update_channel (fun c =>
    set_sasAlgo (commit_sasAlgo commitMessage)
      (set_keyAgreementAlgo (commit_keyAgreementAlgo commitMessage)
        (set_authTagAlgo (commit_authTagAlgo commitMessage)
          (set_cipherAlgo (commit_cipherAlgo commitMessage)
            (set_hashAlgo (commit_hashAlgo commitMessage)
              (set_role BZRTP_ROLE_RESPONDER c))))));;
  c ← get_channel;
  retval ←
    match slot (selfPackets c) DHPART_MESSAGE_STORE_ID with
    | Some selfDHPart =>
        (* as responder we must swap the aux shared secret between responder and initiator *)
        let tmpBuffer := take 8 (initiatorAuxsecretID c) in
        update_channel (fun c =>
          set_responderAuxsecretID tmpBuffer
            (set_initiatorAuxsecretID (take 8 (responderAuxsecretID c)) c));;
        c ← get_channel;
        ctx ← get_context;
        (* responder self DHPart packet is DHPart1, change the type *)
        let selfDHPart := set_messageType MSGTYPE_DHPART1 selfDHPart in
        (* change the shared secret ID to the responder one *)
        selfDHPart1Packet ← deref (as_dhpart selfDHPart);
        let selfDHPart1Packet :=
          set_dhpart_pbxsecretID (take 8 (pbxsecretID (responderCachedSecretHash ctx)))
            (set_dhpart_auxsecretID (take 8 (responderAuxsecretID c))
              (set_dhpart_rs2ID (take 8 (rs2ID (responderCachedSecretHash ctx)))
                (set_dhpart_rs1ID (take 8 (rs1ID (responderCachedSecretHash ctx)))
                  selfDHPart1Packet))) in
        let selfDHPart := set_messageData (Some (DHPartMessage selfDHPart1Packet)) selfDHPart in
        set_selfPacket DHPART_MESSAGE_STORE_ID (Some selfDHPart);;
        c ← get_channel;
        '(retval, selfDHPart) ← packetBuild selfDHPart (selfSequenceNumber c);
        set_selfPacket DHPART_MESSAGE_STORE_ID (Some selfDHPart);;
        if decide (retval = ret0) then selfSequenceNumber_incr;; mret ret0
        else mret retval
    | None => mret ret0
    end;
  if failed retval then mret retval
  else
    c ← get_channel;
    (* if we are in PreShared or Multi mode, go to state_confirmation_responderSendingConfirm1 *)
    if decide (keyAgreementAlgo c = ZRTP_KEYAGREEMENT_Prsh
               ∨ keyAgreementAlgo c = ZRTP_KEYAGREEMENT_Mult) then
      update_channel (set_stateMachine fn_state_confirmation_responderSendingConfirm1);;
      state_confirmation_responderSendingConfirm1 initEvent
    else
      (* if we are in DHM mode, goes to state_keyAgreement_responderSendingDHPart1 *)
      update_channel (set_stateMachine fn_state_keyAgreement_responderSendingDHPart1);;
      state_keyAgreement_responderSendingDHPart1 initEvent.

(** The supported version, [ZRTP_VERSION] of [packetParser.h]. *)
Definition ZRTP_VERSION : list Z := bytes_of_string "1.10".

(** [bzrtpCrypto_getRandom(zrtpContext->RNGContext, output, n)] *)
Definition getRandom `{Externals} (n : Z) : M (list Z) :=
  ctx ← get_context;
  let '(output, rng) := bzrtpCrypto_getRandom (RNGContext ctx) n in
  put_context (set_RNGContext rng ctx);;
  mret output.

(** The IDs of a cached secret: [HMAC(secret, "Initiator")] and
    [HMAC(secret, "Responder")] on 8 bytes when the secret is held, two
    random strings otherwise. *)
Definition secret_IDs `{Externals} (secret : option (list Z)) (secretLength : Z)
    (initiatorInput responderInput : list Z) : M (list Z * list Z) :=
  c ← get_channel;
  match secret with
  | Some secret =>
      mret (hmacFunction c (bytes_at secret 0 secretLength) initiatorInput 8,
            hmacFunction c (bytes_at secret 0 secretLength) responderInput 8)
  | None =>
      initiatorID ← getRandom 8;
      responderID ← getRandom 8;
      mret (initiatorID, responderID)
  end.

Definition bzrtp_responseToHelloMessage `{Externals, Host, PacketParserAPI}
    (zrtpPacket : bzrtpPacket_t) (nextState : bzrtpStateMachine_t) : M retval_t :=
  helloMessage ← deref (as_hello zrtpPacket);
  (* check supported version of ZRTP protocol *)
  if decide (memcmp (hello_version helloMessage) ZRTP_VERSION 3 ≠ 0) then
    mret BZRTP_ERROR_UNSUPPORTEDZRTPVERSION
  else
    ctx ← get_context;
    c ← get_channel;
    (* now check we have some algo in common *)
    let '(retval, c) := crypoAlgoAgreement ctx c helloMessage in
    put_channel c;;
    if decide (retval ≠ 0) then mret (ret_of_int retval)
    else
      (* check if the peer accept MultiChannel *)
      let supportMultiChannel :=
        if decide (ZRTP_KEYAGREEMENT_Mult
                   ∈ take (Z.to_nat (hello_kc helloMessage))
                          (hello_supportedKeyAgreement helloMessage))
        then 1 else 0 in
      update_context (fun ctx =>
        set_peerZID (take 12 (hello_ZID helloMessage))
          (set_peerSupportMultiChannel supportMultiChannel ctx));;
      memcpy_peerH 3 (hello_H3 helloMessage);;
      set_peerPacket HELLO_MESSAGE_STORE_ID (Some zrtpPacket);;
      (* get from cache, if relevant, the retained secrets associated to the peer ZID *)
      ctx ← get_context;
      (if decide (rs1 (cachedSecret ctx) = None)
       then put_context (getPeerAssociatedSecretsHash ctx (hello_ZID helloMessage))
       else mret tt);;
      (* now compute the retained secret hashes *)
      ctx ← get_context;
      c ← get_channel;
      let cached := cachedSecret ctx in
      '(rs1IDi, rs1IDr) ← secret_IDs (rs1 cached) (rs1Length cached)
                            (bytes_of_string "Initiator") (bytes_of_string "Responder");
      '(rs2IDi, rs2IDr) ← secret_IDs (rs2 cached) (rs2Length cached)
                            (bytes_of_string "Initiator") (bytes_of_string "Responder");
      '(pbxIDi, pbxIDr) ← secret_IDs (pbxsecret cached) (pbxsecretLength cached)
                            (bytes_of_string "Initiator") (bytes_of_string "Responder");
      '(auxIDi, auxIDr) ← secret_IDs (auxsecret cached) (auxsecretLength cached)
                            (bytes_at (default [] (selfH c !! 3%nat)) 0 32)
                            (bytes_at (default [] (peerH c !! 3%nat)) 0 32);
      update_context (fun ctx =>
        set_initiatorCachedSecretHash
          {| rs1ID := rs1IDi; rs2ID := rs2IDi; pbxsecretID := pbxIDi |}
          (set_responderCachedSecretHash
             {| rs1ID := rs1IDr; rs2ID := rs2IDr; pbxsecretID := pbxIDr |} ctx));;
      update_channel (fun c =>
        set_initiatorAuxsecretID auxIDi (set_responderAuxsecretID auxIDr c));;
      (* now select mode according to context *)
      ctx ← get_context;
      (if decide (peerSupportMultiChannel ctx = 1 ∧ ZRTPSess ctx ≠ None)
       then update_channel (fun c =>
              set_keyAgreementLength 0 (set_keyAgreementAlgo ZRTP_KEYAGREEMENT_Mult c))
       else mret tt);;
      c ← get_channel;
      retval ←
        (if decide (keyAgreementAlgo c = ZRTP_KEYAGREEMENT_Prsh) then mret ret0
         else if decide (keyAgreementAlgo c = ZRTP_KEYAGREEMENT_Mult) then mret ret0
         else
           (* when in DHM mode : Create the DHPart2 packet *)
           '(retval, selfDHPartPacket) ← createZrtpPacket MSGTYPE_DHPART2;
           if failed retval then mret retval
           else
             selfDHPartPacket ← deref selfDHPartPacket;
             '(retval, selfDHPartPacket) ← packetBuild selfDHPartPacket 0;
             if decide (retval = ret0) then
               set_selfPacket DHPART_MESSAGE_STORE_ID (Some selfDHPartPacket);;
               mret ret0
             else mret retval);
      if failed retval then mret retval
      else
        (* now respond to this Hello packet sending a Hello ACK *)
        '(retval, helloACKPacket) ← createZrtpPacket MSGTYPE_HELLOACK;
        if failed retval then mret retval
        else
          helloACKPacket ← deref helloACKPacket;
          c ← get_channel;
          '(retval, helloACKPacket) ← packetBuild helloACKPacket (selfSequenceNumber c);
          if failed retval then mret retval
          else
            sendData helloACKPacket;;
            selfSequenceNumber_incr;;
            mret ret0.

(** The commit contention of [state_keyAgreement_sendingCommit]: the
    statements that set [zrtpChannelContext->role] to the responder role. *)
Definition commit_contention (peerCommitMessage selfCommitMessage : bzrtpCommitMessage_t)
    : M unit :=
  let become_responder := update_channel (set_role BZRTP_ROLE_RESPONDER) in
  (* modes are the same and no one has the MiTM flag set : compare hvi/nonce *)
  let compare :=
    if decide (commit_keyAgreementAlgo selfCommitMessage = ZRTP_KEYAGREEMENT_Prsh
               ∨ commit_keyAgreementAlgo selfCommitMessage = ZRTP_KEYAGREEMENT_Mult) then
      (* non DHM mode, compare the nonce, lower will be responder *)
      if decide (memcmp (commit_nonce selfCommitMessage) (commit_nonce peerCommitMessage) 16 < 0)
      then become_responder else mret tt
    else
      (* DHM mode, compare the hvi *)
      if decide (memcmp (commit_hvi selfCommitMessage) (commit_hvi peerCommitMessage) 32 < 0)
      then become_responder else mret tt in
  if decide (commit_keyAgreementAlgo peerCommitMessage
             ≠ commit_keyAgreementAlgo selfCommitMessage) then
    (* commits have differents modes *)
    if decide (commit_keyAgreementAlgo peerCommitMessage ≠ ZRTP_KEYAGREEMENT_Prsh
               ∧ commit_keyAgreementAlgo selfCommitMessage = ZRTP_KEYAGREEMENT_Prsh)
    then become_responder else mret tt
  else
    (* commit have the same mode *)
    c ← get_channel;
    peerHello ← deref (slot (peerPackets c) HELLO_MESSAGE_STORE_ID);
    selfHello ← deref (slot (selfPackets c) HELLO_MESSAGE_STORE_ID);
    if decide (commit_keyAgreementAlgo peerCommitMessage = ZRTP_KEYAGREEMENT_Prsh) then
      selfHelloMessage ← deref (as_hello selfHello);
      if decide (hello_M selfHelloMessage = 1) then
        (* we are a PBX -> act as responder *)
        become_responder
      else
        peerHelloMessage ← deref (as_hello peerHello);
        if decide (hello_M peerHelloMessage = 1) then mret tt else compare
    else compare.

Definition state_keyAgreement_sendingCommit `{Externals, Host, PacketParserAPI}
    (event : bzrtpEvent_t) : M retval_t :=
  c ← get_channel;
  (* Manage the first call to this function *)
  if decide (eventType event = BZRTP_EVENT_INIT
             ∧ slot (selfPackets c) COMMIT_MESSAGE_STORE_ID = None) then
    (* create the commit packet *)
    '(retval, commitPacket) ← createZrtpPacket MSGTYPE_COMMIT;
    if failed retval then mret retval
    else
      commitPacket ← deref commitPacket;
      (* build the packet string *)
      '(built, commitPacket) ← packetBuild commitPacket (selfSequenceNumber c);
      if decide (built = ret0) then
        set_selfPacket COMMIT_MESSAGE_STORE_ID (Some commitPacket);;
        (* it is the first call to this state function, so we must also
           set the timer for retransmissions *)
        ctx ← get_context;
        timer_start (timeReference ctx + NON_HELLO_BASE_RETRANSMISSION_STEP)
                    NON_HELLO_BASE_RETRANSMISSION_STEP;;
        (* now send the first Commit message *)
        sendData_selfPacket COMMIT_MESSAGE_STORE_ID;;
        selfSequenceNumber_incr;;
        mret ret0
      else mret retval
  else if decide (eventType event = BZRTP_EVENT_MESSAGE) then
    (* first check the packet *)
    '(retval, zrtpPacket) ← packetCheck_event event;
    if failed retval then mret retval
    else
      zrtpPacket ← deref zrtpPacket;
      (* we're expecting a commit or a DHPart1 or a Confirm1 packet *)
      if decide (messageType zrtpPacket ≠ MSGTYPE_COMMIT
                 ∧ messageType zrtpPacket ≠ MSGTYPE_DHPART1
                 ∧ messageType zrtpPacket ≠ MSGTYPE_CONFIRM1) then
        mret BZRTP_PARSER_ERROR_UNEXPECTEDMESSAGE
      (* DHPART1 can be received only if we are in DHM mode *)
      else if decide (messageType zrtpPacket = MSGTYPE_DHPART1
                      ∧ (keyAgreementAlgo c = ZRTP_KEYAGREEMENT_Prsh
                         ∨ keyAgreementAlgo c = ZRTP_KEYAGREEMENT_Prsh)) then
        mret BZRTP_PARSER_ERROR_UNEXPECTEDMESSAGE
      (* Confirm1 can be received only if we are in Mult or PreShared mode *)
      else if decide (messageType zrtpPacket = MSGTYPE_CONFIRM1
                      ∧ keyAgreementAlgo c ≠ ZRTP_KEYAGREEMENT_Prsh
                      ∧ keyAgreementAlgo c ≠ ZRTP_KEYAGREEMENT_Mult) then
        mret BZRTP_PARSER_ERROR_UNEXPECTEDMESSAGE
      else
        (* if we have a confirm1 and are in multi stream mode, we must first
           derive s0 and other keys to be able to parse the packet *)
        retval ←
          (if decide (messageType zrtpPacket = MSGTYPE_CONFIRM1
                      ∧ keyAgreementAlgo c = ZRTP_KEYAGREEMENT_Mult)
           then bzrtp_computeS0MultiStreamMode else mret ret0);
        if failed retval then mret retval
        else
          (* parse the packet wich is either Commit a DHPart1 or a Confirm1 packet *)
          '(retval, zrtpPacket) ← packetParser_event event zrtpPacket;
          if failed retval then mret retval
          else
            (* packet is valid, set the sequence Number in channel context *)
            set_peerSequenceNumber_of zrtpPacket;;
            if decide (messageType zrtpPacket = MSGTYPE_DHPART1) then
              (* we have a DHPart1 - so we are initiator in DHM mode *)
              update_timer (set_status BZRTP_TIMER_OFF);;
              dhPart1Message ← deref (as_dhpart zrtpPacket);
              ctx ← get_context;
              c ← get_channel;
              (* Check shared secret hash found in the DHPart1 message *)
              if cache_mismatch ctx c dhPart1Message then mret BZRTP_ERROR_CACHEMISMATCH
              else
                (* update context with the information found in the packet *)
                memcpy_peerH 1 (dhpart_H1 dhPart1Message);;
                set_peerPacket DHPART_MESSAGE_STORE_ID (Some zrtpPacket);;
                (* Compute the shared DH secret *)
                DHMComputeSecret dhPart1Message;;
                (* Derive the s0 key *)
                bzrtp_computeS0DHMMode;;
                update_channel
                  (set_stateMachine fn_state_keyAgreement_initiatorSendingDHPart2);;
                state_keyAgreement_initiatorSendingDHPart2 initEvent
            else if decide (messageType zrtpPacket = MSGTYPE_CONFIRM1) then
              (* we have a Confirm1 - so we are initiator and in NON-DHM mode *)
              update_timer (set_status BZRTP_TIMER_OFF);;
              confirm1Message ← deref (as_confirm zrtpPacket);
              memcpy_peerH 0 (confirm_H0 confirm1Message);;
              update_channel
                (set_stateMachine fn_state_confirmation_initiatorSendingConfirm2);;
              state_confirmation_initiatorSendingConfirm2 initEvent
            else if decide (messageType zrtpPacket = MSGTYPE_COMMIT) then
              (* we have a commit - do commit contention as in rfc section 4.2 *)
              peerCommitMessage ← deref (as_commit zrtpPacket);
              c ← get_channel;
              selfCommit ← deref (slot (selfPackets c) COMMIT_MESSAGE_STORE_ID);
              selfCommitMessage ← deref (as_commit selfCommit);
              commit_contention peerCommitMessage selfCommitMessage;;
              c ← get_channel;
              (* so now check if we are responder - if we are initiator just do
                 nothing, continue sending the commits and ignore the one we
                 just receive *)
              if decide (role c = BZRTP_ROLE_RESPONDER) then
                (* free the self commit packet as it is now useless *)
                set_selfPacket COMMIT_MESSAGE_STORE_ID None;;
                bzrtp_turnIntoResponder zrtpPacket peerCommitMessage
              else mret ret0
            else mret ret0
  else if decide (eventType event = BZRTP_EVENT_TIMER) then
    timer_adjust NON_HELLO_CAP_RETRANSMISSION_STEP NON_HELLO_MAX_RETRANSMISSION_NUMBER;;
    (* We must resend a Commit packet *)
    timer_resend COMMIT_MESSAGE_STORE_ID
  else mret ret0.

Definition state_discovery_waitingForHelloAck `{Externals, Host, PacketParserAPI}
    (event : bzrtpEvent_t) : M retval_t :=
  if decide (eventType event = BZRTP_EVENT_MESSAGE) then
    (* first check the packet *)
    '(retval, zrtpPacket) ← packetCheck_event event;
    if failed retval then mret retval
    else
      zrtpPacket ← deref zrtpPacket;
      (* we can receive either a Hello, HelloACK or Commit packets, others will be ignored *)
      if decide (messageType zrtpPacket ≠ MSGTYPE_HELLO
                 ∧ messageType zrtpPacket ≠ MSGTYPE_HELLOACK
                 ∧ messageType zrtpPacket ≠ MSGTYPE_COMMIT) then
        mret BZRTP_PARSER_ERROR_UNEXPECTEDMESSAGE
      else if decide (messageType zrtpPacket = MSGTYPE_HELLO) then
        (* we must check it is the same we initially received, and send a HelloACK *)
        cmp ← repetition_memcmp zrtpPacket HELLO_MESSAGE_STORE_ID;
        if decide (cmp ≠ 0) then mret BZRTP_ERROR_UNMATCHINGPACKETREPETITION
        else
          set_peerSequenceNumber_of zrtpPacket;;
          (* build and send the HelloACK packet *)
          '(retval, helloACKPacket) ← createZrtpPacket MSGTYPE_HELLOACK;
          if failed retval then mret retval
          else
            helloACKPacket ← deref helloACKPacket;
            c ← get_channel;
            '(retval, helloACKPacket) ← packetBuild helloACKPacket (selfSequenceNumber c);
            if failed retval then mret retval
            else
              sendData helloACKPacket;;
              selfSequenceNumber_incr;;
              mret ret0
      else
        (* parse the packet wich is either HelloACK or Commit *)
        '(retval, zrtpPacket) ← packetParser_event event zrtpPacket;
        if failed retval then mret retval
        else
          set_peerSequenceNumber_of zrtpPacket;;
          if decide (messageType zrtpPacket = MSGTYPE_HELLOACK) then
            (* stop the timer *)
            update_timer (set_status BZRTP_TIMER_OFF);;
            update_channel (set_stateMachine fn_state_keyAgreement_sendingCommit);;
            state_keyAgreement_sendingCommit initEvent
          else if decide (messageType zrtpPacket = MSGTYPE_COMMIT) then
            commitMessage ← deref (as_commit zrtpPacket);
            bzrtp_turnIntoResponder zrtpPacket commitMessage
          else mret ret0
  else if decide (eventType event = BZRTP_EVENT_TIMER) then
    timer_adjust HELLO_CAP_RETRANSMISSION_STEP HELLO_MAX_RETRANSMISSION_NUMBER;;
    (* We must resend a Hello packet *)
    timer_resend HELLO_MESSAGE_STORE_ID
  else mret ret0.

Definition state_discovery_waitingForHello `{Externals, Host, PacketParserAPI}
    (event : bzrtpEvent_t) : M retval_t :=
  if decide (eventType event = BZRTP_EVENT_MESSAGE) then
    '(retval, zrtpPacket) ← packetCheck_event event;
    if failed retval then mret retval
    else
      zrtpPacket ← deref zrtpPacket;
      if decide (messageType zrtpPacket ≠ MSGTYPE_HELLO) then
        mret BZRTP_PARSER_ERROR_UNEXPECTEDMESSAGE
      else
        '(retval, zrtpPacket) ← packetParser_event event zrtpPacket;
        if failed retval then mret retval
        else
          set_peerSequenceNumber_of zrtpPacket;;
          retval ← bzrtp_responseToHelloMessage zrtpPacket fn_state_discovery_waitingForHelloAck;
          if failed retval then mret retval
          else
            update_channel (set_stateMachine fn_state_keyAgreement_sendingCommit);;
            state_keyAgreement_sendingCommit initEvent
  else mret ret0.

Definition state_discovery_init `{Externals, Host, PacketParserAPI}
    (event : bzrtpEvent_t) : M retval_t :=
  c ← get_channel;
  if decide (eventType event = BZRTP_EVENT_INIT
             ∧ slot (selfPackets c) HELLO_MESSAGE_STORE_ID = None) then
    (* create the Hello packet *)
    '(retval, helloPacket) ← createZrtpPacket MSGTYPE_HELLO;
    if failed retval then mret retval
    else
      helloPacket ← deref helloPacket;
      '(built, helloPacket) ← packetBuild helloPacket (selfSequenceNumber c);
      if decide (built = ret0) then
        set_selfPacket HELLO_MESSAGE_STORE_ID (Some helloPacket);;
        (* we must send a first hello message as soon as possible, to do
           it at first timer tick *)
        timer_start 0 HELLO_BASE_RETRANSMISSION_STEP;;
        selfSequenceNumber_incr;;
        mret ret0
      else mret retval
  else if decide (eventType event = BZRTP_EVENT_MESSAGE) then
    '(retval, zrtpPacket) ← packetCheck_event event;
    if failed retval then mret retval
    else
      zrtpPacket ← deref zrtpPacket;
      (* we're expecting either Hello or HelloACK *)
      if decide (messageType zrtpPacket ≠ MSGTYPE_HELLO
                 ∧ messageType zrtpPacket ≠ MSGTYPE_HELLOACK) then
        mret BZRTP_PARSER_ERROR_UNEXPECTEDMESSAGE
      else
        '(retval, zrtpPacket) ← packetParser_event event zrtpPacket;
        if failed retval then mret retval
        else
          set_peerSequenceNumber_of zrtpPacket;;
          if decide (messageType zrtpPacket = MSGTYPE_HELLO) then
            retval ←
              bzrtp_responseToHelloMessage zrtpPacket fn_state_discovery_waitingForHelloAck;
            if failed retval then mret retval
            else
              update_channel (set_stateMachine fn_state_discovery_waitingForHelloAck);;
              mret ret0
          else
            (* if we have a HelloACK packet, stop the timer and set next
               state to state_discovery_waitingForHello *)
            update_timer (set_status BZRTP_TIMER_OFF);;
            update_channel (set_stateMachine fn_state_discovery_waitingForHello);;
            mret ret0
  else if decide (eventType event = BZRTP_EVENT_TIMER) then
    timer_adjust HELLO_CAP_RETRANSMISSION_STEP (HELLO_MAX_RETRANSMISSION_NUMBER + 1);;
    (* We must resend a Hello packet *)
    timer_resend HELLO_MESSAGE_STORE_ID
  else mret ret0.

(** [zrtpChannelContext->stateMachine(event)] *)
Definition stateMachine_call `{Externals, Host, PacketParserAPI}
    (event : bzrtpEvent_t) : M retval_t :=
  c ← get_channel;
  match stateMachine c with
  | fn_state_discovery_init => state_discovery_init event
  | fn_state_discovery_waitingForHello => state_discovery_waitingForHello event
  | fn_state_discovery_waitingForHelloAck => state_discovery_waitingForHelloAck event
  | fn_state_keyAgreement_sendingCommit => state_keyAgreement_sendingCommit event
  | fn_state_keyAgreement_responderSendingDHPart1 =>
      state_keyAgreement_responderSendingDHPart1 event
  | fn_state_keyAgreement_initiatorSendingDHPart2 =>
      state_keyAgreement_initiatorSendingDHPart2 event
  | fn_state_confirmation_responderSendingConfirm1 =>
      state_confirmation_responderSendingConfirm1 event
  | fn_state_confirmation_initiatorSendingConfirm2 =>
      state_confirmation_initiatorSendingConfirm2 event
  | fn_state_secure => state_secure event
  end.

(** * Properties used in the statements *)

(** The packet string of [p] has the size of the packet header, the
    message and the CRC. *)
Definition well_sized (p : bzrtpPacket_t) : Prop :=
  exists s, packetString p = Some s
    /\ 0 <= messageLength p
    /\ length s = Z.to_nat ((if decide (messageType p = MSGTYPE_FRAGMENT)
                             then ZRTP_FRAGMENTEDPACKET_HEADER_LENGTH
                             else ZRTP_PACKET_HEADER_LENGTH)
                            + messageLength p + ZRTP_PACKET_CRC_LENGTH).


(** * An instance of the parameters

    The theorems hold for every instance of [Externals], [Host] and
    [PacketParserAPI]. The instance below is small enough to run the model
    on concrete packets: the hash of a string depends on the sum of its
    bytes only, which is enough to tell strings apart in the examples. *)

Definition sample_sum (l : list Z) : Z := foldr Z.add 0 l.

Definition sample_CRC32 (input : list Z) : Z := sample_sum input `mod` 2 ^ 32.

Definition sample_sha256 (input : list Z) (inputLength : Z) : list Z :=
  replicate 32 (uint8_t (1 + sample_sum (take (Z.to_nat inputLength) input))).

Definition sample_hmacSha256 (key input : list Z) (hmacLength : Z) : list Z :=
  replicate (Z.to_nat hmacLength) (uint8_t (sample_sum key + sample_sum input)).

Definition sample_publicValueLength (algo : cryptoAlgo_t) (t : messageType_t) : Z :=
  match algo with
  | ZRTP_KEYAGREEMENT_DH2k => 256
  | ZRTP_KEYAGREEMENT_DH3k => 384
  | ZRTP_KEYAGREEMENT_X255 => 32
  | ZRTP_KEYAGREEMENT_X448 => 56
  | _ => 0
  end.

Definition sample_commitVariableLength (algo : cryptoAlgo_t) : Z :=
  match algo with
  | ZRTP_KEYAGREEMENT_Prsh => 24
  | ZRTP_KEYAGREEMENT_Mult => 16
  | ZRTP_ALGO _ => 0
  | _ => 32
  end.

Definition sample_Externals : Externals :=
  {| GOCLEAR_ENABLED := false;
     malloc := fun n => replicate (Z.to_nat n) 0;
     malloc_length := fun n => length_replicate (Z.to_nat n) 0;
     bctbx_sha256 := sample_sha256;
     bctbx_hmacSha256 := sample_hmacSha256;
     bctbx_rng_get := fun rng n => (replicate (Z.to_nat n) 0, rng);
     bzrtp_CRC32 := sample_CRC32;
     bzrtp_CRC32_uint32 := fun input =>
       Z.mod_pos_bound (sample_sum input) (2 ^ 32) eq_refl;
     bzrtp_computeKeyAgreementPublicValueLength := sample_publicValueLength;
     bzrtp_computeCommitMessageVariableLength := sample_commitVariableLength;
     bzrtp_isKem := fun _ => false;
     bzrtp_cryptoAlgoTypeStringToInt := fun s _ => ZRTP_ALGO (be_value s);
     bzrtp_cryptoAlgoTypeIntToString := fun _ => [0; 0; 0; 0];
     bzrtp_addMandatoryCryptoTypesIfNeeded := fun _ l n => (l, n);
     bzrtp_keyDerivationFunction := fun key label context len hmac =>
       (0, hmac key (label ++ context) len);
     bzrtpCrypto_getRandom := fun rng n => (replicate (Z.to_nat n) 0, rng);
     bzrtpCrypto_DHMComputeSecret := fun dhm rng => (dhm, rng);
     crypoAlgoAgreement := fun _ chan _ => (0, chan);
     getPeerAssociatedSecretsHash := fun ctx _ => ctx |}.

Definition sample_timer : bzrtpTimer_t :=
  {| status := BZRTP_TIMER_OFF; firingTime := 0; firingCount := 0; timerStep := 0 |}.

Definition sample_packet (t : messageType_t) (len : Z) (data : option messageData_t)
    : bzrtpPacket_t :=
  Build_bzrtpPacket_t 0 0 t len data None [].

Definition sample_channel : bzrtpChannelContext_t :=
  {| role := BZRTP_ROLE_INITIATOR;
     stateMachine := fn_state_discovery_init;
     timer := sample_timer;
     selfSSRC := 0x12345678;
     selfH := replicate 4 (replicate 32 0);
     peerH := replicate 4 (replicate 32 0);
     selfPackets := replicate 5 None;
     peerPackets := replicate 5 None;
     peerHelloHash := None;
     selfSequenceNumber := 1;
     selfMessageSequenceNumber := 1;
     peerSequenceNumber := 0;
     hashAlgo := ZRTP_ALGO 0x11;
     hashLength := 32;
     cipherAlgo := ZRTP_ALGO 0x21;
     cipherKeyLength := 16;
     authTagAlgo := ZRTP_ALGO 0x31;
     keyAgreementAlgo := ZRTP_KEYAGREEMENT_DH3k;
     keyAgreementLength := 384;
     sasAlgo := ZRTP_ALGO 0x51;
     hmacFunction := sample_hmacSha256;
     hashFunction := sample_sha256;
     cipherEncryptionFunction := fun _ _ input => input;
     cipherDecryptionFunction := fun _ _ input => input;
     s0 := None;
     KDFContext := None;
     KDFContextLength := 0;
     mackeyi := None;
     mackeyr := None;
     zrtpkeyi := None;
     zrtpkeyr := None;
     initiatorAuxsecretID := replicate 8 0;
     responderAuxsecretID := replicate 8 0;
     incomingFragmentedPacket :=
       {| frag_messageId := 0; frag_messageLength := 0;
          frag_packetString := None; frag_fragments := [] |};
     pingPacket := None |}.

Definition sample_context : bzrtpContext_t :=
  {| RNGContext := 0;
     DHMContext := {| DHM_peer := None; DHM_key := replicate 384 7 |};
     isSecure := 0;
     peerSupportMultiChannel := 0;
     timeReference := 0;
     selfZID := replicate 12 1;
     peerZID := replicate 12 2;
     cachedSecret :=
       {| rs1 := None; rs1Length := 0; rs2 := None; rs2Length := 0;
          auxsecret := None; auxsecretLength := 0;
          pbxsecret := None; pbxsecretLength := 0;
          previouslyVerifiedSas := 0 |};
     initiatorCachedSecretHash :=
       {| rs1ID := replicate 8 0; rs2ID := replicate 8 0; pbxsecretID := replicate 8 0 |};
     responderCachedSecretHash :=
       {| rs1ID := replicate 8 0; rs2ID := replicate 8 0; pbxsecretID := replicate 8 0 |};
     ZRTPSess := None;
     ZRTPSessLength := 0;
     mtu := 1452 |}.

(** ** A second instance, for the hash chains

    Its hash is a polynomial digest of the bytes, so that the images of
    two hash chains differ, and its key agreement algorithms are written
    with the four letters of the protocol. *)

Definition sample_digest (l : list Z) : Z :=
  fold_left (fun acc b => (acc * 31 + b + 1) `mod` 65521) l 7.

Definition sample_expand (d : Z) (n : nat) : list Z :=
  map (fun i : nat => uint8_t (d * (Z.of_nat i + 1) + d `div` 256)) (seq 0 n).

Definition sample_digest256 (input : list Z) (inputLength : Z) : list Z :=
  sample_expand (sample_digest (take (Z.to_nat inputLength) input)) 32.

Definition sample_digestHmac (key input : list Z) (hmacLength : Z) : list Z :=
  take (Z.to_nat hmacLength) (sample_expand (sample_digest (key ++ 0 :: input)) 32).

Definition sample_algoIntToString (algo : cryptoAlgo_t) : list Z :=
  match algo with
  | ZRTP_KEYAGREEMENT_DH2k => bytes_of_string "DH2k"
  | ZRTP_KEYAGREEMENT_DH3k => bytes_of_string "DH3k"
  | ZRTP_KEYAGREEMENT_X255 => bytes_of_string "X255"
  | ZRTP_KEYAGREEMENT_X448 => bytes_of_string "X448"
  | ZRTP_KEYAGREEMENT_Prsh => bytes_of_string "Prsh"
  | ZRTP_KEYAGREEMENT_Mult => bytes_of_string "Mult"
  | ZRTP_ALGO code => be32_bytes code
  end.

Definition sample_algoStringToInt (s : list Z) (algoType : cryptoAlgoType_t) : cryptoAlgo_t :=
  let eq4 literal := bool_decide (memcmp s (bytes_of_string literal) 4 = 0) in
  match algoType with
  | ZRTP_KEYAGREEMENT_TYPE =>
      if eq4 "DH2k" then ZRTP_KEYAGREEMENT_DH2k
      else if eq4 "DH3k" then ZRTP_KEYAGREEMENT_DH3k
      else if eq4 "X255" then ZRTP_KEYAGREEMENT_X255
      else if eq4 "X448" then ZRTP_KEYAGREEMENT_X448
      else if eq4 "Prsh" then ZRTP_KEYAGREEMENT_Prsh
      else if eq4 "Mult" then ZRTP_KEYAGREEMENT_Mult
      else ZRTP_ALGO 0
  | _ => ZRTP_ALGO (be_value (take 4 s))
  end.

Definition sample_Crypto : Externals :=
  {| GOCLEAR_ENABLED := false;
     malloc := fun n => replicate (Z.to_nat n) 0;
     malloc_length := fun n => length_replicate (Z.to_nat n) 0;
     bctbx_sha256 := sample_digest256;
     bctbx_hmacSha256 := sample_digestHmac;
     bctbx_rng_get := fun rng n => (replicate (Z.to_nat n) 0, rng);
     bzrtp_CRC32 := sample_CRC32;
     bzrtp_CRC32_uint32 := fun input =>
       Z.mod_pos_bound (sample_sum input) (2 ^ 32) eq_refl;
     bzrtp_computeKeyAgreementPublicValueLength := sample_publicValueLength;
     bzrtp_computeCommitMessageVariableLength := sample_commitVariableLength;
     bzrtp_isKem := fun _ => false;
     bzrtp_cryptoAlgoTypeStringToInt := sample_algoStringToInt;
     bzrtp_cryptoAlgoTypeIntToString := sample_algoIntToString;
     bzrtp_addMandatoryCryptoTypesIfNeeded := fun _ l n => (l, n);
     bzrtp_keyDerivationFunction := fun key label context len hmac =>
       (0, hmac key (label ++ context) len);
     bzrtpCrypto_getRandom := fun rng n => (replicate (Z.to_nat n) 0, rng);
     bzrtpCrypto_DHMComputeSecret := fun dhm rng => (dhm, rng);
     crypoAlgoAgreement := fun _ chan _ => (0, chan);
     getPeerAssociatedSecretsHash := fun ctx _ => ctx |}.

Definition sample_machine (ctx : bzrtpContext_t) (chan : bzrtpChannelContext_t) : machine_t :=
  {| zrtpContext := ctx; zrtpChannelContext := chan; sent := [] |}.

(** A host that accepts every packet and whose memory holds zeros after
    the packet structures. *)
Definition sample_Host : Host :=
  {| bzrtp_sendData := fun _ => 0;
     bytes_beyond_peerPacket := fun _ => replicate 4096 0 |}.

(** The functions of [packetParser.c] behind the interface the state
    machine calls: the check is [bzrtp_packetCheck] on a channel whose last
    valid sequence number is the one given, the build is
    [bzrtp_packetBuild] followed by [bzrtp_packetSetSequenceNumber]. *)
Definition sample_packetCheck (input : list Z) (inputLength lastValidSequenceNumber : Z)
    : retval_t * option bzrtpPacket_t :=
  let r := bzrtp_packetCheck (H := sample_Crypto) input inputLength
             (Some (set_peerSequenceNumber lastValidSequenceNumber sample_channel)) in
  (check_exitCode r, check_packet r).

Definition sample_packetBuild (ctx : bzrtpContext_t) (chan : bzrtpChannelContext_t)
    (p : bzrtpPacket_t) (sequenceNumber : Z) : retval_t * bzrtpPacket_t :=
  match bzrtp_packetBuild (H := sample_Crypto) ctx chan (Some p) with
  | Some (ret0, Some p', _) =>
      match bzrtp_packetSetSequenceNumber (H := sample_Crypto) (Some p') sequenceNumber with
      | (r, Some p'') => (r, p'')
      | (r, None) => (r, p')
      end
  | Some (r, Some p', _) => (r, p')
  | _ => (BZRTP_BUILDER_ERROR_UNKNOWN, p)
  end.

Definition sample_API : PacketParserAPI :=
  {| api_packetCheck := sample_packetCheck;
     api_createZrtpPacket := fun ctx chan t =>
       (ret0, Some (sample_packet t ZRTP_HELLOACKMESSAGE_FIXED_LENGTH None), ctx);
     api_packetBuild := sample_packetBuild;
     api_packetUpdateSequenceNumber :=
       bzrtp_packetSetSequenceNumber (H := sample_Crypto) |}.

(** The bytes of the packet [bzrtp_packetBuild] and
    [bzrtp_packetSetSequenceNumber] make of a message; the empty string
    when they fail. *)
Definition sample_packetString (chan : bzrtpChannelContext_t) (t : messageType_t)
    (data : option messageData_t) (sequenceNumber : Z) : list Z :=
  default [] (packetString (sample_packetBuild sample_context chan
                              (sample_packet t 0 data) sequenceNumber).2).

(** The packet [sample_packetCheck] makes of the bytes; a packet of no
    type when it rejects them. *)
Definition sample_checked (input : list Z) (lastValidSequenceNumber : Z) : bzrtpPacket_t :=
  default (sample_packet MSGTYPE_INVALID 0 None)
    (sample_packetCheck input (Z.of_nat (length input)) lastValidSequenceNumber).2.

(** The value and the packet the parser leaves for these bytes on [chan]. *)
Definition sample_parsed (chan : bzrtpChannelContext_t) (input : list Z)
    : retval_t * bzrtpPacket_t :=
  let p := sample_checked input (peerSequenceNumber chan) in
  default (BZRTP_PARSER_ERROR_INVALIDPACKET, p)
    (bzrtp_packetParser (H := sample_Crypto) chan input (Z.of_nat (length input)) p).

Definition sample_event (input : list Z) : bzrtpEvent_t :=
  {| eventType := BZRTP_EVENT_MESSAGE;
     bzrtpPacketString := Some input;
     bzrtpPacketStringLength := Z.of_nat (length input) |}.

Definition sample_DHPartMessage : bzrtpDHPartMessage_t :=
  {| dhpart_H1 := replicate 32 1;
     dhpart_rs1ID := replicate 8 0;
     dhpart_rs2ID := replicate 8 0;
     dhpart_auxsecretID := replicate 8 0;
     dhpart_pbxsecretID := replicate 8 0;
     dhpart_pv := Some (replicate 384 3);
     dhpart_MAC := replicate 8 0 |}.

Definition sample_timerEvent : bzrtpEvent_t :=
  {| eventType := BZRTP_EVENT_TIMER; bzrtpPacketString := None;
     bzrtpPacketStringLength := 0 |}.

(** A channel that retransmits the packet of slot [id], with a timer on. *)
Definition sample_retransmitting (id : nat) (firingCount timerStep : Z)
    : bzrtpChannelContext_t :=
  let p := (sample_packetBuild sample_context sample_channel
              (sample_packet MSGTYPE_HELLOACK 0 None) 1).2 in
  set_timer {| status := BZRTP_TIMER_ON; firingTime := 0;
               firingCount := firingCount; timerStep := timerStep |}
    (set_selfPackets (<[id := Some p]> (selfPackets sample_channel)) sample_channel).

(** ** A sample exchange

    Two endpoints with their hash chains, and the packets they send. *)

Definition sample_chain (H0 : list Z) : list (list Z) :=
  let H1 := sample_digest256 H0 32 in
  let H2 := sample_digest256 H1 32 in
  let H3 := sample_digest256 H2 32 in
  [H0; H1; H2; H3].

Definition set_selfH : list (list Z) -> bzrtpChannelContext_t -> bzrtpChannelContext_t :=
  ltac:(setter eta_bzrtpChannelContext_t selfH).

Definition sample_self : bzrtpChannelContext_t :=
  set_selfH (sample_chain (replicate 32 4)) sample_channel.

Definition sample_peer : bzrtpChannelContext_t :=
  set_selfH (sample_chain (replicate 32 9)) sample_channel.

Definition sample_HelloMessage (chan : bzrtpChannelContext_t) : bzrtpHelloMessage_t :=
  {| hello_version := bytes_of_string "1.10";
     hello_clientIdentifier := bytes_of_string "sample endpoint ";
     hello_H3 := default [] (selfH chan !! 3%nat);
     hello_ZID := replicate 12 2;
     hello_S := 0; hello_M := 0; hello_P := 0;
     hello_hc := 1; hello_cc := 1; hello_ac := 1; hello_kc := 1; hello_sc := 1;
     hello_supportedHash := [hashAlgo chan];
     hello_supportedCipher := [cipherAlgo chan];
     hello_supportedAuthTag := [authTagAlgo chan];
     hello_supportedKeyAgreement := [ZRTP_KEYAGREEMENT_DH3k];
     hello_supportedSas := [sasAlgo chan];
     hello_MAC := replicate 8 0 |}.

(** A Commit for the key agreement [algo] whose hvi and nonce repeat the
    byte [fill]. *)
Definition sample_CommitMessage (chan : bzrtpChannelContext_t) (algo : cryptoAlgo_t)
    (fill : Z) : bzrtpCommitMessage_t :=
  {| commit_H2 := default [] (selfH chan !! 2%nat);
     commit_ZID := replicate 12 2;
     commit_hashAlgo := hashAlgo chan;
     commit_cipherAlgo := cipherAlgo chan;
     commit_authTagAlgo := authTagAlgo chan;
     commit_keyAgreementAlgo := algo;
     commit_sasAlgo := sasAlgo chan;
     commit_hvi := replicate 32 fill;
     commit_nonce := replicate 16 fill;
     commit_keyID := replicate 8 0;
     commit_pv := None;
     commit_MAC := replicate 8 0 |}.

(** The packet an endpoint builds for a message, with its bytes. *)
Definition sample_built (chan : bzrtpChannelContext_t) (t : messageType_t)
    (data : messageData_t) (sequenceNumber : Z) : bzrtpPacket_t :=
  (sample_packetBuild sample_context chan (sample_packet t 0 (Some data)) sequenceNumber).2.

(** The packet [chan] makes of the bytes it receives, when the check and
    the parser accept them. *)
Definition sample_received (chan : bzrtpChannelContext_t) (input : list Z)
    : option bzrtpPacket_t :=
  let inputLength := Z.of_nat (length input) in
  p ← (sample_packetCheck input inputLength (peerSequenceNumber chan)).2;
  r ← bzrtp_packetParser (H := sample_Crypto) chan input inputLength p;
  if failed r.1 then None else Some r.2.

(** [sample_self] once it has received the Hello of [sample_peer] and sent
    a Commit for [algo] with the hvi and nonce [fill]. *)
Definition sample_committed (algo : cryptoAlgo_t) (fill : Z) : bzrtpChannelContext_t :=
  let peerHello :=
    sample_packetString sample_peer MSGTYPE_HELLO
      (Some (HelloMessage (sample_HelloMessage sample_peer))) 1 in
  let selfHello :=
    sample_built sample_self MSGTYPE_HELLO (HelloMessage (sample_HelloMessage sample_self)) 1 in
  let selfCommit :=
    sample_built sample_self MSGTYPE_COMMIT
      (CommitMessage (sample_CommitMessage sample_self algo fill)) 2 in
  set_peerSequenceNumber 1
    (set_keyAgreementAlgo algo
      (set_stateMachine fn_state_keyAgreement_sendingCommit
      (set_peerPackets
         (<[HELLO_MESSAGE_STORE_ID := sample_received sample_self peerHello]>
            (peerPackets sample_self))
         (set_selfPackets
            (<[COMMIT_MESSAGE_STORE_ID := Some selfCommit]>
               (<[HELLO_MESSAGE_STORE_ID := Some selfHello]> (selfPackets sample_self)))
            sample_self)))).

(** The bytes of the Commit of [sample_peer] for [algo], [fill]. *)
Definition sample_peerCommit (algo : cryptoAlgo_t) (fill : Z) : list Z :=
  sample_packetString sample_peer MSGTYPE_COMMIT
    (Some (CommitMessage (sample_CommitMessage sample_peer algo fill))) 2.

(** ** The prerequisite of a message

    The stored peer packet the parser looks for before it verifies the
    hash chain of a Commit, DHPart or Confirm message is missing. *)
Definition missing_prerequisite (chan : bzrtpChannelContext_t) (p : bzrtpPacket_t) : Prop :=
  match messageType p with
  | MSGTYPE_COMMIT => slot (peerPackets chan) HELLO_MESSAGE_STORE_ID = None
  | MSGTYPE_DHPART1 | MSGTYPE_DHPART2 =>
      if decide (role chan = BZRTP_ROLE_RESPONDER)
      then slot (peerPackets chan) COMMIT_MESSAGE_STORE_ID = None
      else slot (peerPackets chan) HELLO_MESSAGE_STORE_ID = None
  | MSGTYPE_CONFIRM1 | MSGTYPE_CONFIRM2 =>
      if decide (keyAgreementAlgo chan = ZRTP_KEYAGREEMENT_Prsh
                 ∨ keyAgreementAlgo chan = ZRTP_KEYAGREEMENT_Mult)
      then if decide (role chan = BZRTP_ROLE_RESPONDER)
           then slot (peerPackets chan) COMMIT_MESSAGE_STORE_ID = None
           else slot (peerPackets chan) HELLO_MESSAGE_STORE_ID = None
      else slot (peerPackets chan) DHPART_MESSAGE_STORE_ID = None
  | _ => False
  end.

(** The tests the parser makes before it looks for the stored packet pass:
    none for a Commit; the public value has a length and the message the
    length that goes with it for a DHPart; the channel holds the keys of
    the peer and the [confirm_mac] is the MAC of the encrypted part for a
    Confirm. *)
Definition reaches_prerequisite `{Externals} (chan : bzrtpChannelContext_t)
    (input : list Z) (p : bzrtpPacket_t) : Prop :=
  match messageType p with
  | MSGTYPE_COMMIT => True
  | MSGTYPE_DHPART1 | MSGTYPE_DHPART2 =>
      let pvLength :=
        bzrtp_computeKeyAgreementPublicValueLength (keyAgreementAlgo chan) (messageType p) in
      pvLength ≠ 0 ∧ messageLength p = ZRTP_DHPARTMESSAGE_FIXED_LENGTH + pvLength
  | MSGTYPE_CONFIRM1 | MSGTYPE_CONFIRM2 =>
      exists confirmMessageKey confirmMessageMacKey,
        match role chan with
        | BZRTP_ROLE_RESPONDER => (zrtpkeyi chan, mackeyi chan)
        | BZRTP_ROLE_INITIATOR => (zrtpkeyr chan, mackeyr chan)
        end = (Some confirmMessageKey, Some confirmMessageMacKey)
        ∧ memcmp
            (hmacFunction chan (bytes_at confirmMessageMacKey 0 (hashLength chan))
               (bytes_at input (ZRTP_PACKET_HEADER_LENGTH + ZRTP_MESSAGE_HEADER_LENGTH + 24)
                  (uint16_t (messageLength p - ZRTP_MESSAGE_HEADER_LENGTH - 24))) 8)
            (bytes_at input (ZRTP_PACKET_HEADER_LENGTH + ZRTP_MESSAGE_HEADER_LENGTH) 8) 8
          = 0
  | _ => False
  end.

(** A channel in a Diffie-Hellman mode that holds the keys of the
    responder and no packet of the peer. *)
Definition sample_keyed (mackey : list Z) : bzrtpChannelContext_t :=
  set_mackeyr (Some mackey) (set_zrtpkeyr (Some (replicate 16 0)) sample_channel).

(** The bytes of a Confirm packet with an encrypted part of forty zeros
    and the [confirm_mac] computed with [mackey]. *)
Definition sample_confirmInput (mackey : list Z) : list Z :=
  memcpy_at (replicate 92 0) (ZRTP_PACKET_HEADER_LENGTH + ZRTP_MESSAGE_HEADER_LENGTH)
    (hmacFunction sample_channel mackey (replicate 40 0) 8) 8.

(** ** The hash chain, following the specification

    "On every reveal the receiver recomputes the implied higher image and
    compares it to the stored peer image; on every reveal the receiver
    also recomputes the HMAC-SHA-256 over the earlier stored message using
    the newly revealed image as key and compares with the stored 8-byte
    MAC." The verdict on an image of 32 bytes, for the image, the message
    and the MAC that were stored: *)
Definition spec_reveal_verdict `{Externals}
    (image storedImage storedMessage storedMAC : list Z) : retval_t :=
  if decide (memcmp (bctbx_sha256 (take 32 image) 32) storedImage 32 ≠ 0)
  then BZRTP_PARSER_ERROR_UNMATCHINGHASHCHAIN
  else if decide (memcmp (bctbx_hmacSha256 (take 32 image) storedMessage 8) storedMAC 8 ≠ 0)
  then BZRTP_PARSER_ERROR_UNMATCHINGMAC
  else ret0.

(** The verdict on a Commit or DHPart packet: a Commit reveals H2, checked
    against the stored peer Hello; a DHPart reveals H1, checked against the
    stored peer Commit by a responder, and through the H2 it implies
    against the stored peer Hello by an initiator, who never received H2.
    [None] when the stored packet is missing. *)
Definition spec_hash_chain_verdict `{Externals} (chan : bzrtpChannelContext_t)
    (input : list Z) (p : bzrtpPacket_t) : option retval_t :=
  let revealed :=
    bytes_at input (ZRTP_PACKET_HEADER_LENGTH + ZRTP_MESSAGE_HEADER_LENGTH) 32 in
  let against_hello image :=
    stored ← slot (peerPackets chan) HELLO_MESSAGE_STORE_ID;
    hello ← as_hello stored;
    message ← message_bytes stored (messageLength stored - 8);
    Some (spec_reveal_verdict image (hello_H3 hello) message (hello_MAC hello)) in
  let against_commit image :=
    stored ← slot (peerPackets chan) COMMIT_MESSAGE_STORE_ID;
    commit ← as_commit stored;
    message ← message_bytes stored (messageLength stored - 8);
    Some (spec_reveal_verdict image (commit_H2 commit) message (commit_MAC commit)) in
  match messageType p with
  | MSGTYPE_COMMIT => against_hello revealed
  | MSGTYPE_DHPART1 | MSGTYPE_DHPART2 =>
      if decide (role chan = BZRTP_ROLE_RESPONDER) then against_commit revealed
      else against_hello (bctbx_sha256 (take 32 revealed) 32)
  | _ => None
  end.

(** The states that give a Commit or DHPart packet to the parser. *)
Definition parsed_in_state (chan : bzrtpChannelContext_t) (p : bzrtpPacket_t) : Prop :=
  match stateMachine chan with
  | fn_state_discovery_waitingForHelloAck => messageType p = MSGTYPE_COMMIT
  | fn_state_keyAgreement_sendingCommit =>
      messageType p = MSGTYPE_COMMIT
      ∨ (messageType p = MSGTYPE_DHPART1 ∧ keyAgreementAlgo chan ≠ ZRTP_KEYAGREEMENT_Prsh)
  | fn_state_keyAgreement_responderSendingDHPart1 =>
      messageType p = MSGTYPE_DHPART2
      ∧ slot (selfPackets chan) DHPART_MESSAGE_STORE_ID ≠ None
  | _ => False
  end.

(** An endpoint with another hash chain than [sample_peer]. *)
Definition sample_impostor : bzrtpChannelContext_t :=
  set_selfH (sample_chain (replicate 32 7)) sample_channel.


(** * Properties *)

(** ** Machine integers *)

Lemma uint8_t_land_shiftr (x k : Z) :
  0 <= k -> uint8_t (Z.land (x ≫ k) 0xFF) = (x `div` 2 ^ k) `mod` 256.
Proof.
  intros Hk. unfold uint8_t.
  change 0xFF with (Z.ones 8). rewrite Z.land_ones by lia.
  rewrite Z.shiftr_div_pow2 by lia.
  change (2 ^ 8) with 256. apply Z.mod_mod. lia.
Qed.

Lemma uint8_t_land (x : Z) : uint8_t (Z.land x 0xFF) = x `mod` 256.
Proof.
  rewrite <- (Z.shiftr_0_r x) at 1. rewrite uint8_t_land_shiftr by lia.
  change (2 ^ 0) with 1. by rewrite Z.div_1_r.
Qed.

Lemma lor_shiftl_add (a b n : Z) :
  0 <= n -> 0 <= b < 2 ^ n -> Z.lor (a ≪ n) b = a * 2 ^ n + b.
Proof.
  intros Hn Hb. rewrite <- Z.shiftl_mul_pow2 by lia.
  symmetry. apply Z.add_nocarry_lor.
  apply Z.bits_inj'. intros i Hi.
  rewrite Z.land_spec, Z.bits_0.
  destruct (decide (i < n)).
  - rewrite Z.shiftl_spec_low by lia. done.
  - destruct (decide (b = 0)) as [->|].
    + rewrite Z.bits_0. apply andb_false_r.
    + rewrite (Z.bits_above_log2 b i); [apply andb_false_r|lia|].
      apply Z.log2_lt_pow2; [lia|].
      eapply Z.lt_le_trans; [apply Hb|]. apply Z.pow_le_mono_r; lia.
Qed.

Lemma land_shiftl_byte (b n : Z) :
  0 <= n -> is_byte b -> Z.land (b ≪ n) (0xFF ≪ n) = b ≪ n.
Proof.
  intros Hn [??]. rewrite <- Z.shiftl_land.
  change 0xFF with (Z.ones 8). rewrite Z.land_ones by lia.
  rewrite Z.mod_small; [done|]. change (2 ^ 8) with 256. lia.
Qed.

(** Reading back the four bytes of a 32-bit value. *)
Lemma be32_read_bytes (b0 b1 b2 b3 : Z) :
  is_byte b0 -> is_byte b1 -> is_byte b2 -> is_byte b3 ->
  be32_read b0 b1 b2 b3 = ((b0 * 256 + b1) * 256 + b2) * 256 + b3.
Proof.
  intros H0 H1 H2 H3. unfold be32_read, uint32_t.
  assert (Hs : forall b n, 0 <= n <= 24 -> is_byte b -> (b ≪ n) `mod` 2 ^ 32 = b ≪ n).
  { intros b n Hn [??]. apply Z.mod_small. rewrite Z.shiftl_mul_pow2 by lia.
    split; [apply Z.mul_nonneg_nonneg; lia|].
    apply Z.lt_le_trans with (256 * 2 ^ n).
    - apply Z.mul_lt_mono_pos_r; lia.
    - change 256 with (2 ^ 8). rewrite <- Z.pow_add_r by lia.
      apply Z.pow_le_mono_r; lia. }
  rewrite !Hs by (done || lia).
  change 0xFF000000 with (0xFF ≪ 24). change 0x00FF0000 with (0xFF ≪ 16).
  change 0x0000FF00 with (0xFF ≪ 8).
  rewrite !land_shiftl_byte by (done || lia).
  change 0x000000FF with (Z.ones 8). rewrite Z.land_ones by lia.
  destruct H0, H1, H2, H3.
  rewrite (Z.mod_small b3) by (change (2 ^ 8) with 256; lia).
  assert (E1 : Z.lor (b0 ≪ 24) (b1 ≪ 16) = (b0 * 256 + b1) ≪ 16).
  { replace (b0 ≪ 24) with ((b0 ≪ 8) ≪ 16) by (rewrite Z.shiftl_shiftl by lia; done).
    rewrite <- Z.shiftl_lor. f_equal. rewrite lor_shiftl_add by (change (2^8) with 256; lia).
    done. }
  rewrite E1.
  assert (E2 : Z.lor ((b0 * 256 + b1) ≪ 16) (b2 ≪ 8) = ((b0 * 256 + b1) * 256 + b2) ≪ 8).
  { replace ((b0 * 256 + b1) ≪ 16) with (((b0 * 256 + b1) ≪ 8) ≪ 8)
      by (rewrite Z.shiftl_shiftl by lia; done).
    rewrite <- Z.shiftl_lor. f_equal. rewrite lor_shiftl_add by (change (2^8) with 256; lia).
    done. }
  rewrite E2. rewrite lor_shiftl_add by (change (2^8) with 256; lia). done.
Qed.

Lemma be32_bytes_spec (x : Z) :
  be32_bytes x = [ (x `div` 2 ^ 24) `mod` 256; (x `div` 2 ^ 16) `mod` 256;
                   (x `div` 2 ^ 8) `mod` 256; x `mod` 256 ].
Proof.
  unfold be32_bytes. rewrite !uint8_t_land_shiftr by lia. by rewrite uint8_t_land.
Qed.

Lemma be32_read_be32_bytes (x : Z) :
  0 <= x < 2 ^ 32 ->
  be32_read ((x `div` 2 ^ 24) `mod` 256) ((x `div` 2 ^ 16) `mod` 256)
            ((x `div` 2 ^ 8) `mod` 256) (x `mod` 256) = x.
Proof.
  intros Hx. rewrite be32_read_bytes by (unfold is_byte; apply Z.mod_pos_bound; lia).
  change (2 ^ 24) with (256 * (256 * 256)). change (2 ^ 16) with (256 * 256).
  change (2 ^ 8) with 256. change (2 ^ 32) with 4294967296 in Hx.
  rewrite <- !Z.div_div by lia.
  set (q1 := x `div` 256). set (q2 := q1 `div` 256). set (q3 := q2 `div` 256).
  pose proof (Z.div_mod x 256 ltac:(lia)) as E1. fold q1 in E1.
  pose proof (Z.div_mod q1 256 ltac:(lia)) as E2. fold q2 in E2.
  pose proof (Z.div_mod q2 256 ltac:(lia)) as E3. fold q3 in E3.
  assert (0 <= q3 < 256).
  { subst q3 q2 q1. split.
    - repeat apply Z.div_pos; lia.
    - repeat (apply Z.div_lt_upper_bound; [lia|]). lia. }
  rewrite (Z.mod_small q3) by lia. lia.
Qed.


(** ** Buffers *)

Lemma memcpy_at_length (buf : list Z) (off : Z) (src : list Z) (n : Z) :
  length (memcpy_at buf off src n) = length buf.
Proof.
  unfold memcpy_at. rewrite length_take, !length_app, length_take, length_drop. lia.
Qed.

Lemma put_length (w : writer_t) (src : list Z) (n : Z) :
  length (put w src n).1 = length w.1.
Proof. apply memcpy_at_length. Qed.

Lemma put_byte_length (w : writer_t) (b : Z) :
  length (put_byte w b).1 = length w.1.
Proof. apply length_insert. Qed.

Lemma put_algos_length `{Externals} (w : writer_t) (array : list cryptoAlgo_t) (count : Z) :
  length (put_algos w array count).1 = length w.1.
Proof.
  unfold put_algos. generalize (seq 0 (Z.to_nat count)). intros l.
  revert w. induction l as [|i l IH]; intros w; simpl; [done|].
  rewrite IH. apply put_length.
Qed.

Lemma zrtpMessageSetHeader_length (buf : list Z) (off messageLength : Z) (t : list Z) :
  length (zrtpMessageSetHeader buf off messageLength t) = length buf.
Proof.
  unfold zrtpMessageSetHeader. rewrite memcpy_at_length. by rewrite !length_insert.
Qed.

Lemma zrtpPacketSetHeader_length (t : messageType_t) (ssrc : Z) (s : list Z) :
  length (zrtpPacketSetHeader t ssrc s) = length s.
Proof. unfold zrtpPacketSetHeader. by rewrite !length_insert. Qed.

Lemma new_packetString_length `{Externals} (messageLength : Z) :
  length (new_packetString messageLength).1 = Z.to_nat (16 + messageLength).
Proof.
  unfold new_packetString. simpl. rewrite malloc_length.
  unfold ZRTP_PACKET_HEADER_LENGTH, ZRTP_PACKET_CRC_LENGTH. f_equal. lia.
Qed.

Lemma uint16_t_range (x : Z) : 0 <= uint16_t x < 65536.
Proof. unfold uint16_t. change (2 ^ 16) with 65536. apply Z.mod_pos_bound. lia. Qed.

Create Rewrite HintDb buffers.
#[export] Hint Rewrite memcpy_at_length put_length put_byte_length @put_algos_length
  zrtpMessageSetHeader_length zrtpPacketSetHeader_length @new_packetString_length
  @length_insert : buffers.

(** ** What [bzrtp_packetBuild] allocates *)

Section PacketBuild.
Context `{Externals}.

Local Arguments new_packetString : simpl never.

Lemma packetBuild_switch_sized (chan : bzrtpChannelContext_t) (p : bzrtpPacket_t)
    (b : built_message_t) :
  packetBuild_switch chan p = Some (inr (Some b)) ->
  0 <= built_messageLength b
  /\ length (built_packetString b) = Z.to_nat (16 + built_messageLength b).
Proof.
  unfold packetBuild_switch, packetBuild_COMMIT, packetBuild_DHPART, packetBuild_CONFIRM.
  intros Hb.
  repeat (case_match; simplify_eq/=; try done);
    (split; [first [done | apply uint16_t_range] |]);
    repeat case_decide; autorewrite with buffers; try done;
    rewrite malloc_length;
    unfold ZRTP_PACKET_HEADER_LENGTH, ZRTP_PACKET_CRC_LENGTH; f_equal; lia.
Qed.
End PacketBuild.


Section PacketBuild.
Context `{Externals}.

Lemma build_fragment_sized (ctx : bzrtpContext_t) (chan : bzrtpChannelContext_t)
    (s : list Z) (messageLength offset : Z) :
  well_sized (build_fragment ctx chan s messageLength offset).1.
Proof.
  unfold build_fragment. cbv zeta.
  set (fragmentSize := if decide (_ < _) then _ else _).
  assert (0 <= fragmentSize) by (subst fragmentSize; case_decide; apply uint16_t_range).
  eexists. split; [reflexivity|]. simpl. split; [done|].
  autorewrite with buffers. rewrite malloc_length.
  unfold ZRTP_FRAGMENTEDPACKET_OVERHEAD, ZRTP_FRAGMENTEDPACKET_HEADER_LENGTH,
    ZRTP_PACKET_CRC_LENGTH.
  f_equal. lia.
Qed.

Lemma build_fragments_sized (fuel : nat) (ctx : bzrtpContext_t)
    (chan : bzrtpChannelContext_t) (s : list Z) (messageLength offset : Z)
    (new : list bzrtpPacket_t) :
  build_fragments fuel ctx chan s messageLength offset = Some new ->
  Forall well_sized new.
Proof.
  revert offset new.
  induction fuel as [|fuel IH]; intros offset new; cbn [build_fragments].
  - case_decide; [done|]. intros [= <-]. constructor.
  - case_decide; [|intros [= <-]; constructor].
    pose proof (build_fragment_sized ctx chan s messageLength offset) as Hf.
    destruct (build_fragment ctx chan s messageLength offset) as [f size].
    destruct (build_fragments fuel _ _ _ _ _) as [rest|] eqn:Er; [|done].
    intros Hnew. simplify_eq/=. constructor; [done | by eapply IH].
Qed.

Local Opaque build_fragments.

Lemma messageTypeInttoString_not_FRAGMENT (t : messageType_t) (str : list Z) :
  messageTypeInttoString t = Some str -> t ≠ MSGTYPE_FRAGMENT.
Proof. by intros ? ->. Qed.

(** A successful [bzrtp_packetBuild] whose [switch] has a case for the
    message leaves a packet string of the size of the packet, and
    appends fragments that have the size of their packet too. *)
Lemma packetBuild_sized (ctx : bzrtpContext_t) (chan chan' : bzrtpChannelContext_t)
    (p0 p : bzrtpPacket_t) (b : built_message_t) :
  bzrtp_packetBuild ctx chan (Some p0) = Some (ret0, Some p, chan') ->
  packetBuild_switch chan p0 = Some (inr (Some b)) ->
  well_sized p
  /\ exists new, fragments p = fragments p0 ++ new /\ Forall well_sized new.
Proof.
  unfold bzrtp_packetBuild. intros Hbuild Hswitch.
  destruct (messageTypeInttoString (messageType p0)) as [str|] eqn:Estr; [|congruence].
  apply messageTypeInttoString_not_FRAGMENT in Estr.
  rewrite Hswitch in Hbuild. simpl in Hbuild.
  destruct (packetBuild_switch_sized _ _ _ Hswitch) as [Hlen Hsize].
  case_decide.
  - destruct (build_fragments _ _ _ _ _ _) as [new|] eqn:Enew; [|done].
    simpl in Hbuild. injection Hbuild as <- <-.
    split.
    + eexists. split; [reflexivity|]. simpl. split; [done|].
      rewrite decide_False by done. autorewrite with buffers.
      repeat case_match; autorewrite with buffers; rewrite Hsize;
        unfold ZRTP_PACKET_HEADER_LENGTH, ZRTP_PACKET_CRC_LENGTH; f_equal; lia.
    + exists new. split; [done|]. by eapply build_fragments_sized.
  - injection Hbuild as <- <-. split.
    + eexists. split; [reflexivity|]. simpl. split; [done|].
      rewrite decide_False by done. autorewrite with buffers.
      repeat case_match; autorewrite with buffers; rewrite Hsize;
        unfold ZRTP_PACKET_HEADER_LENGTH, ZRTP_PACKET_CRC_LENGTH; f_equal; lia.
    + exists []. split; [by rewrite app_nil_r | constructor].
Qed.

Lemma packetBuild_switch_error (chan : bzrtpChannelContext_t) (p : bzrtpPacket_t)
    (e : retval_t) :
  packetBuild_switch chan p = Some (inl e) -> e ≠ ret0.
Proof.
  unfold packetBuild_switch, packetBuild_COMMIT, packetBuild_DHPART, packetBuild_CONFIRM.
  intros He. repeat (case_match; simplify_eq/=; try done).
Qed.

(** A packet coming from [bzrtp_createZrtpPacket] has no packet string:
    when [bzrtp_packetBuild] succeeds on it, the [switch] has built the
    message. *)
Lemma packetBuild_fresh (ctx : bzrtpContext_t) (chan chan' : bzrtpChannelContext_t)
    (p0 p : bzrtpPacket_t) :
  packetString p0 = None ->
  bzrtp_packetBuild ctx chan (Some p0) = Some (ret0, Some p, chan') ->
  exists b, packetBuild_switch chan p0 = Some (inr (Some b)).
Proof.
  unfold bzrtp_packetBuild. intros Hfresh Hbuild.
  destruct (messageTypeInttoString (messageType p0)); [|by simplify_eq].
  destruct (packetBuild_switch chan p0) as [[e|[b|]]|] eqn:Es; simplify_eq/=.
  - by apply packetBuild_switch_error in Es.
  - by eexists.
  - by rewrite Hfresh in Hbuild.
Qed.
End PacketBuild.


(** ** [bzrtp_packetSetSequenceNumber] *)

Lemma insert4_tail (l : list Z) (off : nat) (a b c d : Z) :
  length l = (off + 4)%nat ->
  <[S (S (S off)) := d]> (<[S (S off) := c]> (<[S off := b]> (<[off := a]> l)))
  = take off l ++ [a; b; c; d].
Proof.
  intros Hl. rewrite <- (take_drop off l) at 1.
  assert (Hlt : length (take off l) = off) by (rewrite length_take; lia).
  destruct (drop off l) as [|x0 [|x1 [|x2 [|x3 [|]]]]] eqn:Ed;
    try (apply (f_equal length) in Ed; rewrite length_drop in Ed; simpl in Ed; lia).
  rewrite (insert_app_r_alt _ _ off) by lia.
  rewrite (insert_app_r_alt _ _ (S off)) by lia.
  rewrite (insert_app_r_alt _ _ (S (S off))) by lia.
  rewrite (insert_app_r_alt _ _ (S (S (S off)))) by lia.
  rewrite Hlt.
  replace (off - off)%nat with 0%nat by lia.
  replace (S off - off)%nat with 1%nat by lia.
  replace (S (S off) - off)%nat with 2%nat by lia.
  replace (S (S (S off)) - off)%nat with 3%nat by lia.
  done.
Qed.

Section PacketSetSequenceNumber.
Context `{Externals}.

(** On a packet whose string has the size of the packet, the function
    writes the sequence number in bytes 2 and 3, the CRC of all the
    bytes before the last four in the last four, and nothing else. *)
Lemma packetSetSequenceNumber_well_sized (q : bzrtpPacket_t) (n : Z) :
  well_sized q ->
  0 <= n < 65536 ->
  exists s s',
    packetString q = Some s
    /\ bzrtp_packetSetSequenceNumber (Some q) n
       = (ret0, Some (set_packetString (Some s') (set_sequenceNumber n q)))
    /\ length s' = length s
    /\ s' !! 2%nat = Some (n `div` 256)
    /\ s' !! 3%nat = Some (n `mod` 256)
    /\ (exists b0 b1 b2 b3,
          drop (length s' - 4) s' = [b0; b1; b2; b3]
          /\ be32_read b0 b1 b2 b3 = bzrtp_CRC32 (take (length s' - 4) s'))
    /\ (forall i : nat, i ≠ 2%nat -> i ≠ 3%nat -> (i < length s - 4)%nat ->
          s' !! i = s !! i).
Proof.
  intros (s & Hs & Hml & Hlen) Hn.
  unfold bzrtp_packetSetSequenceNumber. rewrite Hs. cbv zeta.
  set (hdr := if decide (messageType q = MSGTYPE_FRAGMENT) then _ else _) in *.
  assert (Hhdr : 12 <= hdr <= 20) by (subst hdr; case_decide; done).
  set (off := Z.to_nat (messageLength q + hdr)).
  assert (Hoff : length s = (off + 4)%nat).
  { rewrite Hlen. subst off. unfold ZRTP_PACKET_CRC_LENGTH. lia. }
  assert (12 <= off)%nat by (subst off; lia).
  set (s2 := <[3%nat := _]> (<[2%nat := _]> s)).
  assert (Hs2 : length s2 = (off + 4)%nat) by (subst s2; by rewrite !length_insert).
  set (CRC := bzrtp_CRC32 (bytes_at s2 0 (messageLength q + hdr))).
  pose proof (bzrtp_CRC32_uint32 (bytes_at s2 0 (messageLength q + hdr))) as HCRC.
  fold CRC in HCRC.
  rewrite !uint8_t_land_shiftr, uint8_t_land by lia.
  rewrite (insert4_tail s2 off) by done.
  eexists s, _. split; [done|]. split; [reflexivity|].
  assert (Hsl : length (take off s2 ++
    [(CRC `div` 2 ^ 24) `mod` 256; (CRC `div` 2 ^ 16) `mod` 256;
     (CRC `div` 2 ^ 8) `mod` 256; CRC `mod` 256]) = length s).
  { rewrite length_app, length_take. simpl. lia. }
  split; [done|].
  split.
  { rewrite lookup_app_l by (rewrite length_take; lia).
    rewrite lookup_take_lt by lia. subst s2.
    rewrite list_lookup_insert_ne by done.
    rewrite list_lookup_insert_eq by lia.
    rewrite uint8_t_land_shiftr by lia.
    f_equal. change (2 ^ 8) with 256. apply Z.mod_small.
    split; [apply Z.div_pos; lia | apply Z.div_lt_upper_bound; lia]. }
  split.
  { rewrite lookup_app_l by (rewrite length_take; lia).
    rewrite lookup_take_lt by lia. subst s2.
    rewrite list_lookup_insert_eq by (rewrite length_insert; lia).
    by rewrite uint8_t_land. }
  split.
  { eexists _, _, _, _. rewrite Hsl, Hoff.
    replace (off + 4 - 4)%nat with off by lia.
    assert (Ht : length (take off s2) = off) by (rewrite length_take; lia).
    split.
    - rewrite drop_app_length'; done.
    - rewrite take_app_length' by done.
      rewrite be32_read_be32_bytes by done.
      subst CRC. unfold bytes_at. simpl. by rewrite drop_0. }
  intros i Hi2 Hi3 Hi.
  rewrite lookup_app_l by (rewrite length_take; lia).
  rewrite lookup_take_lt by lia. subst s2.
  by rewrite !list_lookup_insert_ne by done.
Qed.
End PacketSetSequenceNumber.


(** ** Claim C9 *)

(** C9. For every packet whose string was produced by
    [bzrtp_packetBuild] (the call succeeds on a packet that had no string,
    or its [switch] built the message), for the packet itself and for each
    fragment the call appended, and for every sequence number [n] of 16
    bits: [bzrtp_packetSetSequenceNumber (packet, n)] returns 0, writes [n]
    big-endian in bytes 2 and 3 of the packet string, leaves in the last
    four bytes the big-endian CRC32 of all the bytes before them, and
    leaves every other byte, so the whole message part, as it was. *)
Theorem C9_packetSetSequenceNumber_on_built_packet `{Externals}
    (ctx : bzrtpContext_t) (chan chan' : bzrtpChannelContext_t)
    (p0 p q : bzrtpPacket_t) (n : Z) :
  packetString p0 = None \/ (exists b, packetBuild_switch chan p0 = Some (inr (Some b))) ->
  bzrtp_packetBuild ctx chan (Some p0) = Some (ret0, Some p, chan') ->
  q = p \/ q ∈ drop (length (fragments p0)) (fragments p) ->
  0 <= n < 65536 ->
  exists s s',
    packetString q = Some s
    /\ bzrtp_packetSetSequenceNumber (Some q) n
       = (ret0, Some (set_packetString (Some s') (set_sequenceNumber n q)))
    /\ length s' = length s
    /\ s' !! 2%nat = Some (n `div` 256)
    /\ s' !! 3%nat = Some (n `mod` 256)
    /\ (exists b0 b1 b2 b3,
          drop (length s' - 4) s' = [b0; b1; b2; b3]
          /\ be32_read b0 b1 b2 b3 = bzrtp_CRC32 (take (length s' - 4) s'))
    /\ (forall i : nat, i ≠ 2%nat -> i ≠ 3%nat -> (i < length s - 4)%nat ->
          s' !! i = s !! i).
Proof.
  intros Hfresh Hbuild Hq Hn.
  assert (Hb : exists b, packetBuild_switch chan p0 = Some (inr (Some b))).
  { destruct Hfresh as [Hfresh|Hb]; [|done]. by eapply packetBuild_fresh. }
  destruct Hb as [b Hb].
  destruct (packetBuild_sized _ _ _ _ _ _ Hbuild Hb) as (Hp & new & Hnew & Hall).
  apply packetSetSequenceNumber_well_sized; [|done].
  destruct Hq as [->|Hq]; [done|].
  rewrite Hnew, drop_app_length in Hq.
  by eapply Forall_forall in Hall.
Qed.

Lemma C9_packetSetSequenceNumber_on_built_packet_witness :
  let p0 := sample_packet MSGTYPE_HELLOACK ZRTP_HELLOACKMESSAGE_FIXED_LENGTH None in
  exists p s',
    bzrtp_packetBuild (H := sample_Externals) sample_context sample_channel (Some p0)
    = Some (ret0, Some p, sample_channel)
    /\ bzrtp_packetSetSequenceNumber (H := sample_Externals) (Some p) 0x0102
       = (ret0, Some (set_packetString (Some s') (set_sequenceNumber 0x0102 p)))
    /\ take 4 s' = [0x10; 0x00; 0x01; 0x02]
    /\ drop 24 s' = [0x00; 0x00; 0x04; 0xd3].
Proof.
  intros p0.
  destruct (C9_packetSetSequenceNumber_on_built_packet (H := sample_Externals)
              sample_context sample_channel _ p0 _ _ 0x0102
              (or_introl eq_refl) eq_refl (or_introl eq_refl) ltac:(lia))
    as (s & s' & Hs & Hset & _).
  eexists _, s'. split; [reflexivity|]. split; [exact Hset|].
  vm_compute in Hset. injection Hset as <-. by vm_compute.
Defined.


(** ** Running the state functions *)

Ltac run_M :=
  cbv [mbind M_bind mret M_ret get_channel get_context put_context put_channel
       update_channel update_context update_timer deref undefined
       packetCheck_event packetParser_event].

Lemma failed_ret0 : failed ret0 = false.
Proof. done. Qed.

Lemma failed_true (r : retval_t) : r ≠ ret0 -> failed r = true.
Proof. intros Hr. unfold failed. by rewrite bool_decide_eq_true. Qed.

Ltac side := solve [done | tauto | congruence | intuition congruence].

(** Settles the first test of the goal that the hypotheses decide. *)
Ltac step_decide :=
  match goal with
  | |- context [decide ?P] =>
      first [ rewrite (decide_True (P := P)) by side
            | rewrite (decide_False (P := P)) by side ]
  | |- context [failed ret0] => rewrite failed_ret0
  end; cbn beta iota.

(** ** [state_confirmation_responderSendingConfirm1]: a DHPart2 packet *)

(** X4. In state responderSendingConfirm1, a checked DHPart2 packet
    received while the key agreement is anything but Multistream, so in
    every Diffie-Hellman mode, is answered by
    [BZRTP_PARSER_ERROR_UNEXPECTEDMESSAGE]: the contexts are left as they
    were and nothing is sent, the stored Confirm1 is not sent again. *)
Theorem responderSendingConfirm1_DHPart2_unexpected `{Externals, Host, PacketParserAPI}
    (event : bzrtpEvent_t) (m : machine_t) (input : list Z) (zrtpPacket : bzrtpPacket_t) :
  eventType event = BZRTP_EVENT_MESSAGE ->
  bzrtpPacketString event = Some input ->
  api_packetCheck input (bzrtpPacketStringLength event)
    (peerSequenceNumber (zrtpChannelContext m)) = (ret0, Some zrtpPacket) ->
  messageType zrtpPacket = MSGTYPE_DHPART2 ->
  keyAgreementAlgo (zrtpChannelContext m) ≠ ZRTP_KEYAGREEMENT_Mult ->
  state_confirmation_responderSendingConfirm1 event m
  = Some (BZRTP_PARSER_ERROR_UNEXPECTEDMESSAGE, m).
Proof.
  intros Hev Hin Hcheck Htype Halgo.
  unfold state_confirmation_responderSendingConfirm1.
  rewrite Hev. do 2 step_decide.
  run_M. rewrite Hin, Hcheck. cbn.
  rewrite Htype. repeat step_decide. done.
Qed.

Lemma responderSendingConfirm1_DHPart2_unexpected_witness :
  let input :=
    sample_packetString sample_channel MSGTYPE_DHPART2
      (Some (DHPartMessage sample_DHPartMessage)) 5 in
  let m := sample_machine sample_context sample_channel in
  length input = 484%nat
  /\ keyAgreementAlgo (zrtpChannelContext m) = ZRTP_KEYAGREEMENT_DH3k
  /\ state_confirmation_responderSendingConfirm1
       (H := sample_Crypto) (H0 := sample_Host) (H1 := sample_API)
       (sample_event input) m
     = Some (BZRTP_PARSER_ERROR_UNEXPECTEDMESSAGE, m).
Proof.
  intros input m. split; [by vm_compute|]. split; [done|].
  apply (responderSendingConfirm1_DHPart2_unexpected
           (H := sample_Crypto) (H0 := sample_Host) (H1 := sample_API)
           (sample_event input) m input (sample_checked input 0)).
  - reflexivity.
  - reflexivity.
  - by vm_compute.
  - by vm_compute.
  - done.
Defined.

(** ** [state_keyAgreement_sendingCommit]: a DHPart1 packet *)

(** X5. In state sendingCommit, a checked DHPart1 packet received while
    the key agreement is Multistream passes the test on the key agreement
    mode (which names Preshared twice) and is given to the parser: the
    state function returns the error of the parser, whatever it is, and
    leaves the contexts as they were. *)
Theorem sendingCommit_DHPart1_Mult_parsed `{Externals, Host, PacketParserAPI}
    (event : bzrtpEvent_t) (m : machine_t) (input : list Z)
    (zrtpPacket zrtpPacket' : bzrtpPacket_t) (r : retval_t) :
  eventType event = BZRTP_EVENT_MESSAGE ->
  bzrtpPacketString event = Some input ->
  api_packetCheck input (bzrtpPacketStringLength event)
    (peerSequenceNumber (zrtpChannelContext m)) = (ret0, Some zrtpPacket) ->
  messageType zrtpPacket = MSGTYPE_DHPART1 ->
  keyAgreementAlgo (zrtpChannelContext m) = ZRTP_KEYAGREEMENT_Mult ->
  bzrtp_packetParser (zrtpChannelContext m) input (bzrtpPacketStringLength event) zrtpPacket
  = Some (r, zrtpPacket') ->
  r ≠ ret0 ->
  state_keyAgreement_sendingCommit event m = Some (r, m).
Proof.
  intros Hev Hin Hcheck Htype Halgo Hparse Hr.
  unfold state_keyAgreement_sendingCommit.
  rewrite Hev. run_M. do 2 step_decide.
  rewrite Hin, Hcheck. cbn. rewrite Htype, Halgo. repeat step_decide.
  rewrite Hparse. cbn beta iota. by rewrite failed_true.
Qed.

Lemma sendingCommit_DHPart1_Mult_parsed_witness :
  let input :=
    sample_packetString sample_channel MSGTYPE_DHPART1
      (Some (DHPartMessage sample_DHPartMessage)) 5 in
  let m := sample_machine sample_context
             (set_keyAgreementAlgo ZRTP_KEYAGREEMENT_Mult sample_channel) in
  state_keyAgreement_sendingCommit
    (H := sample_Crypto) (H0 := sample_Host) (H1 := sample_API)
    (sample_event input) m
  = Some (BZRTP_PARSER_ERROR_INVALIDCONTEXT, m).
Proof.
  intros input m.
  apply (sendingCommit_DHPart1_Mult_parsed
           (H := sample_Crypto) (H0 := sample_Host) (H1 := sample_API)
           (sample_event input) m input (sample_checked input 0)
           (sample_parsed (zrtpChannelContext m) input).2).
  - reflexivity.
  - reflexivity.
  - by vm_compute.
  - by vm_compute.
  - reflexivity.
  - by vm_compute.
  - done.
Defined.


(** ** [state_discovery_init]: the timer *)

Lemma slot_insert (packets : list (option bzrtpPacket_t)) (id : nat)
    (p : bzrtpPacket_t) (q : option bzrtpPacket_t) :
  slot packets id = Some p -> slot (<[id := q]> packets) id = q.
Proof.
  unfold slot. intros Hp.
  destruct (packets !! id) as [o|] eqn:E; [|done].
  rewrite list_lookup_insert_eq; [done|]. by eapply lookup_lt_Some.
Qed.




(** ** [state_keyAgreement_sendingCommit]: commit contention *)

(** The parser leaves the type of the packet as the check found it. *)
Lemma packetParser_messageType `{Externals} (chan : bzrtpChannelContext_t) (input : list Z)
    (inputLength : Z) (p p' : bzrtpPacket_t) (r : retval_t) :
  bzrtp_packetParser chan input inputLength p = Some (r, p') ->
  messageType p' = messageType p.
Proof.
  unfold bzrtp_packetParser, packetParser_HELLO, packetParser_COMMIT, packetParser_DHPART,
    packetParser_CONFIRM, attach.
  intros Hp.
  repeat (first [ case_match
                | match goal with
                  | H : context [mbind _ ?x] |- _ => destruct x eqn:?
                  end ];
          simplify_eq/=; try done).
Qed.

(** X2. In state sendingCommit, when the Commit received and the Commit
    sent name two different key agreement algorithms and the one sent is
    not Preshared (two Diffie-Hellman Commits for DH3k and DH2k, say), the
    hvi are not compared: the channel stays initiator whatever their
    values, keeps its Commit packet, stays in its state and returns 0,
    the last valid sequence number being the only field updated. *)
Theorem sendingCommit_contention_skipped `{Externals, Host, PacketParserAPI}
    (event : bzrtpEvent_t) (m : machine_t) (input : list Z)
    (zrtpPacket zrtpPacket' selfCommit : bzrtpPacket_t)
    (peerCommitMessage selfCommitMessage : bzrtpCommitMessage_t) :
  eventType event = BZRTP_EVENT_MESSAGE ->
  bzrtpPacketString event = Some input ->
  api_packetCheck input (bzrtpPacketStringLength event)
    (peerSequenceNumber (zrtpChannelContext m)) = (ret0, Some zrtpPacket) ->
  messageType zrtpPacket = MSGTYPE_COMMIT ->
  bzrtp_packetParser (zrtpChannelContext m) input (bzrtpPacketStringLength event) zrtpPacket
  = Some (ret0, zrtpPacket') ->
  as_commit zrtpPacket' = Some peerCommitMessage ->
  slot (selfPackets (zrtpChannelContext m)) COMMIT_MESSAGE_STORE_ID = Some selfCommit ->
  as_commit selfCommit = Some selfCommitMessage ->
  role (zrtpChannelContext m) = BZRTP_ROLE_INITIATOR ->
  commit_keyAgreementAlgo peerCommitMessage ≠ commit_keyAgreementAlgo selfCommitMessage ->
  commit_keyAgreementAlgo selfCommitMessage ≠ ZRTP_KEYAGREEMENT_Prsh ->
  state_keyAgreement_sendingCommit event m
  = Some (ret0,
          {| zrtpContext := zrtpContext m;
             zrtpChannelContext :=
               set_peerSequenceNumber (sequenceNumber zrtpPacket') (zrtpChannelContext m);
             sent := sent m |}).
Proof.
  intros Hev Hin Hcheck Htype Hparse Hpeer Hslot Hself Hrole Halgo Hprsh.
  pose proof (packetParser_messageType _ _ _ _ _ _ Hparse) as Htype'.
  rewrite Htype in Htype'.
  unfold state_keyAgreement_sendingCommit, commit_contention, set_peerSequenceNumber_of.
  rewrite Hev. run_M. do 2 step_decide.
  rewrite Hin, Hcheck. cbn. rewrite Htype. repeat step_decide.
  rewrite Hparse. cbn. step_decide. cbn.
  rewrite Htype'. repeat step_decide.
  rewrite Hpeer. cbn. rewrite Hslot. cbn. rewrite Hself. cbn.
  repeat step_decide. cbn. rewrite Hrole. by step_decide.
Qed.

Lemma sendingCommit_contention_skipped_witness :
  let m := sample_machine sample_context (sample_committed ZRTP_KEYAGREEMENT_DH3k 0x00) in
  let input := sample_peerCommit ZRTP_KEYAGREEMENT_DH2k 0xFF in
  exists m',
    state_keyAgreement_sendingCommit
      (H := sample_Crypto) (H0 := sample_Host) (H1 := sample_API)
      (sample_event input) m = Some (ret0, m')
    /\ role (zrtpChannelContext m') = BZRTP_ROLE_INITIATOR
    /\ stateMachine (zrtpChannelContext m') = fn_state_keyAgreement_sendingCommit
    /\ slot (selfPackets (zrtpChannelContext m')) COMMIT_MESSAGE_STORE_ID
       = slot (selfPackets (zrtpChannelContext m)) COMMIT_MESSAGE_STORE_ID.
Proof.
  intros m input. eexists. split.
  - apply (sendingCommit_contention_skipped
             (H := sample_Crypto) (H0 := sample_Host) (H1 := sample_API)
             (sample_event input) m input (sample_checked input 1)
             (sample_parsed (zrtpChannelContext m) input).2
             (sample_built sample_self MSGTYPE_COMMIT
                (CommitMessage (sample_CommitMessage sample_self ZRTP_KEYAGREEMENT_DH3k 0)) 2)
             (default (sample_CommitMessage sample_peer ZRTP_KEYAGREEMENT_DH3k 0)
                (as_commit (sample_parsed (zrtpChannelContext m) input).2))
             (sample_CommitMessage sample_self ZRTP_KEYAGREEMENT_DH3k 0)).
    + reflexivity.
    + reflexivity.
    + by vm_compute.
    + by vm_compute.
    + by vm_compute.
    + by vm_compute.
    + by vm_compute.
    + reflexivity.
    + reflexivity.
    + by vm_compute.
    + by vm_compute.
  - by vm_compute.
Defined.


(** ** [state_discovery_waitingForHelloAck]: a repeated Hello *)

(** The packet [bzrtp_packetCheck] returns has no packet string. *)
Lemma packetCheck_packetString `{Externals} (input : list Z) (inputLength : Z)
    (chan : option bzrtpChannelContext_t) (p : bzrtpPacket_t) :
  check_packet (bzrtp_packetCheck input inputLength chan) = Some p ->
  packetString p = None.
Proof.
  unfold bzrtp_packetCheck, packetCheck_message. intros Hp.
  repeat (case_match; simplify_eq/=; try done).
Qed.




(** ** [bzrtp_packetParser]: the stored packet is missing *)






(** ** [bzrtp_packetParser]: the hash chain *)

(** The parser gives the verdict of the specification when it is a
    rejection. *)
Lemma packetParser_hash_chain `{Externals} (chan : bzrtpChannelContext_t) (input : list Z)
    (inputLength : Z) (p : bzrtpPacket_t) (r : retval_t) :
  reaches_prerequisite chan input p ->
  spec_hash_chain_verdict chan input p = Some r ->
  r ≠ ret0 ->
  bzrtp_packetParser chan input inputLength p = Some (r, p).
Proof.
  unfold reaches_prerequisite, spec_hash_chain_verdict, spec_reveal_verdict, bzrtp_packetParser.
  intros Hreaches Hverdict Hr.
  destruct (messageType p) eqn:Htype; try done.
  - unfold packetParser_COMMIT. cbv zeta.
    destruct (slot (peerPackets chan) HELLO_MESSAGE_STORE_ID) as [stored|]; [|done].
    cbn in Hverdict |- *.
    destruct (as_hello stored) as [hello|]; [|done]. cbn in Hverdict |- *.
    destruct (message_bytes stored _) as [message|]; [|done]. cbn in Hverdict |- *.
    repeat case_decide; by simplify_eq.
  - unfold packetParser_DHPART. rewrite Htype. destruct Hreaches as [Hpv Hlen].
    cbv zeta. rewrite decide_False, decide_False by side.
    case_decide.
    + destruct (slot (peerPackets chan) COMMIT_MESSAGE_STORE_ID) as [stored|]; [|done].
      cbn in Hverdict |- *.
      destruct (as_commit stored) as [commit|]; [|done]. cbn in Hverdict |- *.
      destruct (message_bytes stored _) as [message|]; [|done]. cbn in Hverdict |- *.
      repeat case_decide; by simplify_eq.
    + destruct (slot (peerPackets chan) HELLO_MESSAGE_STORE_ID) as [stored|]; [|done].
      cbn in Hverdict |- *.
      destruct (as_hello stored) as [hello|]; [|done]. cbn in Hverdict |- *.
      destruct (message_bytes stored _) as [message|]; [|done]. cbn in Hverdict |- *.
      repeat case_decide; by simplify_eq.
  - unfold packetParser_DHPART. rewrite Htype. destruct Hreaches as [Hpv Hlen].
    cbv zeta. rewrite decide_False, decide_False by side.
    case_decide.
    + destruct (slot (peerPackets chan) COMMIT_MESSAGE_STORE_ID) as [stored|]; [|done].
      cbn in Hverdict |- *.
      destruct (as_commit stored) as [commit|]; [|done]. cbn in Hverdict |- *.
      destruct (message_bytes stored _) as [message|]; [|done]. cbn in Hverdict |- *.
      repeat case_decide; by simplify_eq.
    + destruct (slot (peerPackets chan) HELLO_MESSAGE_STORE_ID) as [stored|]; [|done].
      cbn in Hverdict |- *.
      destruct (as_hello stored) as [hello|]; [|done]. cbn in Hverdict |- *.
      destruct (message_bytes stored _) as [message|]; [|done]. cbn in Hverdict |- *.
      repeat case_decide; by simplify_eq.
Qed.

(** In the states that parse it, a packet the parser rejects leaves the
    machine as it was: the state function returns the error. *)
Lemma stateMachine_parser_error `{Externals, Host, PacketParserAPI}
    (event : bzrtpEvent_t) (m : machine_t) (input : list Z) (p p' : bzrtpPacket_t)
    (r : retval_t) :
  eventType event = BZRTP_EVENT_MESSAGE ->
  bzrtpPacketString event = Some input ->
  api_packetCheck input (bzrtpPacketStringLength event)
    (peerSequenceNumber (zrtpChannelContext m)) = (ret0, Some p) ->
  parsed_in_state (zrtpChannelContext m) p ->
  bzrtp_packetParser (zrtpChannelContext m) input (bzrtpPacketStringLength event) p
  = Some (r, p') ->
  r ≠ ret0 ->
  stateMachine_call event m = Some (r, m).
Proof.
  intros Hev Hin Hcheck Hstate Hparse Hr.
  unfold stateMachine_call, parsed_in_state in *. run_M.
  destruct (stateMachine (zrtpChannelContext m)); try done.
  - unfold state_discovery_waitingForHelloAck.
    rewrite Hev. run_M. step_decide.
    rewrite Hin, Hcheck. cbn. rewrite Hstate. repeat step_decide.
    rewrite Hparse. cbn beta iota. by rewrite failed_true.
  - unfold state_keyAgreement_sendingCommit.
    rewrite Hev. run_M. do 2 step_decide.
    rewrite Hin, Hcheck. cbn.
    destruct Hstate as [Htype|[Htype Halgo]]; rewrite Htype; repeat step_decide;
      rewrite Hparse; cbn beta iota; by rewrite failed_true.
  - destruct Hstate as [Htype Hself].
    unfold state_keyAgreement_responderSendingDHPart1.
    rewrite Hev. run_M. do 3 step_decide.
    rewrite Hin, Hcheck. cbn. rewrite Htype. repeat step_decide.
    rewrite Hparse. cbn beta iota. by rewrite failed_true.
Qed.


